(** * real_estate_sim: the HousingMarket simulation, embedded and verified

    A shallow embedding of [src/real_estate_sim.py].

    Numbers.  Python floats and NumPy float64 cells are idealised as real
    numbers: rounding, overflow and signed zeros are not modelled.  What
    floating point adds to the reals and the code can reach (inf and NaN
    out of a NumPy division by zero, NaN or a complex number out of a
    power with negative base) is kept apart as the cell [Untracked]: a
    value the development follows no further.  Python scalar division,
    in contrast, raises [ZeroDivisionError], and is modelled so.

    Objects.  [self] is threaded explicitly: a method that assigns an
    attribute returns the updated object.  A pandas DataFrame is a row
    count with a finite map from column names to columns; its index is
    always 0..n-1, as after [reset_index(drop=True)]. *)

From Stdlib Require Import Reals Lra Lia ZArith String Ascii DecimalString.
From stdpp Require Import gmap strings list sorting.

Open Scope R_scope.

(** ** Python values and exceptions *)

(** The two numeric types the constructor's docstring speaks of. *)
Inductive number :=
  | PyInt (z : Z)
  | PyFloat (x : R).

Definition num_val (n : number) : R :=
  match n with
  | PyInt z => IZR z
  | PyFloat x => x
  end.

(** What [mkt_value], [monthly_rent] and [price_to_rent] may hold:
    [None], a number, or a tuple of numbers. *)
Inductive pyval :=
  | VNone
  | VNum (n : number)
  | VTuple (l : list number).

Inductive exn :=
  | TypeError
  | ValueError
  | ZeroDivisionError
  | AssertionError
  | AttributeError
  | IndexError
  | KeyError.

Inductive result (A : Type) :=
  | Ok (a : A)
  | Raise (e : exn).
Arguments Ok {A} a.
Arguments Raise {A} e.

#[export] Instance result_ret : MRet result := fun A a => Ok a.
#[export] Instance result_bind : MBind result := fun A B f r =>
  match r with
  | Ok a => f a
  | Raise e => Raise e
  end.

Definition is_none (v : pyval) : bool :=
  match v with
  | VNone => true
  | _ => false
  end.

(** The operand of an arithmetic operator with a float on the other side:
    [None] and tuples raise [TypeError]. *)
Definition as_number (v : pyval) : result R :=
  match v with
  | VNum n => Ok (num_val n)
  | _ => Raise TypeError
  end.

(** [a / b] on Python scalars. *)
Definition py_div (a b : R) : result R :=
  if Req_dec_T b 0 then Raise ZeroDivisionError else Ok (a / b).

(** Truth value of [v], as [or] tests it. *)
Definition truthy (v : pyval) : bool :=
  match v with
  | VNone => false
  | VNum (PyInt z) => negb (Z.eqb z 0)
  | VNum (PyFloat x) => if Req_dec_T x 0 then false else true
  | VTuple l => negb (Nat.eqb (length l) 0)
  end.

(** [v or d] *)
Definition py_or (v d : pyval) : pyval := if truthy v then v else d.

(** ** [str] and [str.isnumeric] *)

(** The text of a value.  An int prints in decimal.  A float is printed by
    CPython's shortest-repr routine and a tuple between parentheses; these
    two texts are kept symbolic. *)
Inductive pytext :=
  | Text (s : string)
  | FloatText (x : R)
  | TupleText (l : list number).

Definition py_str (v : pyval) : pytext :=
  match v with
  | VNone => Text "None"
  | VNum (PyInt z) => Text (NilZero.string_of_int (Z.to_int z))
  | VNum (PyFloat x) => FloatText x
  | VTuple l => TupleText l
  end.

Definition is_digit (c : ascii) : bool :=
  (48 <=? nat_of_ascii c)%nat && (nat_of_ascii c <=? 57)%nat.

(** On ASCII text [isnumeric] holds of the non-empty digit strings. *)
Definition str_isnumeric (s : string) : bool :=
  match s with
  | EmptyString => false
  | _ => forallb is_digit (list_ascii_of_string s)
  end.

(** The repr of a float always holds a ['.'], an ['e'], or spells [inf] or
    [nan]; the repr of a tuple starts with ['(']: neither is numeric. *)
Definition isnumeric (t : pytext) : bool :=
  match t with
  | Text s => str_isnumeric s
  | FloatText _ => false
  | TupleText _ => false
  end.

(** ** Float cells *)

(** A float64 as a column holds it. *)
Inductive cell :=
  | Real (x : R)
  | Untracked.

Definition cell_lift2 (f : R -> R -> R) (a b : cell) : cell :=
  match a, b with
  | Real x, Real y => Real (f x y)
  | _, _ => Untracked
  end.

Definition cadd := cell_lift2 Rplus.
Definition csub := cell_lift2 Rminus.
Definition cmul := cell_lift2 Rmult.

(** NumPy division: a zero divisor gives inf or NaN, no exception. *)
Definition cdiv (a b : cell) : cell :=
  match a, b with
  | Real x, Real y => if Req_dec_T y 0 then Untracked else Real (x / y)
  | _, _ => Untracked
  end.

Declare Scope cell_scope.
Delimit Scope cell_scope with cell.
Bind Scope cell_scope with cell.
Infix "+" := cadd : cell_scope.
Infix "-" := csub : cell_scope.
Infix "*" := cmul : cell_scope.
Infix "/" := cdiv : cell_scope.

(** [x ** y] on the reals, before Python or NumPy decide what to do at a
    pole or outside the reals. *)
Inductive power :=
  | PowReal (x : R)
  | PowPole
  | PowNotReal.

Definition real_pow (x y : R) : power :=
  if Rlt_dec 0 x then PowReal (Rpower x y)
  else if Req_dec_T x 0 then
    if Rlt_dec 0 y then PowReal 0
    else if Req_dec_T y 0 then PowReal 1
    else PowPole
  else
    if Req_dec_T y (IZR (Int_part y)) then PowReal (powerRZ x (Int_part y))
    else PowNotReal.

(** Python [float ** float]: zero to a negative power raises, a negative
    base to a fractional power gives a complex number. *)
Definition py_pow (x y : R) : result cell :=
  match real_pow x y with
  | PowReal z => Ok (Real z)
  | PowPole => Raise ZeroDivisionError
  | PowNotReal => Ok Untracked
  end.

(** NumPy [float64 ** float]: inf at the pole, NaN outside the reals. *)
Definition np_pow (a : cell) (y : R) : cell :=
  match a with
  | Real x =>
      match real_pow x y with
      | PowReal z => Real z
      | _ => Untracked
      end
  | Untracked => Untracked
  end.

(** [Series.sum()] *)
Definition csum (l : list cell) : cell := foldr cadd (Real 0) l.

(** [Series.mean()] *)
Definition cmean (l : list cell) : cell := (csum l / Real (INR (length l)))%cell.

(** [Series.cumprod()] *)
Fixpoint cumprod_from (acc : cell) (l : list cell) : list cell :=
  match l with
  | [] => []
  | x :: l' => let acc' := (acc * x)%cell in acc' :: cumprod_from acc' l'
  end.

Definition cumprod (l : list cell) : list cell := cumprod_from (Real 1) l.

(** ** DataFrames *)

Record DataFrame := mkDataFrame {
  nrows : nat;
  columns : gmap string (list cell)
}.

(** [df.index] *)
Definition df_index (df : DataFrame) : list nat := seq 0 (nrows df).

(** [df[name]] *)
Definition df_get (df : DataFrame) (name : string) : result (list cell) :=
  match columns df !! name with
  | Some c => Ok c
  | None => Raise KeyError
  end.

(** [df[name] = series] *)
Definition df_set (df : DataFrame) (name : string) (c : list cell) : DataFrame :=
  mkDataFrame (nrows df) (<[name := c]> (columns df)).

(** [df[name] = scalar] *)
Definition df_set_scalar (df : DataFrame) (name : string) (x : cell) : DataFrame :=
  df_set df name (replicate (nrows df) x).

(** [df.drop(name, axis=1, inplace=True)] of a column that is there. *)
Definition df_drop (df : DataFrame) (name : string) : DataFrame :=
  mkDataFrame (nrows df) (delete name (columns df)).

(** [df.loc[df.index[-1], name]] *)
Definition df_last (df : DataFrame) (name : string) : result cell :=
  match nrows df with
  | O => Raise IndexError
  | S k =>
      c ← df_get df name;
      match c !! k with
      | Some x => Ok x
      | None => Raise KeyError
      end
  end.

(** The rows of [df] selected by [keep], one flag per row. *)
Fixpoint select {A} (keep : list bool) (l : list A) : list A :=
  match keep, l with
  | b :: keep', x :: l' => if b then x :: select keep' l' else select keep' l'
  | _, _ => []
  end.

Definition df_select (df : DataFrame) (keep : list bool) : DataFrame :=
  mkDataFrame (length (select keep (df_index df))) (select keep <$> columns df).

(** [df[names]]: the frame restricted to the named columns. *)
Definition df_project (df : DataFrame) (names : list string) : result DataFrame :=
  foldr (fun name acc => d ← acc; c ← df_get df name; Ok (df_set d name c))
        (Ok (mkDataFrame (nrows df) ∅)) names.

(** [pd.concat([df.copy() for _ in range(k)])] followed by
    [reset_index(drop=True)]; [concat] refuses an empty list. *)
Definition concat_copies (df : DataFrame) (k : nat) : result DataFrame :=
  match k with
  | O => Raise ValueError
  | _ => Ok (mkDataFrame (k * nrows df) ((fun c => mjoin (replicate k c)) <$> columns df))
  end.

(** *** groupby *)

#[export] Instance R_eq_dec : EqDecision R := Req_dec_T.
#[export] Instance Rle_decision (x y : R) : Decision (x <= y) := Rle_dec x y.

(** The keys that are numbers; a row whose key is not a number belongs to
    no group. *)
Definition real_keys (ks : list cell) : list R :=
  omap (fun c => match c with Real x => Some x | Untracked => None end) ks.

(** The group keys: distinct, ascending. *)
Definition group_keys (ks : list cell) : list R :=
  merge_sort Rle (remove_dups (real_keys ks)).

Definition has_key (k : R) (c : cell) : bool :=
  match c with
  | Real x => bool_decide (x = k)
  | Untracked => false
  end.

(** [df.groupby(key).apply(f)]: one value per group, keyed by the group. *)
Definition groupby_apply (df : DataFrame) (key : string)
    (f : DataFrame -> result cell) : result (list (R * cell)) :=
  ks ← df_get df key;
  mapM (fun k => v ← f (df_select df (has_key k <$> ks)); Ok (k, v)) (group_keys ks).

(** ** The HousingMarket object *)

Record HousingMarket := mkHousingMarket {
  mkt_value : pyval;
  monthly_rent : pyval;
  growth : R;
  price_to_rent : pyval;
  capital_gain : R;
  transaction_fee : R;
  mortgage_rate : R;
  property_tax_annual : R;
  mortgage_fee : R;
  downpayment : R;
  management_fee : R;
  rental_tax_n_depreciation : R;
  interest_rate : R;
  (** the attributes below are unset until assigned *)
  capital : option R;
  years : option Z;
  pretax_df : option DataFrame
}.

Definition set_price_to_rent (v : pyval) (s : HousingMarket) : HousingMarket :=
  mkHousingMarket (mkt_value s) (monthly_rent s) (growth s) v (capital_gain s)
    (transaction_fee s) (mortgage_rate s) (property_tax_annual s) (mortgage_fee s)
    (downpayment s) (management_fee s) (rental_tax_n_depreciation s) (interest_rate s)
    (capital s) (years s) (pretax_df s).

Definition set_mkt_value (v : pyval) (s : HousingMarket) : HousingMarket :=
  mkHousingMarket v (monthly_rent s) (growth s) (price_to_rent s) (capital_gain s)
    (transaction_fee s) (mortgage_rate s) (property_tax_annual s) (mortgage_fee s)
    (downpayment s) (management_fee s) (rental_tax_n_depreciation s) (interest_rate s)
    (capital s) (years s) (pretax_df s).

Definition set_capital (c : R) (s : HousingMarket) : HousingMarket :=
  mkHousingMarket (mkt_value s) (monthly_rent s) (growth s) (price_to_rent s)
    (capital_gain s) (transaction_fee s) (mortgage_rate s) (property_tax_annual s)
    (mortgage_fee s) (downpayment s) (management_fee s) (rental_tax_n_depreciation s)
    (interest_rate s) (Some c) (years s) (pretax_df s).

Definition set_years (y : Z) (s : HousingMarket) : HousingMarket :=
  mkHousingMarket (mkt_value s) (monthly_rent s) (growth s) (price_to_rent s)
    (capital_gain s) (transaction_fee s) (mortgage_rate s) (property_tax_annual s)
    (mortgage_fee s) (downpayment s) (management_fee s) (rental_tax_n_depreciation s)
    (interest_rate s) (capital s) (Some y) (pretax_df s).

Definition set_pretax_df (df : DataFrame) (s : HousingMarket) : HousingMarket :=
  mkHousingMarket (mkt_value s) (monthly_rent s) (growth s) (price_to_rent s)
    (capital_gain s) (transaction_fee s) (mortgage_rate s) (property_tax_annual s)
    (mortgage_fee s) (downpayment s) (management_fee s) (rental_tax_n_depreciation s)
    (interest_rate s) (capital s) (years s) (Some df).

(** Reading an attribute that may be unset. *)
Definition attr {A} (a : option A) : result A :=
  match a with
  | Some x => Ok x
  | None => Raise AttributeError
  end.

(** What the constructor writes to standard output. *)
Inductive printed :=
  | Line (s : string)
  | ArgsFrame (shown : HousingMarket).

(** [print_args]: a title, then the attributes of [self] as a frame. *)
Definition print_args (self : HousingMarket) : list printed :=
  [Line "Args provided:"; ArgsFrame self].

(** *** The constructor *)

(** The keyword arguments of [__init__]. *)
Record Args := mkArgs {
  arg_mkt_value : pyval;
  arg_monthly_rent : pyval;
  arg_growth : R;
  arg_price_to_rent : pyval;
  arg_rental_tax_n_depreciation : R;
  arg_capital_gain : R;
  arg_transaction_fee : R;
  arg_mortgage_rate : R;
  arg_property_tax : R;
  arg_interest_rate : R;
  arg_mortgage_fee : R;
  arg_downpayment : R;
  arg_management_fee : R
}.

(** Their default values. *)
Definition defaults : Args :=
  mkArgs VNone VNone 0.05 VNone 0.1 0.2 0.05 0.04 0.015 0.015 0.01 0.03 0.08.

(** Lines 32-37: what [self.price_to_rent] is first set to.  The text of
    [None] is not numeric ([isnumeric_none] below). *)
Definition init_price_to_rent (v : pyval) : pyval :=
  match v with
  | VTuple l => VTuple l
  | VNum n => if isnumeric (py_str v) then VTuple [n; n] else VNone
  | VNone => VNone
  end.

(** Lines 29-46: the attributes as first assigned. *)
Definition init_fields (a : Args) : HousingMarket :=
  {| mkt_value := arg_mkt_value a;
     monthly_rent := arg_monthly_rent a;
     growth := arg_growth a;
     price_to_rent := init_price_to_rent (arg_price_to_rent a);
     capital_gain := arg_capital_gain a;
     transaction_fee := arg_transaction_fee a;
     mortgage_rate := arg_mortgage_rate a;
     property_tax_annual := arg_property_tax a;
     mortgage_fee := arg_mortgage_fee a;
     downpayment := arg_downpayment a;
     management_fee := arg_management_fee a;
     rental_tax_n_depreciation := arg_rental_tax_n_depreciation a;
     interest_rate := arg_interest_rate a;
     capital := None;
     years := None;
     pretax_df := None |}.

Definition no_values_message : string :=
  "No values provided. Either provide (mkt_value, monthly_rent) or price_to_rent.".

(** Lines 52-56: the trajectory out of market value and rent, or else the
    default market value beside a given [price_to_rent]. *)
Definition init_trajectory (a : Args) (self : HousingMarket) : result HousingMarket :=
  if negb (is_none (arg_mkt_value a)) && negb (is_none (arg_monthly_rent a)) then
    m ← as_number (arg_mkt_value a);
    r ← as_number (arg_monthly_rent a);
    ptr ← py_div m (12 * r);
    Ok (set_price_to_rent (VTuple [PyFloat ptr; PyFloat ptr]) self)
  else if negb (is_none (arg_price_to_rent a)) then
    Ok (set_mkt_value (py_or (arg_mkt_value a) (VNum (PyFloat 5e5))) self)
  else Ok self.

(** Line 58: [self.capital = self.mkt_value * downpayment]. *)
Definition init_capital (self : HousingMarket) : result HousingMarket :=
  m ← as_number (mkt_value self);
  Ok (set_capital (m * downpayment self) self).

Definition init_resolve (a : Args) (self : HousingMarket) : result HousingMarket :=
  self ← init_trajectory a self;
  init_capital self.

(** [HousingMarket(...)]: the output written and the object, or the
    exception raised. *)
Definition __init__ (a : Args) : list printed * result HousingMarket :=
  let self := init_fields a in
  if is_none (arg_mkt_value a) && is_none (arg_monthly_rent a)
     && is_none (arg_price_to_rent a)
  then ([Line no_values_message], Ok self)
  else
    match init_resolve a self with
    | Ok self => (print_args self, Ok self)
    | Raise e => ([], Raise e)
    end.

(** *** The methods *)

(** [len(ptr)] *)
Definition py_len (v : pyval) : result nat :=
  match v with
  | VTuple l => Ok (length l)
  | _ => Raise TypeError
  end.

(** [calc_running_ptr_ratio]: the column of ratios, and [df] as the call
    leaves it (the scratch column added, then dropped). *)
Definition calc_running_ptr_ratio (df : DataFrame) (ptr : pyval)
    : result (DataFrame * list cell) :=
  n ← py_len ptr;
  match ptr with
  | VTuple [start; end_] =>
      let df := df_set_scalar df "ptr_ratio_temp_" (Real (num_val start)) in
      cur ← df_get df "ptr_ratio_temp_";
      slope ← py_div (num_val end_ - num_val start) (IZR (Z.of_nat (nrows df) - 1));
      let df := df_set df "ptr_ratio_temp_"
                  (zip_with cadd cur ((fun i => Real (slope * INR i)) <$> df_index df)) in
      res ← df_get df "ptr_ratio_temp_";
      Ok (df_drop df "ptr_ratio_temp_", res)
  | _ => Raise AssertionError
  end.

(** [mortgage_payments].  Line 145 is Python float arithmetic.  Over the
    reals the quotient fails where its denominator is zero, and there the
    floats agree ([ZeroDivisionError]).  The floats fail in two more
    places, which the reals cannot tell: the power overflows for a large
    [n] ([OverflowError]), and for a rate below the resolution of the
    floats [1 + rate_m] rounds to 1 and the denominator to zero.  What
    is proved of the payment is therefore stated for calls that return. *)
Definition mortgage_payments (self : HousingMarket) (df : DataFrame) : result DataFrame :=
  m ← as_number (mkt_value self);
  let p := m * (1 - downpayment self) * (1 + mortgage_fee self) in
  let rate_m := mortgage_rate self / 12 in
  let n := nrows df in
  pay ← py_div (p * rate_m * (1 + rate_m) ^ n) ((1 + rate_m) ^ n - 1);
  Ok (df_set_scalar df "monthly_mortgage" (Real pay)).

(** [calc_property_tax], on the two entries of the row, both float64 once
    [apply] has cut the row out of the frame. *)
Definition calc_property_tax (self : HousingMarket) (month market_value : cell) : cell :=
  match month with
  | Real m =>
      if Req_dec_T m 12 then (market_value * Real (property_tax_annual self))%cell
      else Real 0
  | Untracked => Untracked
  end.

(** [calc_annual_ret] *)
Definition calc_annual_ret (df : DataFrame) : result cell :=
  ni ← df_get df "net_income";
  let income := csum ni in
  mv ← df_get df "market_value";
  let mean_mkt_val := cmean mv in
  Ok (income / mean_mkt_val)%cell.

(** The dictionary [calc_return] returns. *)
Record Results := mkResults {
  total_ret : cell;
  rental_ret : list (R * cell);
  appreciation : cell;
  income_stream : list (R * cell)
}.

(** [calc_return]: the results, and [df] with the two discount columns the
    call adds to it. *)
Definition calc_return (self : HousingMarket) (df : DataFrame)
    : result (Results * DataFrame) :=
  let r := 1 + interest_rate self / 12 in
  let df := df_set df "discount_factor" ((fun i => Real (r ^ (i + 1))) <$> df_index df) in
  ni ← df_get df "net_income";
  dfac ← df_get df "discount_factor";
  let df := df_set df "discounted_net_income" (zip_with cdiv ni dfac) in
  dni ← df_get df "discounted_net_income";
  let total := csum dni in
  mv_last ← df_last df "market_value";
  cap ← attr (capital self);
  let cap_gain := ((mv_last * Real (1 - transaction_fee self) - Real cap)
                   * Real (1 - capital_gain self))%cell in
  dfac_last ← df_last df "discount_factor";
  let cap_gain := (cap_gain / dfac_last)%cell in
  let total := (total + (cap_gain + Real cap))%cell in
  let total := (total / Real cap)%cell in
  y ← attr (years self);
  e ← py_div 1 (IZR y);
  let annualized_total_ret := (np_pow total e - Real 1)%cell in
  let annualized_appreciation := (np_pow (cap_gain / Real cap) e - Real 1)%cell in
  by_year ← df_project df ["years"; "market_value"; "net_income"];
  annual_rental_ret ← groupby_apply by_year "years" calc_annual_ret;
  by_year ← df_project df ["years"; "net_income"];
  annual_income_stream ←
    groupby_apply by_year "years" (fun x => ni ← df_get x "net_income"; Ok (csum ni));
  Ok ({| total_ret := annualized_total_ret;
         rental_ret := annual_rental_ret;
         appreciation := annualized_appreciation;
         income_stream := annual_income_stream |}, df).

(** [pd.DataFrame({"month": range(1, 13)})] *)
Definition month_frame : DataFrame :=
  mkDataFrame 12 {[ "month" := (fun m => Real (INR m)) <$> seq 1 12 ]}.

(** Lines 75-85 of [run_simulation]: the frame up to [monthly_rent].  A
    market value that is no number raises [TypeError] at
    [self.mkt_value * df["cum_growth"]]; the constructor lets none but
    [None] through. *)
Definition projection (self : HousingMarket) (years : Z) : result DataFrame :=
  df ← concat_copies month_frame (Z.to_nat years);
  let df := df_set df "years" ((fun i => Real (INR (i / 12 + 1))) <$> df_index df) in
  g ← py_pow (growth self + 1) (1 / 12);
  let df := df_set_scalar df "growth" (g - Real 1)%cell in
  gr ← df_get df "growth";
  let df := df_set df "cum_growth" (cumprod ((fun x => x + Real 1)%cell <$> gr)) in
  m ← as_number (mkt_value self);
  cg ← df_get df "cum_growth";
  let df := df_set df "market_value" ((fun x => Real m * x)%cell <$> cg) in
  '(df, ptr) ← calc_running_ptr_ratio df (price_to_rent self);
  let df := df_set df "ptr_ratio" ptr in
  mv ← df_get df "market_value";
  pr ← df_get df "ptr_ratio";
  Ok (df_set df "monthly_rent" ((fun x => x / Real 12)%cell <$> zip_with cdiv mv pr)).

(** Lines 88-99 of [run_simulation]: mortgage, spendings, net income and
    the returns. *)
Definition cash_flows (self : HousingMarket) (df : DataFrame)
    : result (Results * DataFrame) :=
  df ← mortgage_payments self df;
  rent ← df_get df "monthly_rent";
  let df := df_set df "monthly_spending"
              ((fun x => x * Real (management_fee self))%cell <$> rent) in
  sp ← df_get df "monthly_spending";
  rent ← df_get df "monthly_rent";
  mo ← df_get df "monthly_mortgage";
  let df := df_set df "monthly_spending"
              (zip_with cadd sp
                 ((fun x => x * Real (rental_tax_n_depreciation self))%cell
                    <$> zip_with csub rent mo)) in
  sp ← df_get df "monthly_spending";
  month ← df_get df "month";
  mv ← df_get df "market_value";
  let df := df_set df "monthly_spending"
              (zip_with cadd sp (zip_with (calc_property_tax self) month mv)) in
  rent ← df_get df "monthly_rent";
  mo ← df_get df "monthly_mortgage";
  sp ← df_get df "monthly_spending";
  let df := df_set df "net_income" (zip_with csub (zip_with csub rent mo) sp) in
  calc_return self df.

(** [run_simulation]: [self] after the call, and what the call returns or
    raises.  [self.years] is assigned on entry and [self.pretax_df] once
    the frame holds [monthly_rent]. *)
Definition run_simulation (self : HousingMarket) (years : Z)
    : HousingMarket * result (Results * DataFrame) :=
  let self := set_years years self in
  match projection self years with
  | Raise e => (self, Raise e)
  | Ok df =>
      let self := set_pretax_df df self in
      (self, cash_flows self df)
  end.

(** Arguments by keyword, over the defaults. *)
Definition with_mkt_value (v : pyval) (a : Args) : Args :=
  mkArgs v (arg_monthly_rent a) (arg_growth a) (arg_price_to_rent a)
    (arg_rental_tax_n_depreciation a) (arg_capital_gain a) (arg_transaction_fee a)
    (arg_mortgage_rate a) (arg_property_tax a) (arg_interest_rate a)
    (arg_mortgage_fee a) (arg_downpayment a) (arg_management_fee a).

Definition with_monthly_rent (v : pyval) (a : Args) : Args :=
  mkArgs (arg_mkt_value a) v (arg_growth a) (arg_price_to_rent a)
    (arg_rental_tax_n_depreciation a) (arg_capital_gain a) (arg_transaction_fee a)
    (arg_mortgage_rate a) (arg_property_tax a) (arg_interest_rate a)
    (arg_mortgage_fee a) (arg_downpayment a) (arg_management_fee a).

Definition with_price_to_rent (v : pyval) (a : Args) : Args :=
  mkArgs (arg_mkt_value a) (arg_monthly_rent a) (arg_growth a) v
    (arg_rental_tax_n_depreciation a) (arg_capital_gain a) (arg_transaction_fee a)
    (arg_mortgage_rate a) (arg_property_tax a) (arg_interest_rate a)
    (arg_mortgage_fee a) (arg_downpayment a) (arg_management_fee a).

Definition with_mortgage_rate (x : R) (a : Args) : Args :=
  mkArgs (arg_mkt_value a) (arg_monthly_rent a) (arg_growth a) (arg_price_to_rent a)
    (arg_rental_tax_n_depreciation a) (arg_capital_gain a) (arg_transaction_fee a)
    x (arg_property_tax a) (arg_interest_rate a)
    (arg_mortgage_fee a) (arg_downpayment a) (arg_management_fee a).

(** A scenario is resolved when it holds a market value, a two-point
    trajectory and the capital. *)
Definition resolved (s : HousingMarket) : Prop :=
  ∃ m st en c,
    mkt_value s = VNum m ∧ price_to_rent s = VTuple [st; en] ∧ capital s = Some c.

(** The configuration of a scenario: every attribute the constructor
    assigns. *)
Definition config (s : HousingMarket)
    : pyval * pyval * R * pyval * (R * R * R * R) * (R * R * R * R * R) * option R :=
  (mkt_value s, monthly_rent s, growth s, price_to_rent s,
   (capital_gain s, transaction_fee s, mortgage_rate s, property_tax_annual s),
   (mortgage_fee s, downpayment s, management_fee s, rental_tax_n_depreciation s,
    interest_rate s),
   capital s).

(** The amortising payment of the annuity formula, on the reals. *)
Definition annuity_numerator (s : HousingMarket) (m : R) (n : nat) : R :=
  m * (1 - downpayment s) * (1 + mortgage_fee s) * (mortgage_rate s / 12)
  * (1 + mortgage_rate s / 12) ^ n.

Definition annuity_denominator (s : HousingMarket) (n : nat) : R :=
  (1 + mortgage_rate s / 12) ^ n - 1.

(** An example: [HousingMarket(price_to_rent=20)], and the object it
    constructs. *)
Definition example_args : Args := with_price_to_rent (VNum (PyInt 20)) defaults.

Definition example_scenario : HousingMarket :=
  {| mkt_value := VNum (PyFloat 5e5);
     monthly_rent := VNone;
     growth := 0.05;
     price_to_rent := VTuple [PyInt 20; PyInt 20];
     capital_gain := 0.2;
     transaction_fee := 0.05;
     mortgage_rate := 0.04;
     property_tax_annual := 0.015;
     mortgage_fee := 0.01;
     downpayment := 0.03;
     management_fee := 0.08;
     rental_tax_n_depreciation := 0.1;
     interest_rate := 0.015;
     capital := Some (5e5 * 0.03);
     years := None;
     pretax_df := None |}.

(** The same with [mortgage_rate=0]. *)
Definition zero_rate_args : Args := with_mortgage_rate 0 example_args.

Definition zero_rate_scenario : HousingMarket :=
  {| mkt_value := VNum (PyFloat 5e5);
     monthly_rent := VNone;
     growth := 0.05;
     price_to_rent := VTuple [PyInt 20; PyInt 20];
     capital_gain := 0.2;
     transaction_fee := 0.05;
     mortgage_rate := 0;
     property_tax_annual := 0.015;
     mortgage_fee := 0.01;
     downpayment := 0.03;
     management_fee := 0.08;
     rental_tax_n_depreciation := 0.1;
     interest_rate := 0.015;
     capital := Some (5e5 * 0.03);
     years := None;
     pretax_df := None |}.

(** A frame of one month, as [calc_return] may be given. *)
Definition one_month_frame : DataFrame :=
  df_set (df_set (df_set (mkDataFrame 1 ∅) "years" [Real 1])
            "market_value" [Real 5e5])
    "net_income" [Real 100].

(** A frame of one month with a loss of a million. *)
Definition losing_month_frame : DataFrame :=
  df_set (df_set (df_set (mkDataFrame 1 ∅) "years" [Real 1])
            "market_value" [Real 5e5])
    "net_income" [Real (-1e6)].

(** [interest_rate=x] beside the other keyword arguments. *)
Definition with_interest_rate (x : R) (a : Args) : Args :=
  mkArgs (arg_mkt_value a) (arg_monthly_rent a) (arg_growth a) (arg_price_to_rent a)
    (arg_rental_tax_n_depreciation a) (arg_capital_gain a) (arg_transaction_fee a)
    (arg_mortgage_rate a) (arg_property_tax a) x
    (arg_mortgage_fee a) (arg_downpayment a) (arg_management_fee a).

(** [HousingMarket(price_to_rent=20, interest_rate=0)], and the object it
    constructs. *)
Definition undiscounted_args : Args := with_interest_rate 0 example_args.

Definition undiscounted_scenario : HousingMarket :=
  {| mkt_value := VNum (PyFloat 5e5);
     monthly_rent := VNone;
     growth := 0.05;
     price_to_rent := VTuple [PyInt 20; PyInt 20];
     capital_gain := 0.2;
     transaction_fee := 0.05;
     mortgage_rate := 0.04;
     property_tax_annual := 0.015;
     mortgage_fee := 0.01;
     downpayment := 0.03;
     management_fee := 0.08;
     rental_tax_n_depreciation := 0.1;
     interest_rate := 0;
     capital := Some (5e5 * 0.03);
     years := None;
     pretax_df := None |}.

(** Every column has as many cells as the frame has rows. *)
Definition well_formed (df : DataFrame) : Prop :=
  ∀ name c, columns df !! name = Some c → length c = nrows df.

(** * Properties *)

(** ** The result monad *)

Lemma bind_ok {A B} (a : A) (f : A → result B) : (Ok a ≫= f) = f a.
Proof. reflexivity. Qed.

Lemma bind_raise {A B} (e : exn) (f : A → result B) : (Raise e ≫= f) = Raise e.
Proof. reflexivity. Qed.

Ltac binds := repeat (rewrite bind_ok; cbv beta).

(** ** Cells *)

Lemma cadd_comm (a b : cell) : (a + b)%cell = (b + a)%cell.
Proof. destruct a, b; simpl; try reflexivity. f_equal; lra. Qed.

Lemma cadd_assoc (a b c : cell) : (a + (b + c))%cell = (a + b + c)%cell.
Proof. destruct a, b, c; simpl; try reflexivity. f_equal; lra. Qed.

Lemma cadd_0_l (a : cell) : (Real 0 + a)%cell = a.
Proof. destruct a; simpl; try reflexivity. f_equal; lra. Qed.

Lemma cadd_0_r (a : cell) : (a + Real 0)%cell = a.
Proof. rewrite cadd_comm. apply cadd_0_l. Qed.

Lemma py_div_ok (a b : R) : b ≠ 0 → py_div a b = Ok (a / b).
Proof. intros Hb. unfold py_div. destruct (Req_dec_T b 0); [contradiction | reflexivity]. Qed.

Lemma py_div_zero (a : R) : py_div a 0 = Raise ZeroDivisionError.
Proof. unfold py_div. destruct (Req_dec_T 0 0); [reflexivity | contradiction]. Qed.

Lemma cdiv_real (x y : R) : y ≠ 0 → (Real x / Real y)%cell = Real (x / y).
Proof. intros Hy. simpl. destruct (Req_dec_T y 0); [contradiction | reflexivity]. Qed.

(** With a positive exponent Python's power never raises. *)
Lemma py_pow_positive_exponent (x y : R) : 0 < y → ∃ c, py_pow x y = Ok c.
Proof.
  intros Hy. unfold py_pow, real_pow.
  destruct (Rlt_dec 0 x); [eauto |].
  destruct (Req_dec_T x 0).
  - destruct (Rlt_dec 0 y); [eauto | contradiction].
  - destruct (Req_dec_T y (IZR (Int_part y))); eauto.
Qed.

(** ** Frames *)

Lemma df_get_set_eq (df : DataFrame) (name : string) (c : list cell) :
  df_get (df_set df name c) name = Ok c.
Proof. unfold df_get, df_set. simpl. by rewrite lookup_insert_eq. Qed.

Lemma df_get_set_ne (df : DataFrame) (name name' : string) (c : list cell) :
  name ≠ name' → df_get (df_set df name c) name' = df_get df name'.
Proof. intros Hne. unfold df_get, df_set. simpl. by rewrite lookup_insert_ne. Qed.

Lemma df_get_drop_ne (df : DataFrame) (name name' : string) :
  name ≠ name' → df_get (df_drop df name) name' = df_get df name'.
Proof. intros Hne. unfold df_get, df_drop. simpl. by rewrite lookup_delete_ne. Qed.

Lemma nrows_df_set (df : DataFrame) (name : string) (c : list cell) :
  nrows (df_set df name c) = nrows df.
Proof. reflexivity. Qed.

Lemma df_drop_set (df : DataFrame) (name : string) (c : list cell) :
  df_drop (df_set df name c) name = df_drop df name.
Proof. unfold df_drop, df_set. simpl. by rewrite delete_insert_eq. Qed.

Lemma well_formed_get (df : DataFrame) (name : string) (c : list cell) :
  well_formed df → df_get df name = Ok c → length c = nrows df.
Proof.
  intros Hwf. unfold df_get. destruct (columns df !! name) eqn:E; [| discriminate].
  intros [= <-]. eauto.
Qed.

Lemma well_formed_set (df : DataFrame) (name : string) (c : list cell) :
  well_formed df → length c = nrows df → well_formed (df_set df name c).
Proof.
  intros Hwf Hc name' c'. unfold df_set. simpl.
  destruct (decide (name = name')) as [-> | Hne].
  - rewrite lookup_insert_eq. by intros [= <-].
  - rewrite lookup_insert_ne by done. apply Hwf.
Qed.

Lemma well_formed_drop (df : DataFrame) (name : string) :
  well_formed df → well_formed (df_drop df name).
Proof.
  intros Hwf name' c'. unfold df_drop. simpl.
  intros [_ H]%lookup_delete_Some. eauto.
Qed.

Lemma df_last_get (df : DataFrame) (name : string) (c : list cell) (k : nat) :
  nrows df = S k → df_get df name = Ok c → length c = nrows df →
  ∃ x, c !! k = Some x ∧ df_last df name = Ok x.
Proof.
  intros Hn Hc Hlen. unfold df_last. rewrite Hn, Hc. simpl.
  destruct (lookup_lt_is_Some_2 c k) as [x Hx]; [lia |].
  exists x. by rewrite Hx.
Qed.

(** ** The constructor *)

Lemma isnumeric_none : isnumeric (py_str VNone) = false.
Proof. reflexivity. Qed.

Lemma isnumeric_float (x : R) : isnumeric (py_str (VNum (PyFloat x))) = false.
Proof. reflexivity. Qed.

(** An int given as [price_to_rent] does become a constant trajectory. *)
Example init_price_to_rent_int :
  init_price_to_rent (VNum (PyInt 20)) = VTuple [PyInt 20; PyInt 20].
Proof. reflexivity. Qed.

Lemma init_all_none (a : Args) :
  arg_mkt_value a = VNone → arg_monthly_rent a = VNone → arg_price_to_rent a = VNone →
  __init__ a = ([Line no_values_message], Ok (init_fields a)).
Proof. intros Hm Hr Hp. unfold __init__. by rewrite Hm, Hr, Hp. Qed.

Lemma init_float_trajectory (a : Args) (x : R) :
  arg_mkt_value a = VNone → arg_price_to_rent a = VNum (PyFloat x) →
  ∃ s, __init__ a = (print_args s, Ok s)
       ∧ price_to_rent s = VNone
       ∧ mkt_value s = VNum (PyFloat 5e5)
       ∧ capital s = Some (5e5 * arg_downpayment a).
Proof.
  intros Hm Hp. unfold __init__, init_resolve, init_trajectory, init_capital.
  rewrite Hm, Hp. simpl.
  rewrite andb_false_r.
  eexists. split; [reflexivity |]. simpl. by rewrite Hp.
Qed.

(** C10: given [monthly_rent] alone, the constructor prints nothing and
    resolves no trajectory: lines 52-56 leave the object as it was, with
    trajectory and market value [None], and line 58 raises [TypeError] at
    [self.mkt_value * downpayment]. *)
Theorem init_rent_alone_type_error (a : Args) :
  arg_mkt_value a = VNone → arg_price_to_rent a = VNone → arg_monthly_rent a ≠ VNone →
  __init__ a = ([], Raise TypeError)
  ∧ init_trajectory a (init_fields a) = Ok (init_fields a)
  ∧ price_to_rent (init_fields a) = VNone
  ∧ init_capital (init_fields a) = Raise TypeError.
Proof.
  intros Hm Hp Hr.
  assert (Htraj : init_trajectory a (init_fields a) = Ok (init_fields a))
    by (unfold init_trajectory; by rewrite Hm, Hp).
  assert (Hcap : init_capital (init_fields a) = Raise TypeError)
    by (unfold init_capital; simpl; by rewrite Hm).
  split; [| split; [exact Htraj | split; [| exact Hcap]]].
  - unfold __init__, init_resolve. rewrite Htraj, bind_ok, Hcap, Hm, Hp.
    destruct (arg_monthly_rent a); [contradiction | reflexivity ..].
  - simpl. by rewrite Hp.
Qed.

Lemma init_rent_alone_type_error_witness :
  __init__ (with_monthly_rent (VNum (PyInt 2000)) defaults) = ([], Raise TypeError)
  ∧ init_trajectory (with_monthly_rent (VNum (PyInt 2000)) defaults)
      (init_fields (with_monthly_rent (VNum (PyInt 2000)) defaults))
    = Ok (init_fields (with_monthly_rent (VNum (PyInt 2000)) defaults))
  ∧ price_to_rent (init_fields (with_monthly_rent (VNum (PyInt 2000)) defaults)) = VNone
  ∧ init_capital (init_fields (with_monthly_rent (VNum (PyInt 2000)) defaults))
    = Raise TypeError.
Proof.
  apply (init_rent_alone_type_error (with_monthly_rent (VNum (PyInt 2000)) defaults));
    [reflexivity | reflexivity | discriminate].
Defined.

(** ** Price-to-rent interpolation *)

Lemma rows_minus_one (n : nat) : IZR (Z.of_nat n - 1) = INR n - 1.
Proof. rewrite minus_IZR, <- INR_IZR_INZ. reflexivity. Qed.

Lemma rows_minus_one_nonzero (n : nat) : n ≠ 1%nat → IZR (Z.of_nat n - 1) ≠ 0.
Proof. intros Hn H. apply eq_IZR in H. lia. Qed.

Lemma calc_running_ptr_ratio_eq (df : DataFrame) (st en : number) :
  nrows df ≠ 1%nat →
  calc_running_ptr_ratio df (VTuple [st; en])
  = Ok (df_drop df "ptr_ratio_temp_",
        (λ i, Real (num_val st
                    + (num_val en - num_val st) / (INR (nrows df) - 1) * INR i))
          <$> seq 0 (nrows df)).
Proof.
  intros Hn. unfold calc_running_ptr_ratio, df_set_scalar. simpl.
  rewrite df_get_set_eq. simpl.
  rewrite py_div_ok by (by apply rows_minus_one_nonzero). simpl.
  rewrite df_get_set_eq. simpl.
  rewrite !df_drop_set, rows_minus_one. do 2 f_equal.
  unfold df_index. simpl.
  rewrite zip_with_replicate_l by (by rewrite length_fmap, length_seq).
  rewrite <- list_fmap_compose. reflexivity.
Qed.

Lemma calc_running_ptr_ratio_single_row (df : DataFrame) (st en : number) :
  nrows df = 1%nat →
  calc_running_ptr_ratio df (VTuple [st; en]) = Raise ZeroDivisionError.
Proof.
  intros Hn. unfold calc_running_ptr_ratio, df_set_scalar. simpl.
  rewrite df_get_set_eq. simpl. rewrite Hn. simpl.
  by rewrite py_div_zero.
Qed.

(** ** Running the stages *)

Ltac df_lookup :=
  repeat first
    [ rewrite df_get_set_eq
    | rewrite df_get_set_ne by done
    | rewrite df_get_drop_ne by done ].

Lemma length_join_replicate {A} (k : nat) (c : list A) :
  length (mjoin (replicate k c)) = (k * length c)%nat.
Proof. induction k as [| k IH]; simpl; [done |]. by rewrite length_app, IH. Qed.

Lemma length_cumprod_from (acc : cell) (l : list cell) :
  length (cumprod_from acc l) = length l.
Proof. revert acc. induction l as [| x l IH]; intros acc; simpl; [done |]. by rewrite IH. Qed.

Lemma concat_copies_month_frame (k : nat) :
  concat_copies month_frame (S k)
  = Ok (mkDataFrame (S k * 12)
          {[ "month" := mjoin (replicate (S k) ((λ m, Real (INR m)) <$> seq 1 12)) ]}).
Proof. unfold concat_copies, month_frame. cbn [nrows columns]. by rewrite map_fmap_singleton. Qed.

Lemma well_formed_months (k : nat) (c : list cell) :
  length c = 12%nat →
  well_formed (mkDataFrame (k * 12) {[ "month" := mjoin (replicate k c) ]}).
Proof.
  intros Hc name c'. cbn [nrows columns].
  intros [_ <-]%lookup_singleton_Some. by rewrite length_join_replicate, Hc.
Qed.

(** The time-series stage succeeds on a resolved scenario for one year or
    more, and yields a well-formed frame of [12 * years] rows. *)
Lemma projection_ok (s : HousingMarket) (years : Z) (m st en : number) (k : nat) :
  mkt_value s = VNum m → price_to_rent s = VTuple [st; en] → Z.to_nat years = S k →
  ∃ df, projection s years = Ok df
        ∧ nrows df = (S k * 12)%nat
        ∧ well_formed df
        ∧ df_get df "month"
          = Ok (mjoin (replicate (S k) ((λ m, Real (INR m)) <$> seq 1 12)))
        ∧ df_get df "years"
          = Ok ((λ i, Real (INR (i / 12 + 1))) <$> seq 0 (S k * 12))
        ∧ (∃ mv, df_get df "market_value" = Ok mv)
        ∧ (∃ rent, df_get df "monthly_rent" = Ok rent).
Proof.
  intros Hm Hp Hk.
  destruct (py_pow_positive_exponent (growth s + 1) (1 / 12)) as [g Hg]; [lra |].
  unfold projection.
  rewrite Hk, concat_copies_month_frame, bind_ok, Hg, bind_ok.
  set (df0 := mkDataFrame (S k * 12) _).
  assert (Hwf0 : well_formed df0) by (by apply well_formed_months).
  assert (Hn0 : nrows df0 = (S k * 12)%nat) by done.
  assert (Hmonth0 : df_get df0 "month"
                    = Ok (mjoin (replicate (S k) ((λ m, Real (INR m)) <$> seq 1 12))))
    by (unfold df_get, df0; cbn [columns]; by rewrite lookup_singleton_eq).
  clearbody df0.
  cbv zeta. unfold df_set_scalar. df_lookup. rewrite bind_ok, Hm, Hp. simpl as_number.
  rewrite bind_ok. df_lookup. rewrite bind_ok.
  rewrite calc_running_ptr_ratio_eq by (rewrite !nrows_df_set; lia).
  rewrite bind_ok. df_lookup. rewrite !bind_ok.
  eexists. split; [reflexivity |].
  rewrite !nrows_df_set. cbn [nrows df_drop]. rewrite !nrows_df_set.
  split; [done |]. split; [| split; [| split; [| split]]].
  - repeat (apply well_formed_set || apply well_formed_drop); try done;
      rewrite ?nrows_df_set; cbn [nrows df_drop]; rewrite ?nrows_df_set;
      rewrite ?length_fmap, ?length_zip_with, ?length_fmap, ?length_seq,
        ?length_replicate; unfold cumprod;
      rewrite ?length_cumprod_from, ?length_fmap, ?length_replicate,
        ?length_seq; unfold df_index; rewrite ?nrows_df_set, ?length_seq; lia.
  - df_lookup. exact Hmonth0.
  - df_lookup. unfold df_index. by rewrite Hn0.
  - df_lookup. eauto.
  - df_lookup. eauto.
Qed.

Lemma mapM_keyed {A B} (F : A → result B) (g : A → B) (l : list A) :
  (∀ k, F k = Ok (g k)) →
  mapM (λ k, v ← F k; Ok (k, v)) l = Ok ((λ k, (k, g k)) <$> l).
Proof.
  intros HF. induction l as [| k l IH]; [reflexivity |].
  change (mapM (λ k, v ← F k; Ok (k, v)) (k :: l))
    with (y ← (v ← F k; Ok (k, v)); r ← mapM (λ k, v ← F k; Ok (k, v)) l; Ok (y :: r)).
  by rewrite HF, IH.
Qed.

Lemma df_get_select (df : DataFrame) (keep : list bool) (name : string) (c : list cell) :
  df_get df name = Ok c → df_get (df_select df keep) name = Ok (select keep c).
Proof.
  unfold df_get, df_select. cbn [columns]. rewrite lookup_fmap.
  destruct (columns df !! name); [| discriminate]. by intros [= ->].
Qed.

Lemma groupby_apply_ok (df : DataFrame) (key : string) (ks : list cell)
    (f : DataFrame → result cell) (g : R → cell) :
  df_get df key = Ok ks →
  (∀ k, f (df_select df (has_key k <$> ks)) = Ok (g k)) →
  groupby_apply df key f = Ok ((λ k, (k, g k)) <$> group_keys ks).
Proof.
  intros Hks Hf. unfold groupby_apply. rewrite Hks, bind_ok.
  by apply mapM_keyed.
Qed.

(** [calc_return] on a frame that holds the columns it reads. *)
Lemma calc_return_ok (s : HousingMarket) (df : DataFrame) (ni mv ys : list cell)
    (c : R) (y : Z) (n : nat) :
  nrows df = S n →
  df_get df "net_income" = Ok ni →
  df_get df "market_value" = Ok mv → length mv = S n →
  df_get df "years" = Ok ys →
  capital s = Some c → years s = Some y → y ≠ 0%Z →
  ∃ mv_last, mv !! n = Some mv_last ∧
    let r := 1 + interest_rate s / 12 in
    let dfac := (λ i, Real (r ^ (i + 1))) <$> seq 0 (S n) in
    let dni := zip_with cdiv ni dfac in
    let cap_gain :=
      ((mv_last * Real (1 - transaction_fee s) - Real c) * Real (1 - capital_gain s)
       / Real (r ^ (n + 1)))%cell in
    calc_return s df
    = Ok ({| total_ret :=
               (np_pow ((csum dni + (cap_gain + Real c)) / Real c) (1 / IZR y)
                - Real 1)%cell;
             rental_ret :=
               (λ k, (k, (csum (select (has_key k <$> ys) ni)
                          / cmean (select (has_key k <$> ys) mv))%cell))
                 <$> group_keys ys;
             appreciation :=
               (np_pow (cap_gain / Real c) (1 / IZR y) - Real 1)%cell;
             income_stream :=
               (λ k, (k, csum (select (has_key k <$> ys) ni))) <$> group_keys ys |},
          df_set (df_set df "discount_factor" dfac) "discounted_net_income" dni).
Proof.
  intros Hn Hni Hmv Hlen Hys Hc Hy Hy0.
  destruct (lookup_lt_is_Some_2 mv n) as [mv_last Hlast]; [lia |].
  exists mv_last. split; [exact Hlast |]. cbv zeta.
  unfold calc_return. cbv zeta. unfold df_index. rewrite Hn.
  df_lookup. rewrite Hni. binds. df_lookup. binds.
  unfold df_last. cbn [nrows df_set]. rewrite Hn. df_lookup.
  rewrite Hmv. binds. rewrite Hlast, Hc. cbn [attr]. binds.
  rewrite list_lookup_fmap, lookup_seq_lt by lia. cbn [fmap option_fmap option_map].
  binds. rewrite Hy. cbn [attr]. binds.
  rewrite py_div_ok by (intros H; apply eq_IZR in H; done). binds.
  unfold df_project. cbn [foldr]. cbn [nrows df_set]. df_lookup.
  rewrite Hni, Hmv, Hys. binds.
  erewrite groupby_apply_ok; [| by df_lookup |]; last first.
  { intros k. unfold calc_annual_ret.
    erewrite (df_get_select _ _ "net_income") by (by df_lookup). binds.
    erewrite (df_get_select _ _ "market_value") by (by df_lookup). binds.
    reflexivity. }
  binds.
  erewrite groupby_apply_ok; [| by df_lookup |]; last first.
  { intros k.
    erewrite (df_get_select _ _ "net_income") by (by df_lookup). binds.
    reflexivity. }
  binds. reflexivity.
Qed.

(** The cash-flow stage on a frame that holds the projected columns: it
    returns, and this is what the returned frame and results hold. *)
Lemma cash_flows_ok (s : HousingMarket) (df : DataFrame) (mo mv rent ys : list cell)
    (m : number) (c : R) (y : Z) (n : nat) :
  well_formed df → nrows df = S n →
  df_get df "month" = Ok mo → df_get df "years" = Ok ys →
  df_get df "market_value" = Ok mv → df_get df "monthly_rent" = Ok rent →
  mkt_value s = VNum m → capital s = Some c → years s = Some y → y ≠ 0%Z →
  annuity_denominator s (S n) ≠ 0 →
  let pay := annuity_numerator s (num_val m) (S n) / annuity_denominator s (S n) in
  let mort := replicate (S n) (Real pay) in
  let sp :=
    zip_with cadd
      (zip_with cadd
         ((λ x, x * Real (management_fee s))%cell <$> rent)
         ((λ x, x * Real (rental_tax_n_depreciation s))%cell <$> zip_with csub rent mort))
      (zip_with (calc_property_tax s) mo mv) in
  let ni := zip_with csub (zip_with csub rent mort) sp in
  ∃ res df',
    cash_flows s df = Ok (res, df')
    ∧ nrows df' = S n
    ∧ df_get df' "month" = Ok mo
    ∧ df_get df' "years" = Ok ys
    ∧ df_get df' "market_value" = Ok mv
    ∧ df_get df' "monthly_rent" = Ok rent
    ∧ df_get df' "monthly_mortgage" = Ok mort
    ∧ df_get df' "monthly_spending" = Ok sp
    ∧ df_get df' "net_income" = Ok ni
    ∧ income_stream res
      = (λ k, (k, csum (select (has_key k <$> ys) ni))) <$> group_keys ys.
Proof.
  intros Hwf Hn Hmo Hys Hmv Hrent Hm Hc Hy Hy0 Hden pay mort sp ni.
  unfold cash_flows, mortgage_payments, df_set_scalar.
  rewrite Hm. cbn [as_number]. binds. cbv zeta. rewrite Hn.
  fold (annuity_numerator s (num_val m) (S n)). fold (annuity_denominator s (S n)).
  rewrite py_div_ok by done. binds. fold pay. fold mort.
  df_lookup. rewrite Hrent. binds. df_lookup. rewrite Hrent. binds.
  df_lookup. rewrite Hmo, Hmv. binds. df_lookup. rewrite Hrent. binds.
  fold sp. fold ni.
  match goal with |- ∃ res df', calc_return s ?d = _ ∧ _ =>
    destruct (calc_return_ok s d ni mv ys c y n) as (mv_last & _ & Heq);
      [done | by df_lookup | by df_lookup
      | by erewrite well_formed_get by done
      | by df_lookup | done .. |]
  end.
  cbv zeta in Heq. rewrite Heq.
  eexists _, _. split; [reflexivity |].
  cbn [nrows df_set income_stream]. df_lookup. done.
Qed.

(** A run on a resolved scenario, for one year or more and a non-zero
    annuity denominator, returns; the returned frame holds these
    columns. *)
Lemma run_simulation_ok (s : HousingMarket) (years : Z) (m st en : number)
    (c : R) (k : nat) :
  mkt_value s = VNum m → price_to_rent s = VTuple [st; en] → capital s = Some c →
  Z.to_nat years = S k →
  annuity_denominator s (S k * 12) ≠ 0 →
  let n := (S k * 12)%nat in
  let pay := annuity_numerator s (num_val m) n / annuity_denominator s n in
  let mo := mjoin (replicate (S k) ((λ m, Real (INR m)) <$> seq 1 12)) in
  let ys := (λ i, Real (INR (i / 12 + 1))) <$> seq 0 n in
  let mort := replicate n (Real pay) in
  ∃ s' res df mv rent,
    run_simulation s years = (s', Ok (res, df))
    ∧ nrows df = n ∧ length mv = n ∧ length rent = n
    ∧ df_get df "month" = Ok mo
    ∧ df_get df "years" = Ok ys
    ∧ df_get df "market_value" = Ok mv
    ∧ df_get df "monthly_rent" = Ok rent
    ∧ df_get df "monthly_mortgage" = Ok mort
    ∧ df_get df "monthly_spending"
      = Ok (zip_with cadd
              (zip_with cadd
                 ((λ x, x * Real (management_fee s))%cell <$> rent)
                 ((λ x, x * Real (rental_tax_n_depreciation s))%cell
                    <$> zip_with csub rent mort))
              (zip_with (calc_property_tax s) mo mv))
    ∧ (∃ ni, df_get df "net_income" = Ok ni ∧ length ni = n
             ∧ income_stream res
               = (λ y, (y, csum (select (has_key y <$> ys) ni))) <$> group_keys ys).
Proof.
  intros Hm Hp Hc Hk Hden n pay mo ys mort.
  destruct (projection_ok (set_years years s) years m st en k)
    as (df0 & Hproj & Hn0 & Hwf0 & Hmo & Hys & [mv Hmv] & [rent Hrent]); [done .. |].
  assert (Hn : nrows df0 = S (11 + k * 12)) by (rewrite Hn0; lia).
  assert (Hn' : n = S (11 + k * 12)) by (unfold n; lia).
  destruct (cash_flows_ok (set_pretax_df df0 (set_years years s)) df0 mo mv rent ys
              m c years (11 + k * 12))
    as (res & df & Hcf & Hnr & Hmo' & Hys' & Hmv' & Hrent' & Hmort & Hsp & Hni & Hinc);
    [done | done | done | by rewrite Hys | done | done | done | done | done | lia
    | by rewrite <- Hn' |].
  cbn [management_fee rental_tax_n_depreciation set_pretax_df set_years] in Hsp, Hni, Hinc.
  rewrite <- Hn' in Hmort, Hsp, Hni, Hinc, Hnr.
  change (annuity_numerator (set_pretax_df df0 (set_years years s)))
    with (annuity_numerator s) in *.
  change (annuity_denominator (set_pretax_df df0 (set_years years s)))
    with (annuity_denominator s) in *.
  change (calc_property_tax (set_pretax_df df0 (set_years years s)))
    with (calc_property_tax s) in *.
  assert (Hlmv : length mv = n)
    by (erewrite well_formed_get by done; by rewrite Hn0).
  assert (Hlrent : length rent = n)
    by (erewrite well_formed_get by done; by rewrite Hn0).
  exists (set_pretax_df df0 (set_years years s)), res, df, mv, rent.
  unfold run_simulation. rewrite Hproj, Hcf.
  repeat split; try done.
  eexists. split; [exact Hni |]. split; [| exact Hinc].
  rewrite !length_zip_with, !length_fmap, !length_zip_with, !length_replicate.
  unfold mo. rewrite length_join_replicate, length_fmap, length_seq. lia.
Qed.

Lemma bind_Ok_inv {A B} (r : result A) (f : A → result B) (b : B) :
  r ≫= f = Ok b → ∃ a, r = Ok a ∧ f a = Ok b.
Proof. destruct r as [a | e]; [eauto | discriminate]. Qed.

Ltac inv_binds H :=
  repeat (apply bind_Ok_inv in H as (? & ? & H); cbv beta zeta in H).

Lemma attr_Ok_inv {A} (o : option A) (a : A) : attr o = Ok a → o = Some a.
Proof. destruct o; [by intros [= ->] | discriminate]. Qed.

Lemma py_div_Ok_inv (a b q : R) : py_div a b = Ok q → b ≠ 0.
Proof. unfold py_div. destruct (Req_dec_T b 0); [discriminate | done]. Qed.

Lemma as_number_Ok_inv (v : pyval) (x : R) :
  as_number v = Ok x → ∃ m, v = VNum m.
Proof. destruct v; [discriminate | eauto | discriminate]. Qed.

Lemma calc_running_ptr_ratio_Ok_inv (df : DataFrame) (ptr : pyval)
    (r : DataFrame * list cell) :
  calc_running_ptr_ratio df ptr = Ok r → ∃ st en, ptr = VTuple [st; en].
Proof.
  destruct ptr as [| n | [| st [| en [| x l]]]]; try discriminate. eauto.
Qed.

(** The time-series stage returns only with a numeric market value, a
    two-point trajectory and one year or more. *)
Lemma projection_Ok_inv (s : HousingMarket) (y : Z) (df : DataFrame) :
  projection s y = Ok df →
  ∃ m st en k,
    mkt_value s = VNum m ∧ price_to_rent s = VTuple [st; en] ∧ Z.to_nat y = S k.
Proof.
  intros H. unfold projection in H.
  apply bind_Ok_inv in H as (d1 & Hcc & H). cbv beta zeta in H.
  apply bind_Ok_inv in H as (g & _ & H). cbv beta zeta in H.
  apply bind_Ok_inv in H as (gr & _ & H). cbv beta zeta in H.
  apply bind_Ok_inv in H as (x & Hx & H). cbv beta zeta in H.
  apply bind_Ok_inv in H as (cg & _ & H). cbv beta zeta in H.
  apply bind_Ok_inv in H as (pr & Hpr & _).
  apply as_number_Ok_inv in Hx as [m Hm].
  apply calc_running_ptr_ratio_Ok_inv in Hpr as (st & en & Hp).
  destruct (Z.to_nat y) as [| k] eqn:Hk; [discriminate |].
  by exists m, st, en, k.
Qed.

(** The frame the ratios are interpolated over has [12 * years] rows, and
    so twelve or more. *)
Lemma projection_rows (s : HousingMarket) (y : Z) (df : DataFrame) :
  projection s y = Ok df → nrows df = (Z.to_nat y * 12)%nat ∧ (12 ≤ nrows df)%nat.
Proof.
  intros Hproj.
  destruct (projection_Ok_inv _ _ _ Hproj) as (m & st & en & k & Hm & Hp & Hk).
  destruct (projection_ok s y m st en k) as (df' & Hproj' & Hn & _); [done .. |].
  rewrite Hproj in Hproj'. injection Hproj' as <-.
  rewrite Hn, Hk. lia.
Qed.

(** C3, as the code has it: over more than one row the ratio at index [i]
    is [start + (end - start) * i / (N - 1)]; over a single row the
    division by [N - 1 = 0] is not guarded and raises
    [ZeroDivisionError]; a run never interpolates over a single row, its
    frame having [12 * years] rows. *)
Theorem ptr_ratio_interpolation (df : DataFrame) (st en : number) :
  ((1 < nrows df)%nat →
   ∃ ratios,
     calc_running_ptr_ratio df (VTuple [st; en])
       = Ok (df_drop df "ptr_ratio_temp_", ratios)
     ∧ length ratios = nrows df
     ∧ ∀ i, (i < nrows df)%nat →
         ratios !! i
         = Some (Real (num_val st
                       + (num_val en - num_val st) * INR i / (INR (nrows df) - 1))))
  ∧ (nrows df = 1%nat →
     calc_running_ptr_ratio df (VTuple [st; en]) = Raise ZeroDivisionError)
  ∧ (∀ s y df', projection s y = Ok df' →
       nrows df' = (Z.to_nat y * 12)%nat ∧ (12 ≤ nrows df')%nat).
Proof.
  split; [| split].
  - intros Hn. eexists. split; [apply calc_running_ptr_ratio_eq; lia |].
    split; [by rewrite length_fmap, length_seq |].
    intros i Hi. rewrite list_lookup_fmap, lookup_seq_lt by done. simpl.
    do 2 f_equal. unfold Rdiv. ring.
  - apply calc_running_ptr_ratio_single_row.
  - apply projection_rows.
Qed.

Lemma ptr_ratio_interpolation_witness :
  (∃ ratios,
     calc_running_ptr_ratio (mkDataFrame 2 ∅) (VTuple [PyFloat 20; PyFloat 25])
       = Ok (df_drop (mkDataFrame 2 ∅) "ptr_ratio_temp_", ratios)
     ∧ length ratios = 2%nat
     ∧ ∀ i, (i < 2)%nat →
         ratios !! i = Some (Real (20 + (25 - 20) * INR i / (INR 2 - 1))))
  ∧ calc_running_ptr_ratio (mkDataFrame 1 ∅) (VTuple [PyFloat 20; PyFloat 25])
    = Raise ZeroDivisionError.
Proof.
  split.
  - apply (proj1 (ptr_ratio_interpolation (mkDataFrame 2 ∅) (PyFloat 20) (PyFloat 25))).
    simpl. lia.
  - apply (proj1 (proj2 (ptr_ratio_interpolation (mkDataFrame 1 ∅) (PyFloat 20)
                           (PyFloat 25)))).
    reflexivity.
Defined.

(** C3, as the claim has it, fails on a frame of one row: no ratio is
    returned, the call raises. *)
Lemma ptr_ratio_single_row_unguarded :
  calc_running_ptr_ratio (mkDataFrame 1 ∅) (VTuple [PyFloat 20; PyFloat 25])
  = Raise ZeroDivisionError
  ∧ ¬ ∃ df ratios,
        calc_running_ptr_ratio (mkDataFrame 1 ∅) (VTuple [PyFloat 20; PyFloat 25])
        = Ok (df, ratios).
Proof.
  assert (H : calc_running_ptr_ratio (mkDataFrame 1 ∅) (VTuple [PyFloat 20; PyFloat 25])
              = Raise ZeroDivisionError)
    by (by apply calc_running_ptr_ratio_single_row).
  split; [exact H |]. intros (df & ratios & H'). congruence.
Qed.

(** Conversely, a run returns only on such a scenario and for such
    years. *)
Lemma run_simulation_Ok_inv (s s' : HousingMarket) (y : Z)
    (rd : Results * DataFrame) :
  run_simulation s y = (s', Ok rd) →
  ∃ m st en c k,
    mkt_value s = VNum m ∧ price_to_rent s = VTuple [st; en] ∧ capital s = Some c
    ∧ Z.to_nat y = S k ∧ annuity_denominator s (S k * 12) ≠ 0.
Proof.
  unfold run_simulation.
  destruct (projection (set_years y s) y) as [df0 | e] eqn:Hproj;
    [| discriminate].
  intros [= _ Hcf].
  destruct (projection_Ok_inv _ _ _ Hproj) as (m & st & en & k & Hm & Hp & Hk).
  destruct (projection_rows _ _ _ Hproj) as [Hn0 _]. rewrite Hk in Hn0.
  unfold cash_flows in Hcf.
  apply bind_Ok_inv in Hcf as (d1 & Hmort & Hcf). cbv beta zeta in Hcf.
  inv_binds Hcf.
  unfold mortgage_payments in Hmort. inv_binds Hmort.
  unfold calc_return in Hcf. cbv beta zeta in Hcf. inv_binds Hcf.
  match goal with H : attr (capital _) = Ok ?c |- _ =>
    apply attr_Ok_inv in H; cbn in H; exists m, st, en, c, k end.
  repeat split; try done.
  match goal with H : py_div _ ((1 + _) ^ _ - 1) = Ok _ |- _ =>
    apply py_div_Ok_inv in H; rewrite Hn0 in H; exact H end.
Qed.

(** ** Grouping by year *)

Lemma csum_zeros {A} (l : list A) : csum ((λ _, Real 0) <$> l) = Real 0.
Proof.
  induction l as [| a l IH]; [reflexivity |].
  rewrite fmap_cons. unfold csum in *. cbn [foldr]. rewrite IH. apply cadd_0_l.
Qed.

Lemma csum_bump (K : list R) (x : R) (v : cell) (f : R → cell) :
  NoDup K → x ∈ K →
  csum ((λ k, if bool_decide (x = k) then (v + f k)%cell else f k) <$> K)
  = (v + csum (f <$> K))%cell.
Proof.
  induction K as [| k0 K IH]; intros Hnd Hx; [by apply elem_of_nil in Hx |].
  apply NoDup_cons in Hnd as [Hk0 Hnd].
  rewrite !fmap_cons. unfold csum in *. cbn [foldr].
  case_bool_decide as Hxk.
  - subst k0.
    assert (Hsame : (λ k, if bool_decide (x = k) then (v + f k)%cell else f k) <$> K
                    = f <$> K).
    { apply list_fmap_ext. intros i k Hik. case_bool_decide; [| done].
      subst k. exfalso. apply Hk0. by eapply list_elem_of_lookup_2. }
    rewrite Hsame. by rewrite cadd_assoc.
  - apply elem_of_cons in Hx as [-> | Hx]; [done |].
    rewrite IH by done.
    rewrite !cadd_assoc. f_equal. apply cadd_comm.
Qed.

(** Summing group by group is summing the column, when the groups are
    cut by distinct keys that cover every row. *)
Lemma csum_groups (K : list R) (ks vs : list cell) :
  NoDup K → length ks = length vs →
  (∀ c, c ∈ ks → ∃ x, c = Real x ∧ x ∈ K) →
  csum ((λ k, csum (select (has_key k <$> ks) vs)) <$> K) = csum vs.
Proof.
  intros Hnd. revert vs.
  induction ks as [| c ks IH]; intros vs Hlen Hks.
  - destruct vs; [| discriminate]. apply csum_zeros.
  - destruct vs as [| v vs]; [discriminate |].
    destruct (Hks c) as (x & -> & Hx); [by left |].
    assert (Hstep : (λ k, csum (select (has_key k <$> Real x :: ks) (v :: vs))) <$> K
                    = (λ k, if bool_decide (x = k)
                            then (v + csum (select (has_key k <$> ks) vs))%cell
                            else csum (select (has_key k <$> ks) vs)) <$> K).
    { apply list_fmap_ext. intros i k _.
      rewrite fmap_cons. cbn [select has_key]. by case_bool_decide. }
    rewrite Hstep.
    rewrite (csum_bump K x v (λ k, csum (select (has_key k <$> ks) vs))) by done.
    rewrite IH; [reflexivity | by injection Hlen |].
    intros c Hc. apply Hks. by right.
Qed.

Lemma NoDup_group_keys (ks : list cell) : NoDup (group_keys ks).
Proof.
  unfold group_keys. rewrite merge_sort_Permutation. apply NoDup_remove_dups.
Qed.

Lemma elem_of_group_keys (ks : list cell) (x : R) :
  x ∈ group_keys ks ↔ Real x ∈ ks.
Proof.
  unfold group_keys, real_keys.
  rewrite merge_sort_Permutation, elem_of_remove_dups, list_elem_of_omap.
  split.
  - intros ([y |] & Hin & Heq); [| discriminate]. by injection Heq as ->.
  - intros Hin. by exists (Real x).
Qed.

(** The per-group sums of [groupby_apply] add up to the sum of the
    column, when every key is a number. *)
Lemma csum_by_group (ks vs : list cell) :
  length ks = length vs → (∀ c, c ∈ ks → ∃ x, c = Real x) →
  csum (snd <$> ((λ k, (k, csum (select (has_key k <$> ks) vs))) <$> group_keys ks))
  = csum vs.
Proof.
  intros Hlen Hks. rewrite <- list_fmap_compose.
  change (snd ∘ _) with (λ k, csum (select (has_key k <$> ks) vs)).
  apply csum_groups; [apply NoDup_group_keys | done |].
  intros c Hc. destruct (Hks c Hc) as [x ->]. exists x. split; [done |].
  by apply elem_of_group_keys.
Qed.

(** ** The example scenarios *)

Lemma init_example : __init__ example_args = (print_args example_scenario, Ok example_scenario).
Proof. reflexivity. Qed.

Lemma init_zero_rate :
  __init__ zero_rate_args = (print_args zero_rate_scenario, Ok zero_rate_scenario).
Proof. reflexivity. Qed.

Lemma resolved_example : resolved example_scenario.
Proof. by eexists _, _, _, _. Qed.

Lemma resolved_zero_rate : resolved zero_rate_scenario.
Proof. by eexists _, _, _, _. Qed.

Lemma annuity_denominator_positive_rate (s : HousingMarket) (n : nat) :
  0 < mortgage_rate s → (0 < n)%nat → annuity_denominator s n ≠ 0.
Proof.
  intros Hr Hn. unfold annuity_denominator.
  assert (1 < (1 + mortgage_rate s / 12) ^ n); [| lra].
  apply Rlt_pow_R1; [lra | done].
Qed.

Lemma annuity_denominator_zero_rate (s : HousingMarket) (n : nat) :
  mortgage_rate s = 0 → annuity_denominator s n = 0.
Proof.
  intros Hr. unfold annuity_denominator. rewrite Hr.
  replace (1 + 0 / 12) with 1 by lra. rewrite pow1. lra.
Qed.

Lemma annuity_denominator_example : annuity_denominator example_scenario (1 * 12) ≠ 0.
Proof. apply annuity_denominator_positive_rate; [simpl; lra | lia]. Qed.

(** ** Runs that raise *)

Lemma projection_no_years (s : HousingMarket) (years : Z) :
  (years < 1)%Z → projection s years = Raise ValueError.
Proof.
  intros Hy. unfold projection.
  replace (Z.to_nat years) with 0%nat by lia. reflexivity.
Qed.

Lemma projection_no_market_value (s : HousingMarket) (years : Z) :
  mkt_value s = VNone → (1 ≤ years)%Z → projection s years = Raise TypeError.
Proof.
  intros Hm Hy.
  destruct (Z.to_nat years) as [| k] eqn:Hk; [lia |].
  destruct (py_pow_positive_exponent (growth s + 1) (1 / 12)) as [g Hg]; [lra |].
  unfold projection.
  rewrite Hk, concat_copies_month_frame, bind_ok, Hg, bind_ok.
  cbv zeta. unfold df_set_scalar. df_lookup. rewrite bind_ok, Hm. reflexivity.
Qed.

Lemma run_simulation_no_years (s : HousingMarket) (years : Z) :
  (years < 1)%Z → snd (run_simulation s years) = Raise ValueError.
Proof.
  intros Hy. unfold run_simulation. by rewrite projection_no_years.
Qed.

Lemma run_simulation_no_market_value (s : HousingMarket) (years : Z) :
  mkt_value s = VNone → (1 ≤ years)%Z → snd (run_simulation s years) = Raise TypeError.
Proof.
  intros Hm Hy. unfold run_simulation. by rewrite projection_no_market_value.
Qed.

Lemma projection_no_trajectory (s : HousingMarket) (y : Z) (m : number) :
  mkt_value s = VNum m → price_to_rent s = VNone → (1 ≤ y)%Z →
  projection s y = Raise TypeError.
Proof.
  intros Hm Hp Hy.
  destruct (Z.to_nat y) as [| k] eqn:Hk; [lia |].
  destruct (py_pow_positive_exponent (growth s + 1) (1 / 12)) as [g Hg]; [lra |].
  unfold projection.
  rewrite Hk, concat_copies_month_frame, bind_ok, Hg, bind_ok.
  cbv zeta. unfold df_set_scalar. df_lookup. rewrite bind_ok, Hm, Hp.
  cbn [as_number]. binds. df_lookup. binds. reflexivity.
Qed.

Lemma run_simulation_no_trajectory (s : HousingMarket) (y : Z) (m : number) :
  mkt_value s = VNum m → price_to_rent s = VNone → (1 ≤ y)%Z →
  snd (run_simulation s y) = Raise TypeError.
Proof.
  intros Hm Hp Hy. unfold run_simulation.
  by rewrite (projection_no_trajectory _ _ m).
Qed.

Lemma cash_flows_zero_denominator (s : HousingMarket) (df : DataFrame) (m : number) :
  mkt_value s = VNum m → annuity_denominator s (nrows df) = 0 →
  cash_flows s df = Raise ZeroDivisionError.
Proof.
  intros Hm Hden. unfold cash_flows, mortgage_payments.
  rewrite Hm. cbn [as_number]. binds. cbv zeta.
  fold (annuity_denominator s (nrows df)). rewrite Hden. by rewrite py_div_zero.
Qed.

Lemma run_simulation_zero_denominator (s : HousingMarket) (years : Z) (k : nat) :
  resolved s → Z.to_nat years = S k → annuity_denominator s (S k * 12) = 0 →
  snd (run_simulation s years) = Raise ZeroDivisionError.
Proof.
  intros (m & st & en & c & Hm & Hp & Hc) Hk Hden.
  destruct (projection_ok (set_years years s) years m st en k)
    as (df0 & Hproj & Hn0 & _); [done .. |].
  unfold run_simulation. rewrite Hproj. cbn [snd].
  apply (cash_flows_zero_denominator _ _ m); [done |].
  by rewrite Hn0.
Qed.

(** ** The claims on construction and on errors *)

(** C1, as the code has it: with the three inputs [None] the constructor
    raises nothing; it prints the diagnostic and returns an object with no
    market value, no trajectory and no capital, on which every run
    raises. *)
Theorem init_all_none_reports_and_returns (a : Args) :
  arg_mkt_value a = VNone → arg_monthly_rent a = VNone → arg_price_to_rent a = VNone →
  ∃ s, __init__ a = ([Line no_values_message], Ok s)
       ∧ mkt_value s = VNone ∧ price_to_rent s = VNone ∧ capital s = None
       ∧ (∀ years, (1 ≤ years)%Z → snd (run_simulation s years) = Raise TypeError)
       ∧ (∀ years, (years < 1)%Z → snd (run_simulation s years) = Raise ValueError).
Proof.
  intros Hm Hr Hp. exists (init_fields a).
  split; [by apply init_all_none |].
  assert (Hmv : mkt_value (init_fields a) = VNone) by done.
  repeat split; try done.
  - simpl. by rewrite Hp.
  - intros years Hy. by apply run_simulation_no_market_value.
  - intros years Hy. by apply run_simulation_no_years.
Qed.

Lemma init_all_none_reports_and_returns_witness :
  ∃ s, __init__ defaults = ([Line no_values_message], Ok s)
       ∧ mkt_value s = VNone ∧ price_to_rent s = VNone ∧ capital s = None
       ∧ (∀ years, (1 ≤ years)%Z → snd (run_simulation s years) = Raise TypeError)
       ∧ (∀ years, (years < 1)%Z → snd (run_simulation s years) = Raise ValueError).
Proof. apply (init_all_none_reports_and_returns defaults); reflexivity. Defined.

(** C1, as the claim has it, fails on the default arguments: the
    constructor raises nothing and returns an object whose market value is
    [None]. *)
Lemma init_all_none_does_not_raise :
  (∀ e, snd (__init__ defaults) ≠ Raise e)
  ∧ ∃ s, snd (__init__ defaults) = Ok s ∧ mkt_value s = VNone.
Proof.
  rewrite init_all_none by done. split; [done |]. by eexists.
Qed.

(** C2 (the code at the failing input): with [price_to_rent=20.0] and no
    market value the constructor returns an object whose trajectory is
    [None], not [(20.0, 20.0)], and on which a run raises [TypeError]; the
    market value does default to 500,000. *)
Theorem init_float_price_to_rent_unresolved :
  ∃ s, snd (__init__ (with_price_to_rent (VNum (PyFloat 20)) defaults)) = Ok s
       ∧ price_to_rent s = VNone
       ∧ price_to_rent s ≠ VTuple [PyFloat 20; PyFloat 20]
       ∧ mkt_value s = VNum (PyFloat 5e5)
       ∧ snd (run_simulation s 1) = Raise TypeError.
Proof.
  destruct (init_float_trajectory (with_price_to_rent (VNum (PyFloat 20)) defaults) 20)
    as (s & Hs & Hp & Hm & _); [reflexivity .. |].
  exists s. rewrite Hs. repeat split; try done.
  - by rewrite Hp.
  - by apply (run_simulation_no_trajectory s 1 (PyFloat 5e5)).
Qed.

(** C4, as the code has it: on a resolved scenario with a zero mortgage
    rate a run of one year or more raises Python's own
    [ZeroDivisionError], out of the annuity formula; a run of less than one
    year raises [ValueError], out of [pd.concat]. *)
Theorem zero_rate_raises_zero_division (s : HousingMarket) (years : Z) :
  (resolved s → mortgage_rate s = 0 → (1 ≤ years)%Z →
   snd (run_simulation s years) = Raise ZeroDivisionError)
  ∧ ((years < 1)%Z → snd (run_simulation s years) = Raise ValueError).
Proof.
  split; [| apply run_simulation_no_years].
  intros Hres Hr Hy.
  destruct (Z.to_nat years) as [| k] eqn:Hk; [lia |].
  apply (run_simulation_zero_denominator s years k); [done .. |].
  by apply annuity_denominator_zero_rate.
Qed.

Lemma zero_rate_raises_zero_division_witness :
  snd (run_simulation zero_rate_scenario 30) = Raise ZeroDivisionError
  ∧ snd (run_simulation zero_rate_scenario 0) = Raise ValueError.
Proof.
  split.
  - apply (proj1 (zero_rate_raises_zero_division zero_rate_scenario 30));
      [apply resolved_zero_rate | reflexivity | lia].
  - apply (proj2 (zero_rate_raises_zero_division zero_rate_scenario 0)). lia.
Defined.

(** C4, as the claim has it, fails on [HousingMarket(price_to_rent=20,
    mortgage_rate=0).run_simulation(1)]: the division by zero of the
    annuity formula propagates as a [ZeroDivisionError]. *)
Lemma zero_rate_division_propagates :
  ∃ s, snd (__init__ zero_rate_args) = Ok s
       ∧ mortgage_rate s = 0
       ∧ snd (run_simulation s 1) = Raise ZeroDivisionError.
Proof.
  exists zero_rate_scenario. rewrite init_zero_rate.
  split; [done |]. split; [done |].
  apply (run_simulation_zero_denominator _ _ 0); [apply resolved_zero_rate | done |].
  by apply annuity_denominator_zero_rate.
Qed.

(** ** The claims on a run that returns *)

Lemma months_of_years (years : Z) (k : nat) :
  Z.to_nat years = S k → Z.to_nat (years * 12) = (S k * 12)%nat.
Proof. intros Hk. lia. Qed.


Lemma lookup_join_replicate {A} (k p i : nat) (c : list A) :
  length c = p → (i < k * p)%nat → mjoin (replicate k c) !! i = c !! (i mod p)%nat.
Proof.
  intros Hp. revert i. induction k as [| k IH]; intros i Hi; [lia |].
  cbn [replicate mjoin list_join]. destruct (decide (i < p)%nat) as [Hlt | Hge].
  - rewrite lookup_app_l by lia. by rewrite Nat.mod_small.
  - rewrite lookup_app_r by lia. rewrite Hp, IH by lia. f_equal.
    replace i with ((i - p) + 1 * p)%nat at 2 by lia.
    by rewrite Nat.Div0.mod_add.
Qed.

Lemma lookup_month (k i : nat) :
  (i < S k * 12)%nat →
  mjoin (replicate (S k) ((λ m, Real (INR m)) <$> seq 1 12)) !! i
  = Some (Real (INR (i mod 12 + 1))).
Proof.
  intros Hi. rewrite (lookup_join_replicate _ 12) by done.
  rewrite list_lookup_fmap, lookup_seq_lt by (apply Nat.mod_upper_bound; lia).
  cbn [fmap option_fmap option_map]. do 3 f_equal. lia.
Qed.

Lemma calc_property_tax_month (s : HousingMarket) (month : nat) (mv : cell) :
  calc_property_tax s (Real (INR month)) mv
  = if decide (month = 12%nat) then (Real (property_tax_annual s) * mv)%cell else Real 0.
Proof.
  unfold calc_property_tax.
  destruct (Req_dec_T (INR month) 12) as [Heq | Hne]; case_decide as Hm.
  - destruct mv; simpl; [f_equal; lra | done].
  - exfalso. apply Hm. apply INR_eq. rewrite Heq. simpl. lra.
  - exfalso. apply Hne. subst month. simpl. lra.
  - done.
Qed.


(** The results of a run are those of [calc_return], called with
    [self.years] set to the years of the run. *)
Lemma run_simulation_calc_return (s s' : HousingMarket) (y : Z) (res : Results)
    (df : DataFrame) :
  run_simulation s y = (s', Ok (res, df)) →
  years s' = Some y ∧ capital s' = capital s
  ∧ ∃ df1, calc_return s' df1 = Ok (res, df).
Proof.
  unfold run_simulation.
  destruct (projection (set_years y s) y) as [df0 | e]; [| discriminate].
  intros [= <- Hcf]. split; [done |]. split; [done |].
  unfold cash_flows in Hcf.
  do 11 (apply bind_Ok_inv in Hcf as (? & _ & Hcf); cbv beta zeta in Hcf).
  eexists. exact Hcf.
Qed.

(** C7: [calc_return], on a frame that holds the monthly records, sets the
    discount factor at position [k] to [(1 + interest_rate / 12)^(k + 1)]
    and the discounted net income to the net income over that factor; the
    annualised total return is the sum of the discounted net incomes plus
    the discounted capital gain plus the capital, over the capital, to the
    power [1 / years], minus one, the capital gain being discounted by the
    factor of the last record. *)
Theorem discounted_total_return (s : HousingMarket) (df : DataFrame)
    (ni mv ys : list cell) (c : R) (y : Z) (n : nat) :
  nrows df = S n →
  df_get df "net_income" = Ok ni →
  df_get df "market_value" = Ok mv → length mv = S n →
  df_get df "years" = Ok ys →
  capital s = Some c → years s = Some y → y ≠ 0%Z →
  let r := 1 + interest_rate s / 12 in
  ∃ res df' dfac dni mv_last,
    calc_return s df = Ok (res, df')
    ∧ df_get df' "discount_factor" = Ok dfac
    ∧ df_get df' "discounted_net_income" = Ok dni
    ∧ mv !! n = Some mv_last
    ∧ (∀ k, (k < S n)%nat → dfac !! k = Some (Real (r ^ (k + 1))))
    ∧ (∀ k ni_k, (k < S n)%nat → ni !! k = Some ni_k →
         dni !! k = Some (ni_k / Real (r ^ (k + 1)))%cell)
    ∧ let discounted_cap_gain :=
        ((mv_last * Real (1 - transaction_fee s) - Real c) * Real (1 - capital_gain s)
         / Real (r ^ S n))%cell in
      total_ret res
      = (np_pow ((csum dni + discounted_cap_gain + Real c) / Real c) (1 / IZR y)
         - Real 1)%cell.
Proof.
  intros Hn Hni Hmv Hlen Hys Hc Hy Hy0 r.
  destruct (calc_return_ok s df ni mv ys c y n) as (mv_last & Hlast & Heq); [done .. |].
  cbv zeta in Heq. fold r in Heq.
  eexists _, _, _, _, mv_last. split; [exact Heq |].
  split; [by df_lookup |]. split; [by df_lookup |]. split; [exact Hlast |].
  assert (Hfac : ∀ k, (k < S n)%nat →
            ((λ i, Real (r ^ (i + 1))) <$> seq 0 (S n)) !! k = Some (Real (r ^ (k + 1)))).
  { intros k Hk. by rewrite list_lookup_fmap, lookup_seq_lt. }
  split; [exact Hfac |]. split.
  - intros k ni_k Hk Hnik. by rewrite lookup_zip_with, Hnik, Hfac.
  - cbn [total_ret]. rewrite cadd_assoc. by replace (n + 1)%nat with (S n) by lia.
Qed.

Lemma discounted_total_return_witness :
  ∃ res df' dfac dni mv_last,
    calc_return (set_years 1 example_scenario) one_month_frame = Ok (res, df')
    ∧ df_get df' "discount_factor" = Ok dfac
    ∧ df_get df' "discounted_net_income" = Ok dni
    ∧ [Real 5e5] !! 0%nat = Some mv_last
    ∧ (∀ k, (k < 1)%nat → dfac !! k = Some (Real ((1 + 0.015 / 12) ^ (k + 1))))
    ∧ (∀ k ni_k, (k < 1)%nat → [Real 100] !! k = Some ni_k →
         dni !! k = Some (ni_k / Real ((1 + 0.015 / 12) ^ (k + 1)))%cell)
    ∧ total_ret res
      = (np_pow ((csum dni
                  + (mv_last * Real (1 - 0.05) - Real (5e5 * 0.03)) * Real (1 - 0.2)
                    / Real ((1 + 0.015 / 12) ^ 1)
                  + Real (5e5 * 0.03)) / Real (5e5 * 0.03)) (1 / IZR 1)
         - Real 1)%cell.
Proof.
  apply (discounted_total_return (set_years 1 example_scenario) one_month_frame
           [Real 100] [Real 5e5] [Real 1] (5e5 * 0.03) 1 0);
    solve [reflexivity | unfold one_month_frame; by df_lookup | discriminate].
Defined.

(** C8: in a run that returns, the income-stream values of the years add
    up to the sum of the net income over the [years * 12] months. *)
Theorem income_stream_sums_to_net_income (s s' : HousingMarket) (years : Z)
    (res : Results) (df : DataFrame) :
  run_simulation s years = (s', Ok (res, df)) →
  ∃ ni, df_get df "net_income" = Ok ni
        ∧ length ni = Z.to_nat (years * 12)
        ∧ csum (snd <$> income_stream res) = csum ni.
Proof.
  intros Hrun.
  destruct (run_simulation_Ok_inv _ _ _ _ Hrun)
    as (m & st & en & c & k & Hm & Hp & Hc & Hk & Hden).
  destruct (run_simulation_ok s years m st en c k)
    as (s2 & res2 & df2 & mv & rent & Hrun2 & _ & _ & _ & _ & _ & _ & _ & _ & _
        & ni & Hni & Hlen & Hinc); [done .. |].
  rewrite Hrun in Hrun2. injection Hrun2 as <- <- <-.
  exists ni. split; [exact Hni |].
  split; [by rewrite (months_of_years years k) |].
  rewrite Hinc. apply csum_by_group.
  - by rewrite length_fmap, length_seq.
  - intros x (i & -> & _)%list_elem_of_fmap. eauto.
Qed.

Lemma income_stream_sums_to_net_income_witness :
  ∃ s' res df,
    run_simulation example_scenario 1 = (s', Ok (res, df))
    ∧ ∃ ni, df_get df "net_income" = Ok ni
            ∧ length ni = Z.to_nat (1 * 12)
            ∧ csum (snd <$> income_stream res) = csum ni.
Proof.
  destruct (run_simulation_ok example_scenario 1 (PyFloat 5e5) (PyInt 20) (PyInt 20)
              (5e5 * 0.03) 0 eq_refl eq_refl eq_refl eq_refl annuity_denominator_example)
    as (s' & res & df & mv & rent & Hrun & _).
  exists s', res, df. split; [exact Hrun |].
  exact (income_stream_sums_to_net_income example_scenario s' 1 res df Hrun).
Defined.

(** ** Runs leave the scenario alone *)

Lemma run_simulation_config (s : HousingMarket) (years : Z) :
  config (fst (run_simulation s years)) = config s.
Proof.
  unfold run_simulation.
  by destruct (projection (set_years years s) years).
Qed.

(** What a run returns depends on the configuration and on [years]
    alone, not on what earlier runs left in [self.years] and
    [self.pretax_df]. *)
Lemma run_simulation_depends_on_config (s1 s2 : HousingMarket) (y : Z) :
  config s1 = config s2 →
  snd (run_simulation s1 y) = snd (run_simulation s2 y).
Proof.
  destruct s1, s2. unfold config. cbn.
  intros [= -> -> -> -> -> -> -> -> -> -> -> -> -> ->].
  unfold run_simulation, set_years. cbn [mkt_value monthly_rent growth price_to_rent
    capital_gain transaction_fee mortgage_rate property_tax_annual mortgage_fee
    downpayment management_fee rental_tax_n_depreciation interest_rate capital
    years pretax_df].
  match goal with
  | |- snd (match ?p1 with _ => _ end) = snd (match ?p2 with _ => _ end) =>
      assert (Hproj : p1 = p2) by reflexivity; rewrite Hproj; destruct p2
  end; reflexivity.
Qed.

(** C9: a run leaves every configuration attribute of the scenario as it
    was, and what it returns is a function of the configuration and of
    [years]: scenarios of equal configuration return the same, so a second
    run returns what the first did, whatever ran in between. *)
Theorem run_simulation_pure (s : HousingMarket) (years : Z) :
  config (fst (run_simulation s years)) = config s
  ∧ (∀ s2 y, config s2 = config s →
       snd (run_simulation s2 y) = snd (run_simulation s y))
  ∧ snd (run_simulation (fst (run_simulation s years)) years)
    = snd (run_simulation s years)
  ∧ ∀ y, snd (run_simulation (fst (run_simulation s y)) years)
         = snd (run_simulation s years).
Proof.
  split; [apply run_simulation_config |].
  split; [intros s2 y Hc; by apply run_simulation_depends_on_config |].
  split; [| intros y]; apply run_simulation_depends_on_config, run_simulation_config.
Qed.

Lemma run_simulation_pure_witness :
  config (fst (run_simulation example_scenario 30)) = config example_scenario
  ∧ snd (run_simulation (fst (run_simulation example_scenario 30)) 30)
    = snd (run_simulation example_scenario 30).
Proof.
  destruct (run_simulation_pure example_scenario 30) as (Hconfig & _ & Hagain & _).
  split; [exact Hconfig | exact Hagain].
Defined.

(** ** Checks on the embedding *)

(** The capital of the example: 3% of 500,000. *)
Example example_capital : capital example_scenario = Some 15000.
Proof. simpl. f_equal. lra. Qed.

(** A negative int is not numeric text either: its sign is no digit. *)
Example init_price_to_rent_negative_int : init_price_to_rent (VNum (PyInt (-5))) = VNone.
Proof. reflexivity. Qed.

(** A constant trajectory gives a constant ratio. *)
Lemma ptr_ratio_constant (df : DataFrame) (st : number) :
  nrows df ≠ 1%nat →
  calc_running_ptr_ratio df (VTuple [st; st])
  = Ok (df_drop df "ptr_ratio_temp_", replicate (nrows df) (Real (num_val st))).
Proof.
  intros Hn. rewrite calc_running_ptr_ratio_eq by done. do 2 f_equal.
  apply list_eq. intros i. rewrite list_lookup_fmap.
  destruct (decide (i < nrows df)%nat) as [Hi | Hi].
  - rewrite lookup_seq_lt, lookup_replicate_2 by done. simpl. do 2 f_equal.
    unfold Rdiv. ring.
  - rewrite lookup_seq_ge by lia. symmetry. apply lookup_replicate_None. lia.
Qed.

(** The cumulative product of a constant column is its powers. *)
Lemma cumprod_from_replicate (a x : R) (n : nat) :
  cumprod_from (Real a) (replicate n (Real x))
  = (λ i, Real (a * x ^ (i + 1))) <$> seq 0 n.
Proof.
  revert a. induction n as [| n IH]; intros a; [reflexivity |].
  cbn [replicate cumprod_from].
  change (Real a * Real x)%cell with (Real (a * x)).
  rewrite IH. cbn [seq]. rewrite fmap_cons. f_equal.
  - f_equal. simpl. ring.
  - rewrite <- fmap_S_seq, <- list_fmap_compose. apply list_fmap_ext.
    intros i k _. simpl. f_equal. ring.
Qed.

Lemma cumprod_replicate (x : R) (n : nat) :
  cumprod (replicate n (Real x)) = (λ i, Real (x ^ (i + 1))) <$> seq 0 n.
Proof.
  unfold cumprod. rewrite cumprod_from_replicate. apply list_fmap_ext.
  intros i k _. f_equal. ring.
Qed.

(** The principal of the example: 500,000 less 3% down, plus 1% fee. *)
Example example_principal :
  num_val (PyFloat 5e5) * (1 - downpayment example_scenario)
  * (1 + mortgage_fee example_scenario) = 489850.
Proof. cbn [num_val downpayment mortgage_fee example_scenario]. lra. Qed.

(** Market value and rent both given: the trajectory is their constant
    ratio, whatever [price_to_rent] was. *)
Lemma init_value_and_rent (a : Args) (m r : number) :
  arg_mkt_value a = VNum m → arg_monthly_rent a = VNum r → num_val r ≠ 0 →
  ∃ s, __init__ a = (print_args s, Ok s)
       ∧ mkt_value s = VNum m
       ∧ price_to_rent s
         = VTuple [PyFloat (num_val m / (12 * num_val r));
                   PyFloat (num_val m / (12 * num_val r))]
       ∧ capital s = Some (num_val m * arg_downpayment a).
Proof.
  intros Hm Hr Hr0.
  unfold __init__, init_resolve, init_trajectory, init_capital.
  rewrite Hm, Hr. cbn [is_none negb andb as_number]. binds.
  rewrite py_div_ok by lra. binds. cbn [mkt_value set_price_to_rent init_fields].
  rewrite Hm. cbn [as_number]. binds.
  eexists. split; [reflexivity |]. cbn. by rewrite Hm.
Qed.

Example init_value_and_rent_example :
  ∃ s, snd (__init__ (with_monthly_rent (VNum (PyInt 2000))
                        (with_mkt_value (VNum (PyInt 480000)) defaults))) = Ok s
       ∧ price_to_rent s = VTuple [PyFloat (480000 / (12 * 2000));
                                   PyFloat (480000 / (12 * 2000))].
Proof.
  destruct (init_value_and_rent
              (with_monthly_rent (VNum (PyInt 2000))
                 (with_mkt_value (VNum (PyInt 480000)) defaults))
              (PyInt 480000) (PyInt 2000)) as (s & Hs & _ & Hp & _);
    [reflexivity | reflexivity | simpl; lra |].
  exists s. rewrite Hs. by split.
Qed.

(** A rent of zero beside a market value: the ratio's division raises. *)
Lemma init_zero_rent (a : Args) (m r : number) :
  arg_mkt_value a = VNum m → arg_monthly_rent a = VNum r → num_val r = 0 →
  __init__ a = ([], Raise ZeroDivisionError).
Proof.
  intros Hm Hr Hr0.
  unfold __init__, init_resolve, init_trajectory.
  rewrite Hm, Hr. cbn [is_none negb andb as_number]. binds.
  rewrite Hr0, Rmult_0_r, py_div_zero. reflexivity.
Qed.

(** What a run does assign on the object: [self.years]. *)
Lemma run_simulation_assigns_years (s : HousingMarket) (y : Z) :
  years (fst (run_simulation s y)) = Some y.
Proof.
  unfold run_simulation. by destruct (projection (set_years y s) y).
Qed.

(** * Further properties of the code *)

(** ** The text of an int *)

Lemma digits_of_uint (d : Decimal.uint) :
  forallb is_digit (list_ascii_of_string (NilEmpty.string_of_uint d)) = true.
Proof. induction d; simpl; try done; by rewrite IHd. Qed.

Lemma str_isnumeric_uint (d : Decimal.uint) :
  str_isnumeric (NilZero.string_of_uint d) = true.
Proof.
  destruct d as [| d | d | d | d | d | d | d | d | d | d]; [reflexivity | ..].
  - apply (digits_of_uint (Decimal.D0 d)).
  - apply (digits_of_uint (Decimal.D1 d)).
  - apply (digits_of_uint (Decimal.D2 d)).
  - apply (digits_of_uint (Decimal.D3 d)).
  - apply (digits_of_uint (Decimal.D4 d)).
  - apply (digits_of_uint (Decimal.D5 d)).
  - apply (digits_of_uint (Decimal.D6 d)).
  - apply (digits_of_uint (Decimal.D7 d)).
  - apply (digits_of_uint (Decimal.D8 d)).
  - apply (digits_of_uint (Decimal.D9 d)).
Qed.

(** The text of an int is numeric exactly when the int is not negative:
    a minus sign is no digit. *)
Lemma isnumeric_int (z : Z) : isnumeric (py_str (VNum (PyInt z))) = (0 <=? z)%Z.
Proof.
  unfold py_str, isnumeric.
  destruct z as [| p | p]; cbn [Z.to_int NilZero.string_of_int].
  - reflexivity.
  - apply str_isnumeric_uint.
  - reflexivity.
Qed.

(** ** The constructor, input by input *)

Lemma truthy_number (m : number) : truthy (VNum m) = if Req_dec_T (num_val m) 0 then false else true.
Proof.
  destruct m as [z | x]; cbn [truthy num_val]; [| done].
  destruct (Req_dec_T (IZR z) 0) as [Hz | Hz].
  - apply eq_IZR in Hz. by subst z.
  - destruct (Z.eqb_spec z 0) as [-> | _]; [done | done].
Qed.

Lemma init_resolve_Ok_inv (a : Args) (s0 s : HousingMarket) :
  init_resolve a s0 = Ok s →
  ∃ s1 m, init_trajectory a s0 = Ok s1 ∧ mkt_value s1 = VNum m
          ∧ s = set_capital (num_val m * downpayment s1) s1.
Proof.
  unfold init_resolve. intros H.
  apply bind_Ok_inv in H as (s1 & Htraj & H). unfold init_capital in H.
  destruct (mkt_value s1) as [| m | l] eqn:Hm; try discriminate.
  cbn [as_number] in H. rewrite bind_ok in H. injection H as <-.
  by exists s1, m.
Qed.

Lemma init_trajectory_rates (a : Args) (s0 s1 : HousingMarket) :
  init_trajectory a s0 = Ok s1 →
  growth s1 = growth s0 ∧ capital_gain s1 = capital_gain s0
  ∧ transaction_fee s1 = transaction_fee s0 ∧ mortgage_rate s1 = mortgage_rate s0
  ∧ property_tax_annual s1 = property_tax_annual s0 ∧ mortgage_fee s1 = mortgage_fee s0
  ∧ downpayment s1 = downpayment s0 ∧ management_fee s1 = management_fee s0
  ∧ rental_tax_n_depreciation s1 = rental_tax_n_depreciation s0
  ∧ interest_rate s1 = interest_rate s0 ∧ monthly_rent s1 = monthly_rent s0.
Proof.
  unfold init_trajectory.
  destruct (negb (is_none (arg_mkt_value a)) && negb (is_none (arg_monthly_rent a))).
  - intros H. inv_binds H. by injection H as <-.
  - destruct (negb (is_none (arg_price_to_rent a))); by intros [= <-].
Qed.

(** X1: given a market value and a non-zero rent, the constructor sets the
    trajectory to their constant ratio [mkt_value / (12 * monthly_rent)],
    whatever [price_to_rent] was given, keeps the market value and sets the
    capital to the market value times the downpayment. *)
Theorem constructor_rent_defines_trajectory (a : Args) (m r : number) :
  arg_mkt_value a = VNum m → arg_monthly_rent a = VNum r → num_val r ≠ 0 →
  ∃ s, __init__ a = (print_args s, Ok s)
       ∧ mkt_value s = VNum m
       ∧ price_to_rent s
         = VTuple [PyFloat (num_val m / (12 * num_val r));
                   PyFloat (num_val m / (12 * num_val r))]
       ∧ capital s = Some (num_val m * arg_downpayment a).
Proof. apply init_value_and_rent. Qed.

Lemma constructor_rent_defines_trajectory_witness :
  ∃ s, __init__ (with_price_to_rent (VTuple [PyFloat 15; PyFloat 30])
                   (with_monthly_rent (VNum (PyInt 2000))
                      (with_mkt_value (VNum (PyInt 480000)) defaults)))
       = (print_args s, Ok s)
       ∧ mkt_value s = VNum (PyInt 480000)
       ∧ price_to_rent s
         = VTuple [PyFloat (IZR 480000 / (12 * IZR 2000));
                   PyFloat (IZR 480000 / (12 * IZR 2000))]
       ∧ capital s = Some (IZR 480000 * 0.03).
Proof.
  apply (constructor_rent_defines_trajectory
           (with_price_to_rent (VTuple [PyFloat 15; PyFloat 30])
              (with_monthly_rent (VNum (PyInt 2000))
                 (with_mkt_value (VNum (PyInt 480000)) defaults)))
           (PyInt 480000) (PyInt 2000));
    [reflexivity | reflexivity | simpl; lra].
Defined.

(** X2: given a market value and a rent of zero, the constructor raises
    [ZeroDivisionError] and prints nothing. *)
Theorem constructor_zero_rent_raises (a : Args) (m r : number) :
  arg_mkt_value a = VNum m → arg_monthly_rent a = VNum r → num_val r = 0 →
  __init__ a = ([], Raise ZeroDivisionError).
Proof. apply init_zero_rent. Qed.

Lemma constructor_zero_rent_raises_witness :
  __init__ (with_monthly_rent (VNum (PyInt 0))
              (with_mkt_value (VNum (PyFloat 5e5)) defaults))
  = ([], Raise ZeroDivisionError).
Proof.
  apply (constructor_zero_rent_raises
           (with_monthly_rent (VNum (PyInt 0))
              (with_mkt_value (VNum (PyFloat 5e5)) defaults))
           (PyFloat 5e5) (PyInt 0)); reflexivity.
Defined.

(** X3: given an int as [price_to_rent] and no market value, the
    constructor returns an object with market value 500,000; its trajectory
    is the constant pair of that int when the int is not negative, and
    [None] when it is negative. *)
Theorem constructor_int_price_to_rent (a : Args) (z : Z) :
  arg_mkt_value a = VNone → arg_price_to_rent a = VNum (PyInt z) →
  ∃ s, __init__ a = (print_args s, Ok s)
       ∧ mkt_value s = VNum (PyFloat 5e5)
       ∧ capital s = Some (5e5 * arg_downpayment a)
       ∧ price_to_rent s
         = if (0 <=? z)%Z then VTuple [PyInt z; PyInt z] else VNone.
Proof.
  intros Hm Hp. unfold __init__, init_resolve, init_trajectory, init_capital.
  rewrite Hm, Hp. simpl. rewrite andb_false_r.
  eexists. split; [reflexivity |]. simpl. rewrite Hp.
  unfold init_price_to_rent. by rewrite isnumeric_int.
Qed.

Lemma constructor_int_price_to_rent_witness :
  ∃ s, __init__ (with_price_to_rent (VNum (PyInt (-20))) defaults) = (print_args s, Ok s)
       ∧ mkt_value s = VNum (PyFloat 5e5)
       ∧ capital s = Some (5e5 * 0.03)
       ∧ price_to_rent s = VNone.
Proof.
  apply (constructor_int_price_to_rent
           (with_price_to_rent (VNum (PyInt (-20))) defaults) (-20));
    reflexivity.
Defined.

(** X4: beside a given [price_to_rent] and no rent, a market value of zero
    counts as absent and is replaced by 500,000; any other number is
    kept. *)
Theorem constructor_zero_market_value_defaulted (a : Args) (m : number) :
  arg_mkt_value a = VNum m → arg_monthly_rent a = VNone → arg_price_to_rent a ≠ VNone →
  ∃ s, __init__ a = (print_args s, Ok s)
       ∧ (num_val m = 0 →
          mkt_value s = VNum (PyFloat 5e5) ∧ capital s = Some (5e5 * arg_downpayment a))
       ∧ (num_val m ≠ 0 →
          mkt_value s = VNum m ∧ capital s = Some (num_val m * arg_downpayment a)).
Proof.
  intros Hm Hr Hp. unfold __init__, init_resolve, init_trajectory, init_capital.
  rewrite Hm, Hr. cbn [is_none negb andb].
  assert (Hnn : negb (is_none (arg_price_to_rent a)) = true)
    by (by destruct (arg_price_to_rent a)).
  rewrite Hnn, bind_ok. unfold py_or. rewrite truthy_number.
  destruct (Req_dec_T (num_val m) 0) as [Hz | Hz];
    cbn [mkt_value set_mkt_value as_number]; rewrite bind_ok;
    (eexists; split; [reflexivity |]); split; intros Hz'; try done; by cbn.
Qed.

Lemma constructor_zero_market_value_defaulted_witness :
  ∃ s, __init__ (with_mkt_value (VNum (PyInt 0)) example_args) = (print_args s, Ok s)
       ∧ (IZR 0 = 0 →
          mkt_value s = VNum (PyFloat 5e5) ∧ capital s = Some (5e5 * 0.03))
       ∧ (IZR 0 ≠ 0 →
          mkt_value s = VNum (PyInt 0) ∧ capital s = Some (IZR 0 * 0.03)).
Proof.
  apply (constructor_zero_market_value_defaulted
           (with_mkt_value (VNum (PyInt 0)) example_args) (PyInt 0));
    [reflexivity | reflexivity | discriminate].
Defined.

(** X5: whenever the constructor returns an object, either the three
    inputs were [None], the diagnostic alone was printed and no capital was
    set, or the argument report was printed and the object holds a numeric
    market value and a capital equal to that market value times the
    downpayment; either way every rate is stored as it was given. *)
Theorem constructor_returns (a : Args) (out : list printed) (s : HousingMarket) :
  __init__ a = (out, Ok s) →
  ((arg_mkt_value a = VNone ∧ arg_monthly_rent a = VNone ∧ arg_price_to_rent a = VNone
    ∧ out = [Line no_values_message] ∧ mkt_value s = VNone ∧ capital s = None)
   ∨ (out = print_args s
      ∧ ∃ m, mkt_value s = VNum m ∧ capital s = Some (num_val m * downpayment s)))
  ∧ growth s = arg_growth a
  ∧ capital_gain s = arg_capital_gain a
  ∧ transaction_fee s = arg_transaction_fee a
  ∧ mortgage_rate s = arg_mortgage_rate a
  ∧ property_tax_annual s = arg_property_tax a
  ∧ mortgage_fee s = arg_mortgage_fee a
  ∧ downpayment s = arg_downpayment a
  ∧ management_fee s = arg_management_fee a
  ∧ rental_tax_n_depreciation s = arg_rental_tax_n_depreciation a
  ∧ interest_rate s = arg_interest_rate a
  ∧ monthly_rent s = arg_monthly_rent a.
Proof.
  unfold __init__.
  destruct (is_none (arg_mkt_value a) && is_none (arg_monthly_rent a)
            && is_none (arg_price_to_rent a)) eqn:Hnone.
  - intros [= <- <-].
    apply andb_true_iff in Hnone as [[Hm Hr]%andb_true_iff Hp].
    destruct (arg_mkt_value a) eqn:Em; try discriminate.
    destruct (arg_monthly_rent a) eqn:Er; try discriminate.
    destruct (arg_price_to_rent a) eqn:Ep; try discriminate.
    split; [left |]; cbn; by rewrite ?Em, ?Er.
  - destruct (init_resolve a (init_fields a)) as [s' | e] eqn:Hres; [| discriminate].
    intros [= <- <-].
    destruct (init_resolve_Ok_inv _ _ _ Hres) as (s1 & m & Htraj & Hm & ->).
    destruct (init_trajectory_rates _ _ _ Htraj)
      as (? & ? & ? & ? & ? & ? & ? & ? & ? & ? & ?).
    split; [right; split; [done |]; by exists m |].
    clear Hres Htraj Hnone.
    cbn [growth capital_gain transaction_fee mortgage_rate property_tax_annual
         mortgage_fee downpayment management_fee rental_tax_n_depreciation
         interest_rate monthly_rent set_capital init_fields] in *.
    repeat split; congruence.
Qed.

Lemma constructor_returns_witness :
  ((arg_mkt_value example_args = VNone ∧ arg_monthly_rent example_args = VNone
    ∧ arg_price_to_rent example_args = VNone
    ∧ print_args example_scenario = [Line no_values_message]
    ∧ mkt_value example_scenario = VNone ∧ capital example_scenario = None)
   ∨ (print_args example_scenario = print_args example_scenario
      ∧ ∃ m, mkt_value example_scenario = VNum m
             ∧ capital example_scenario
               = Some (num_val m * downpayment example_scenario)))
  ∧ growth example_scenario = arg_growth example_args
  ∧ capital_gain example_scenario = arg_capital_gain example_args
  ∧ transaction_fee example_scenario = arg_transaction_fee example_args
  ∧ mortgage_rate example_scenario = arg_mortgage_rate example_args
  ∧ property_tax_annual example_scenario = arg_property_tax example_args
  ∧ mortgage_fee example_scenario = arg_mortgage_fee example_args
  ∧ downpayment example_scenario = arg_downpayment example_args
  ∧ management_fee example_scenario = arg_management_fee example_args
  ∧ rental_tax_n_depreciation example_scenario
    = arg_rental_tax_n_depreciation example_args
  ∧ interest_rate example_scenario = arg_interest_rate example_args
  ∧ monthly_rent example_scenario = arg_monthly_rent example_args.
Proof.
  apply (constructor_returns example_args (print_args example_scenario)
           example_scenario).
  reflexivity.
Defined.

Lemma bind_Raise_inv {A B} (r : result A) (f : A → result B) (e : exn) :
  r ≫= f = Raise e → r = Raise e ∨ ∃ a, r = Ok a ∧ f a = Raise e.
Proof.
  destruct r as [a | e']; intros H; [right; eauto | left].
  rewrite bind_raise in H. by injection H as ->.
Qed.

Lemma init_capital_Raise (s : HousingMarket) (e : exn) :
  init_capital s = Raise e → e = TypeError.
Proof.
  unfold init_capital. destruct (mkt_value s); cbn [as_number];
    rewrite ?bind_ok, ?bind_raise; congruence.
Qed.

Lemma init_trajectory_Raise (a : Args) (s : HousingMarket) (e : exn) :
  init_trajectory a s = Raise e →
  e = TypeError
  ∨ (e = ZeroDivisionError
     ∧ ∃ m r, arg_mkt_value a = VNum m ∧ arg_monthly_rent a = VNum r ∧ num_val r = 0).
Proof.
  unfold init_trajectory.
  destruct (arg_mkt_value a) as [| m | lm]; destruct (arg_monthly_rent a) as [| r | lr];
    cbn [is_none negb andb as_number]; rewrite ?bind_ok, ?bind_raise;
    try (destruct (negb (is_none (arg_price_to_rent a))); discriminate);
    try (intros [= <-]; by left).
  unfold py_div. destruct (Req_dec_T (12 * num_val r) 0) as [Hz | Hz].
  - rewrite bind_raise. intros [= <-]. right. split; [done |].
    exists m, r. repeat split. lra.
  - rewrite bind_ok. discriminate.
Qed.

(** X6: when the constructor raises, it has printed nothing, and the
    exception is [TypeError], or else [ZeroDivisionError] with a market
    value and a rent of zero both given as numbers. *)
Theorem constructor_raises_only (a : Args) (out : list printed) (e : exn) :
  __init__ a = (out, Raise e) →
  out = []
  ∧ (e = TypeError
     ∨ (e = ZeroDivisionError
        ∧ ∃ m r, arg_mkt_value a = VNum m ∧ arg_monthly_rent a = VNum r
                 ∧ num_val r = 0)).
Proof.
  unfold __init__.
  destruct (is_none (arg_mkt_value a) && is_none (arg_monthly_rent a)
            && is_none (arg_price_to_rent a)); [discriminate |].
  destruct (init_resolve a (init_fields a)) as [s' | e'] eqn:Hres; [discriminate |].
  intros [= <- <-]. split; [done |].
  unfold init_resolve in Hres.
  apply bind_Raise_inv in Hres as [Htraj | (s1 & _ & Hcap)].
  - by apply init_trajectory_Raise in Htraj.
  - left. by apply init_capital_Raise in Hcap.
Qed.

Lemma constructor_raises_only_witness :
  [] = ([] : list printed)
  ∧ (ZeroDivisionError = TypeError
     ∨ (ZeroDivisionError = ZeroDivisionError
        ∧ ∃ m r,
            arg_mkt_value (with_monthly_rent (VNum (PyInt 0))
                             (with_mkt_value (VNum (PyFloat 5e5)) defaults)) = VNum m
            ∧ arg_monthly_rent (with_monthly_rent (VNum (PyInt 0))
                                  (with_mkt_value (VNum (PyFloat 5e5)) defaults))
              = VNum r
            ∧ num_val r = 0)).
Proof.
  apply (constructor_raises_only
           (with_monthly_rent (VNum (PyInt 0))
              (with_mkt_value (VNum (PyFloat 5e5)) defaults))
           [] ZeroDivisionError).
  apply (init_zero_rent _ (PyFloat 5e5) (PyInt 0)); reflexivity.
Defined.

(** ** [calc_running_ptr_ratio], further *)

Lemma lookup_ptr_ratio (df : DataFrame) (st en : number) (i : nat) :
  (i < nrows df)%nat →
  ((λ i, Real (num_val st + (num_val en - num_val st) / (INR (nrows df) - 1) * INR i))
     <$> seq 0 (nrows df)) !! i
  = Some (Real (num_val st + (num_val en - num_val st) / (INR (nrows df) - 1) * INR i)).
Proof. intros Hi. by rewrite list_lookup_fmap, lookup_seq_lt. Qed.

(** X7: over two rows or more the first interpolated ratio is the start
    of the trajectory and the last one is its end. *)
Theorem ptr_ratio_endpoints (df : DataFrame) (st en : number) :
  (1 < nrows df)%nat →
  ∃ df' ratios,
    calc_running_ptr_ratio df (VTuple [st; en]) = Ok (df', ratios)
    ∧ ratios !! 0%nat = Some (Real (num_val st))
    ∧ ratios !! (nrows df - 1)%nat = Some (Real (num_val en)).
Proof.
  intros Hn. eexists _, _. split; [apply calc_running_ptr_ratio_eq; lia |].
  rewrite !lookup_ptr_ratio by lia. split; do 2 f_equal.
  - simpl. lra.
  - rewrite minus_INR by lia. simpl (INR 1).
    assert (INR (nrows df) - 1 ≠ 0).
    { rewrite <- rows_minus_one. apply rows_minus_one_nonzero. lia. }
    field. done.
Qed.

Lemma ptr_ratio_endpoints_witness :
  ∃ df' ratios,
    calc_running_ptr_ratio (mkDataFrame 12 ∅) (VTuple [PyFloat 20; PyFloat 25])
    = Ok (df', ratios)
    ∧ ratios !! 0%nat = Some (Real 20)
    ∧ ratios !! (12 - 1)%nat = Some (Real 25).
Proof.
  apply (ptr_ratio_endpoints (mkDataFrame 12 ∅) (PyFloat 20) (PyFloat 25)).
  simpl. lia.
Defined.

(** X8: every interpolated ratio lies between the start and the end of
    the trajectory. *)
Theorem ptr_ratio_between (df : DataFrame) (st en : number) :
  (1 < nrows df)%nat →
  ∃ df' ratios,
    calc_running_ptr_ratio df (VTuple [st; en]) = Ok (df', ratios)
    ∧ ∀ i, (i < nrows df)%nat →
        ∃ x, ratios !! i = Some (Real x)
             ∧ Rmin (num_val st) (num_val en) <= x <= Rmax (num_val st) (num_val en).
Proof.
  intros Hn. eexists _, _. split; [apply calc_running_ptr_ratio_eq; lia |].
  intros i Hi. eexists. split; [by apply lookup_ptr_ratio |].
  assert (HN : 0 < INR (nrows df) - 1).
  { rewrite <- rows_minus_one. apply IZR_lt. lia. }
  assert (Hi0 : 0 <= INR i) by apply pos_INR.
  assert (Hi1 : INR i <= INR (nrows df) - 1).
  { rewrite <- rows_minus_one, INR_IZR_INZ. apply IZR_le. lia. }
  set (t := INR i / (INR (nrows df) - 1)).
  assert (Ht : 0 <= t <= 1).
  { unfold t. split.
    - apply Rmult_le_pos; [done |]. left. by apply Rinv_0_lt_compat.
    - apply (Rmult_le_reg_r (INR (nrows df) - 1)); [done |].
      unfold Rdiv. rewrite Rmult_assoc, Rinv_l by lra. lra. }
  replace (num_val st + (num_val en - num_val st) / (INR (nrows df) - 1) * INR i)
    with (num_val st + (num_val en - num_val st) * t) by (unfold t; field; lra).
  unfold Rmin, Rmax. destruct (Rle_dec (num_val st) (num_val en)); nra.
Qed.

Lemma ptr_ratio_between_witness :
  ∃ df' ratios,
    calc_running_ptr_ratio (mkDataFrame 12 ∅) (VTuple [PyFloat 25; PyFloat 20])
    = Ok (df', ratios)
    ∧ ∀ i, (i < 12)%nat →
        ∃ x, ratios !! i = Some (Real x) ∧ Rmin 25 20 <= x <= Rmax 25 20.
Proof.
  apply (ptr_ratio_between (mkDataFrame 12 ∅) (PyFloat 25) (PyFloat 20)).
  simpl. lia.
Defined.

(** X9: a call that returns gives one ratio per row (none for an empty
    frame) and leaves the frame with its rows and every column as they
    were, but for a column named [ptr_ratio_temp_], which is gone even if
    the frame held one before. *)
Theorem ptr_ratio_frame_effect (df : DataFrame) (st en : number) :
  nrows df ≠ 1%nat →
  ∃ df' ratios,
    calc_running_ptr_ratio df (VTuple [st; en]) = Ok (df', ratios)
    ∧ length ratios = nrows df
    ∧ nrows df' = nrows df
    ∧ df_get df' "ptr_ratio_temp_" = Raise KeyError
    ∧ ∀ name, name ≠ "ptr_ratio_temp_" → df_get df' name = df_get df name.
Proof.
  intros Hn. eexists _, _. split; [by apply calc_running_ptr_ratio_eq |].
  split; [by rewrite length_fmap, length_seq |]. split; [done |]. split.
  - unfold df_get, df_drop. cbn [columns]. by rewrite lookup_delete_eq.
  - intros name Hne. by apply df_get_drop_ne.
Qed.

Lemma ptr_ratio_frame_effect_witness :
  ∃ df' ratios,
    calc_running_ptr_ratio (df_set (mkDataFrame 0 ∅) "ptr_ratio_temp_" [])
      (VTuple [PyFloat 20; PyFloat 25]) = Ok (df', ratios)
    ∧ length ratios = 0%nat
    ∧ nrows df' = 0%nat
    ∧ df_get df' "ptr_ratio_temp_" = Raise KeyError
    ∧ ∀ name, name ≠ "ptr_ratio_temp_" →
        df_get df' name = df_get (df_set (mkDataFrame 0 ∅) "ptr_ratio_temp_" []) name.
Proof.
  apply (ptr_ratio_frame_effect (df_set (mkDataFrame 0 ∅) "ptr_ratio_temp_" [])
           (PyFloat 20) (PyFloat 25)).
  simpl. lia.
Defined.

(** X10: a trajectory that is no pair stops the call before the frame is
    touched: [TypeError] for [None] or a number, which have no length,
    [AssertionError] for a tuple that has not two entries. *)
Theorem ptr_ratio_bad_trajectory (df : DataFrame) (ptr : pyval) :
  (∀ st en, ptr ≠ VTuple [st; en]) →
  calc_running_ptr_ratio df ptr
  = Raise (match ptr with VTuple _ => AssertionError | _ => TypeError end).
Proof.
  intros Hptr. destruct ptr as [| n | [| st [| en [| x l]]]]; try reflexivity.
  by destruct (Hptr st en).
Qed.

Lemma ptr_ratio_bad_trajectory_witness :
  calc_running_ptr_ratio (mkDataFrame 12 ∅) (VTuple [PyFloat 20; PyFloat 22; PyFloat 25])
  = Raise AssertionError.
Proof.
  apply (ptr_ratio_bad_trajectory (mkDataFrame 12 ∅)
           (VTuple [PyFloat 20; PyFloat 22; PyFloat 25])).
  discriminate.
Defined.

(** ** [mortgage_payments], further *)

Lemma mortgage_payments_eq (s : HousingMarket) (df : DataFrame) (m : number) :
  mkt_value s = VNum m → annuity_denominator s (nrows df) ≠ 0 →
  mortgage_payments s df
  = Ok (df_set_scalar df "monthly_mortgage"
          (Real (annuity_numerator s (num_val m) (nrows df)
                 / annuity_denominator s (nrows df)))).
Proof.
  intros Hm Hden. unfold mortgage_payments. rewrite Hm. cbn [as_number]. binds.
  cbv zeta. fold (annuity_numerator s (num_val m) (nrows df)).
  fold (annuity_denominator s (nrows df)). by rewrite py_div_ok.
Qed.

(** X11: on a frame without rows the annuity denominator is
    [(1 + r_m)^0 - 1 = 0], so [mortgage_payments] raises
    [ZeroDivisionError] whatever the mortgage rate. *)
Theorem mortgage_payments_empty_frame (s : HousingMarket) (df : DataFrame) (m : number) :
  mkt_value s = VNum m → nrows df = 0%nat →
  mortgage_payments s df = Raise ZeroDivisionError.
Proof.
  intros Hm Hn. unfold mortgage_payments. rewrite Hm. cbn [as_number]. binds.
  cbv zeta. rewrite Hn. replace ((1 + mortgage_rate s / 12) ^ 0 - 1) with 0 by (simpl; lra).
  by rewrite py_div_zero.
Qed.

Lemma mortgage_payments_empty_frame_witness :
  mortgage_payments example_scenario (mkDataFrame 0 ∅) = Raise ZeroDivisionError.
Proof.
  apply (mortgage_payments_empty_frame example_scenario (mkDataFrame 0 ∅) (PyFloat 5e5));
    reflexivity.
Defined.

(** Over the reals, with a positive rate and a positive principal, the
    annuity payment is more than one month's interest on the principal
    and at most the principal with one month's interest. *)
Lemma annuity_payment_bounds (s : HousingMarket) (m : R) (n : nat) :
  0 < mortgage_rate s → (0 < n)%nat →
  let P := m * (1 - downpayment s) * (1 + mortgage_fee s) in
  let r_m := mortgage_rate s / 12 in
  0 < P →
  P * r_m < annuity_numerator s m n / annuity_denominator s n <= P * (1 + r_m).
Proof.
  intros Hr Hn P r_m HP.
  unfold annuity_numerator, annuity_denominator. fold r_m. fold P.
  set (x := (1 + r_m) ^ n).
  assert (Hrm : 0 < r_m) by (unfold r_m; lra).
  assert (Hx : 1 + r_m <= x).
  { unfold x. destruct n as [| n]; [lia |]. simpl.
    assert (1 <= (1 + r_m) ^ n) by (apply pow_R1_Rle; lra). nra. }
  assert (Hx1 : 0 < x - 1) by lra.
  assert (HPr : 0 < P * r_m) by (by apply Rmult_lt_0_compat).
  split.
  - apply (Rmult_lt_reg_r (x - 1)); [done |].
    replace (P * r_m * x / (x - 1) * (x - 1)) with (P * r_m * x) by (field; lra).
    nra.
  - apply (Rmult_le_reg_r (x - 1)); [done |].
    replace (P * r_m * x / (x - 1) * (x - 1)) with (P * r_m * x) by (field; lra).
    nra.
Qed.

(** X12: a call of [mortgage_payments] that returns was given a numeric
    market value, a frame of one row or more and a mortgage rate other
    than zero; it has added the one column [monthly_mortgage], the annuity
    payment in every row, and has changed neither the rows nor any other
    column. *)
Theorem mortgage_payments_frame_effect (s : HousingMarket) (df df' : DataFrame) :
  mortgage_payments s df = Ok df' →
  ∃ m : number,
    mkt_value s = VNum m
    ∧ (0 < nrows df)%nat
    ∧ mortgage_rate s ≠ 0
    ∧ annuity_denominator s (nrows df) ≠ 0
    ∧ nrows df' = nrows df
    ∧ df_get df' "monthly_mortgage"
      = Ok (replicate (nrows df)
              (Real (annuity_numerator s (num_val m) (nrows df)
                     / annuity_denominator s (nrows df))))
    ∧ ∀ name, name ≠ "monthly_mortgage" → df_get df' name = df_get df name.
Proof.
  intros H. unfold mortgage_payments in H.
  apply bind_Ok_inv in H as (mval & Hmval & H). cbv beta zeta in H.
  apply bind_Ok_inv in H as (pay & Hpay & H). cbv beta in H. injection H as <-.
  destruct (mkt_value s) as [| m | l] eqn:Hm; try discriminate.
  cbn [as_number] in Hmval. injection Hmval as <-.
  pose proof (py_div_Ok_inv _ _ _ Hpay) as Hden.
  rewrite py_div_ok in Hpay by done. injection Hpay as <-.
  fold (annuity_denominator s (nrows df)) in Hden |- *.
  fold (annuity_numerator s (num_val m) (nrows df)).
  exists m. split; [done |].
  split.
  { destruct (nrows df); [| lia].
    exfalso. apply Hden. unfold annuity_denominator. simpl. lra. }
  split; [intros Hr; by apply Hden, annuity_denominator_zero_rate |].
  split; [exact Hden |]. split; [done |].
  unfold df_set_scalar. split; [by df_lookup |].
  intros name Hne. by rewrite df_get_set_ne.
Qed.

Lemma mortgage_payments_frame_effect_witness :
  ∃ df',
    mortgage_payments example_scenario (mkDataFrame 12 ∅) = Ok df'
    ∧ mortgage_rate example_scenario ≠ 0
    ∧ nrows df' = 12%nat
    ∧ df_get df' "monthly_mortgage"
      = Ok (replicate 12
              (Real (annuity_numerator example_scenario 5e5 12
                     / annuity_denominator example_scenario 12)))
    ∧ ∀ name, name ≠ "monthly_mortgage" →
        df_get df' name = df_get (mkDataFrame 12 ∅) name.
Proof.
  assert (Hden : annuity_denominator example_scenario (nrows (mkDataFrame 12 ∅)) ≠ 0).
  { apply annuity_denominator_positive_rate; [simpl; lra | simpl; lia]. }
  pose proof (mortgage_payments_eq example_scenario (mkDataFrame 12 ∅) (PyFloat 5e5)
                eq_refl Hden) as Hcall.
  destruct (mortgage_payments_frame_effect example_scenario (mkDataFrame 12 ∅) _ Hcall)
    as (m & Hm & _ & Hrate & _ & Hrows & Hcol & Hothers).
  injection Hm as <-.
  eexists. split; [exact Hcall |]. split; [exact Hrate |]. split; [exact Hrows |].
  split; [exact Hcol | exact Hothers].
Defined.

(** ** [calc_return], further *)

Lemma init_trajectory_unset (a : Args) (s0 s1 : HousingMarket) :
  init_trajectory a s0 = Ok s1 → years s1 = years s0 ∧ pretax_df s1 = pretax_df s0.
Proof.
  unfold init_trajectory.
  destruct (negb (is_none (arg_mkt_value a)) && negb (is_none (arg_monthly_rent a))).
  - intros H. inv_binds H. by injection H as <-.
  - destruct (negb (is_none (arg_price_to_rent a))); by intros [= <-].
Qed.

(** The constructor assigns neither [self.years] nor [self.pretax_df]. *)
Lemma init_years_unset (a : Args) (out : list printed) (s : HousingMarket) :
  __init__ a = (out, Ok s) → years s = None ∧ pretax_df s = None.
Proof.
  unfold __init__.
  destruct (is_none (arg_mkt_value a) && is_none (arg_monthly_rent a)
            && is_none (arg_price_to_rent a)).
  - by intros [= <- <-].
  - destruct (init_resolve a (init_fields a)) as [s' | e] eqn:Hres; [| discriminate].
    intros [= <- <-].
    destruct (init_resolve_Ok_inv _ _ _ Hres) as (s1 & m & Htraj & Hm & ->).
    destruct (init_trajectory_unset _ _ _ Htraj) as [H1 H2].
    cbn [years pretax_df set_capital]. by rewrite H1, H2.
Qed.

Lemma calc_return_no_years (s : HousingMarket) (df : DataFrame) (ni mv : list cell)
    (n : nat) :
  nrows df = S n →
  df_get df "net_income" = Ok ni →
  df_get df "market_value" = Ok mv → length mv = S n →
  years s = None →
  calc_return s df = Raise AttributeError.
Proof.
  intros Hn Hni Hmv Hlen Hy.
  destruct (lookup_lt_is_Some_2 mv n) as [mv_last Hlast]; [lia |].
  unfold calc_return. cbv zeta. unfold df_index. rewrite Hn.
  df_lookup. rewrite Hni. binds. df_lookup. binds.
  unfold df_last. cbn [nrows df_set]. rewrite Hn. df_lookup.
  rewrite Hmv. binds. rewrite Hlast. binds.
  destruct (capital s) as [c |]; cbn [attr]; [| reflexivity]. binds.
  rewrite list_lookup_fmap, lookup_seq_lt by lia. cbn [fmap option_fmap option_map].
  binds. by rewrite Hy.
Qed.

(** X13: [calc_return] reads [self.years], which only [run_simulation]
    assigns: called on an object fresh from the constructor, with a frame
    that holds the columns it reads, it raises [AttributeError]. *)
Theorem calc_return_before_run (a : Args) (out : list printed) (s : HousingMarket)
    (df : DataFrame) (ni mv : list cell) (n : nat) :
  __init__ a = (out, Ok s) →
  nrows df = S n →
  df_get df "net_income" = Ok ni →
  df_get df "market_value" = Ok mv → length mv = S n →
  calc_return s df = Raise AttributeError.
Proof.
  intros Hinit Hn Hni Hmv Hlen.
  destruct (init_years_unset _ _ _ Hinit) as [Hy _].
  by apply (calc_return_no_years s df ni mv n).
Qed.

Lemma calc_return_before_run_witness :
  calc_return example_scenario one_month_frame = Raise AttributeError.
Proof.
  apply (calc_return_before_run example_args (print_args example_scenario)
           example_scenario one_month_frame [Real 100] [Real 5e5] 0);
    solve [reflexivity | unfold one_month_frame; by df_lookup].
Defined.

(** X14: [calc_return] on a frame it cannot use: without a [net_income]
    column it raises [KeyError]; with that column but no rows it raises
    [IndexError], at [df.index[-1]]; with the columns, rows and capital but
    [self.years] zero it raises [ZeroDivisionError], at [1.0 / self.years]. *)
Theorem calc_return_errors (s : HousingMarket) (df : DataFrame) :
  (df_get df "net_income" = Raise KeyError → calc_return s df = Raise KeyError)
  ∧ (∀ ni, df_get df "net_income" = Ok ni → nrows df = 0%nat →
       calc_return s df = Raise IndexError)
  ∧ (∀ ni mv c n,
       nrows df = S n → df_get df "net_income" = Ok ni →
       df_get df "market_value" = Ok mv → length mv = S n →
       capital s = Some c → years s = Some 0%Z →
       calc_return s df = Raise ZeroDivisionError).
Proof.
  split; [| split].
  - intros Hni. unfold calc_return. cbv zeta. df_lookup. by rewrite Hni.
  - intros ni Hni Hn. unfold calc_return. cbv zeta. df_lookup. rewrite Hni. binds.
    df_lookup. binds. unfold df_last. cbn [nrows df_set]. by rewrite Hn.
  - intros ni mv c n Hn Hni Hmv Hlen Hc Hy.
    destruct (lookup_lt_is_Some_2 mv n) as [mv_last Hlast]; [lia |].
    unfold calc_return. cbv zeta. unfold df_index. rewrite Hn.
    df_lookup. rewrite Hni. binds. df_lookup. binds.
    unfold df_last. cbn [nrows df_set]. rewrite Hn. df_lookup.
    rewrite Hmv. binds. rewrite Hlast, Hc. cbn [attr]. binds.
    rewrite list_lookup_fmap, lookup_seq_lt by lia. cbn [fmap option_fmap option_map].
    binds. rewrite Hy. cbn [attr]. binds. by rewrite py_div_zero.
Qed.

Lemma calc_return_errors_witness :
  calc_return example_scenario (mkDataFrame 1 ∅) = Raise KeyError
  ∧ calc_return example_scenario (df_set (mkDataFrame 0 ∅) "net_income" [])
    = Raise IndexError
  ∧ calc_return (set_years 0 example_scenario) one_month_frame
    = Raise ZeroDivisionError.
Proof.
  split; [| split].
  - apply (proj1 (calc_return_errors example_scenario (mkDataFrame 1 ∅))).
    reflexivity.
  - apply (proj1 (proj2 (calc_return_errors example_scenario
                           (df_set (mkDataFrame 0 ∅) "net_income" []))) []);
      [by df_lookup | reflexivity].
  - apply (proj2 (proj2 (calc_return_errors (set_years 0 example_scenario)
                           one_month_frame)) [Real 100] [Real 5e5] (5e5 * 0.03) 0%nat);
      solve [reflexivity | unfold one_month_frame; by df_lookup].
Defined.

Lemma mapM_keyed_fst {A B} (F : A → result B) (l : list A) (r : list (A * B)) :
  mapM (λ k, v ← F k; Ok (k, v)) l = Ok r → fst <$> r = l.
Proof.
  revert r. induction l as [| k l IH]; intros r.
  - by intros [= <-].
  - change (mapM (λ k, v ← F k; Ok (k, v)) (k :: l))
      with (y ← (v ← F k; Ok (k, v)); r ← mapM (λ k, v ← F k; Ok (k, v)) l; Ok (y :: r)).
    intros H.
    apply bind_Ok_inv in H as (y & Hy & H). cbv beta in H.
    apply bind_Ok_inv in H as (r' & Hr' & H). cbv beta in H.
    apply bind_Ok_inv in Hy as (v & _ & Hy). cbv beta in Hy.
    injection H as <-. injection Hy as <-.
    rewrite fmap_cons. cbn [fst]. f_equal. by apply IH.
Qed.

Lemma groupby_apply_keys (df : DataFrame) (key : string) (f : DataFrame → result cell)
    (ks : list cell) (r : list (R * cell)) :
  df_get df key = Ok ks → groupby_apply df key f = Ok r → fst <$> r = group_keys ks.
Proof.
  intros Hks. unfold groupby_apply. rewrite Hks, bind_ok. apply mapM_keyed_fst.
Qed.

Lemma df_project_cons (df d : DataFrame) (name : string) (names : list string) :
  df_project df (name :: names) = Ok d →
  ∃ d0 c, df_project df names = Ok d0 ∧ df_get df name = Ok c ∧ d = df_set d0 name c.
Proof.
  unfold df_project. cbn [foldr]. intros H.
  apply bind_Ok_inv in H as (d0 & Hd0 & H). cbv beta in H.
  apply bind_Ok_inv in H as (c & Hc & H). cbv beta in H.
  injection H as <-. eauto.
Qed.

(** X15: a call of [calc_return] that returns hands back the frame with
    its rows and every column as they were, but for [discount_factor] and
    [discounted_net_income], which it writes; the two per-year results
    carry the same keys. *)
Theorem calc_return_frame_effect (s : HousingMarket) (df df' : DataFrame)
    (res : Results) :
  calc_return s df = Ok (res, df') →
  nrows df' = nrows df
  ∧ (∀ name, name ≠ "discount_factor" → name ≠ "discounted_net_income" →
       df_get df' name = df_get df name)
  ∧ (∃ dfac, df_get df' "discount_factor" = Ok dfac ∧ length dfac = nrows df)
  ∧ fst <$> rental_ret res = fst <$> income_stream res.
Proof.
  intros H. unfold calc_return in H. cbv zeta in H.
  apply bind_Ok_inv in H as (ni & Hni & H). cbv beta in H.
  apply bind_Ok_inv in H as (dfac & Hdfac & H). cbv beta in H.
  apply bind_Ok_inv in H as (dni & Hdni & H). cbv beta in H.
  apply bind_Ok_inv in H as (mv_last & _ & H). cbv beta in H.
  apply bind_Ok_inv in H as (c & _ & H). cbv beta in H.
  apply bind_Ok_inv in H as (dl & _ & H). cbv beta in H.
  apply bind_Ok_inv in H as (y & _ & H). cbv beta in H.
  apply bind_Ok_inv in H as (e & _ & H). cbv beta in H.
  apply bind_Ok_inv in H as (by1 & Hby1 & H). cbv beta in H.
  apply bind_Ok_inv in H as (rr & Hrr & H). cbv beta in H.
  apply bind_Ok_inv in H as (by2 & Hby2 & H). cbv beta in H.
  apply bind_Ok_inv in H as (inc & Hinc & H). cbv beta in H.
  injection H as <- <-.
  rewrite df_get_set_eq in Hdfac. injection Hdfac as <-.
  split; [done |]. split; [| split].
  - intros name H1 H2. by rewrite !df_get_set_ne.
  - eexists. split; [by df_lookup |]. unfold df_index.
    by rewrite length_fmap, length_seq.
  - cbn [rental_ret income_stream].
    apply df_project_cons in Hby1 as (d1 & ys & _ & Hys & ->).
    apply df_project_cons in Hby2 as (d2 & ys' & _ & Hys' & ->).
    rewrite Hys in Hys'. injection Hys' as <-.
    rewrite (groupby_apply_keys _ _ _ ys _ (df_get_set_eq _ _ _) Hrr).
    by rewrite (groupby_apply_keys _ _ _ ys _ (df_get_set_eq _ _ _) Hinc).
Qed.

Lemma calc_return_frame_effect_witness :
  ∃ res df',
    calc_return (set_years 1 example_scenario) one_month_frame = Ok (res, df')
    ∧ nrows df' = nrows one_month_frame
    ∧ (∀ name, name ≠ "discount_factor" → name ≠ "discounted_net_income" →
         df_get df' name = df_get one_month_frame name)
    ∧ (∃ dfac, df_get df' "discount_factor" = Ok dfac
               ∧ length dfac = nrows one_month_frame)
    ∧ fst <$> rental_ret res = fst <$> income_stream res.
Proof.
  destruct (calc_return_ok (set_years 1 example_scenario) one_month_frame
              [Real 100] [Real 5e5] [Real 1] (5e5 * 0.03) 1 0)
    as (mv_last & _ & Heq);
    try solve [reflexivity | unfold one_month_frame; by df_lookup | discriminate].
  eexists _, _. split; [exact Heq |].
  exact (calc_return_frame_effect _ _ _ _ Heq).
Defined.

Lemma np_pow_one (c : cell) : np_pow c 1 = c.
Proof.
  destruct c as [x |]; [| reflexivity]. unfold np_pow, real_pow.
  destruct (Rlt_dec 0 x) as [Hx | Hx]; [by rewrite Rpower_1 |].
  destruct (Req_dec_T x 0) as [-> | Hx0].
  - destruct (Rlt_dec 0 1); [done | lra].
  - assert (Hint : Int_part 1 = 1%Z) by apply (Int_part_INR 1).
    rewrite Hint. destruct (Req_dec_T 1 1); [| done].
    f_equal. simpl. lra.
Qed.

Lemma real_pow_negative_base (x : R) (y : Z) :
  x < 0 → (2 ≤ y)%Z → real_pow x (1 / IZR y) = PowNotReal.
Proof.
  intros Hx Hy. unfold real_pow.
  destruct (Rlt_dec 0 x); [lra |]. destruct (Req_dec_T x 0); [lra |].
  assert (Hy2 : 2 <= IZR y) by (by apply IZR_le).
  assert (Hpos : 0 < 1 / IZR y) by (apply Rdiv_lt_0_compat; lra).
  assert (Hlt : 1 / IZR y < 1).
  { apply (Rmult_lt_reg_r (IZR y)); [lra |].
    unfold Rdiv. rewrite Rmult_assoc, Rinv_l by lra. lra. }
  assert (Hint : 0%Z = Int_part (1 / IZR y)) by (apply Int_part_spec; lra).
  rewrite <- Hint. destruct (Req_dec_T (1 / IZR y) 0); [lra | done].
Qed.

(** X16: over a horizon of one year the annualised total return is the
    total-return multiple less one and the annualised appreciation is the
    discounted capital gain over the capital less one, for a multiple of
    either sign. *)
Theorem calc_return_one_year (s : HousingMarket) (df : DataFrame)
    (ni mv ys : list cell) (c : R) (n : nat) :
  nrows df = S n →
  df_get df "net_income" = Ok ni →
  df_get df "market_value" = Ok mv → length mv = S n →
  df_get df "years" = Ok ys →
  capital s = Some c → years s = Some 1%Z →
  let r := 1 + interest_rate s / 12 in
  ∃ res df' dni mv_last,
    calc_return s df = Ok (res, df')
    ∧ df_get df' "discounted_net_income" = Ok dni
    ∧ mv !! n = Some mv_last
    ∧ let discounted_cap_gain :=
        ((mv_last * Real (1 - transaction_fee s) - Real c) * Real (1 - capital_gain s)
         / Real (r ^ S n))%cell in
      total_ret res
      = ((csum dni + discounted_cap_gain + Real c) / Real c - Real 1)%cell
      ∧ appreciation res = (discounted_cap_gain / Real c - Real 1)%cell.
Proof.
  intros Hn Hni Hmv Hlen Hys Hc Hy r.
  destruct (calc_return_ok s df ni mv ys c 1 n) as (mv_last & Hlast & Heq); [done .. |].
  cbv zeta in Heq. fold r in Heq.
  replace (1 / IZR 1) with 1 in Heq by lra. rewrite !np_pow_one in Heq.
  eexists _, _, _, mv_last. split; [exact Heq |].
  split; [by df_lookup |]. split; [exact Hlast |].
  cbn [total_ret appreciation]. rewrite cadd_assoc.
  by replace (n + 1)%nat with (S n) by lia.
Qed.

Lemma calc_return_one_year_witness :
  ∃ res df' dni mv_last,
    calc_return (set_years 1 example_scenario) one_month_frame = Ok (res, df')
    ∧ df_get df' "discounted_net_income" = Ok dni
    ∧ [Real 5e5] !! 0%nat = Some mv_last
    ∧ total_ret res
      = ((csum dni
          + (mv_last * Real (1 - 0.05) - Real (5e5 * 0.03)) * Real (1 - 0.2)
            / Real ((1 + 0.015 / 12) ^ 1)
          + Real (5e5 * 0.03)) / Real (5e5 * 0.03) - Real 1)%cell
      ∧ appreciation res
        = ((mv_last * Real (1 - 0.05) - Real (5e5 * 0.03)) * Real (1 - 0.2)
           / Real ((1 + 0.015 / 12) ^ 1) / Real (5e5 * 0.03) - Real 1)%cell.
Proof.
  apply (calc_return_one_year (set_years 1 example_scenario) one_month_frame
           [Real 100] [Real 5e5] [Real 1] (5e5 * 0.03) 0);
    solve [reflexivity | unfold one_month_frame; by df_lookup].
Defined.

(** X17: over a horizon of two years or more a negative total-return
    multiple has no real root: the annualised total return is then no real
    number (NumPy gives NaN), and nothing is raised. *)
Theorem calc_return_negative_multiple (s : HousingMarket) (df : DataFrame)
    (ni mv ys : list cell) (c : R) (y : Z) (n : nat) :
  nrows df = S n →
  df_get df "net_income" = Ok ni →
  df_get df "market_value" = Ok mv → length mv = S n →
  df_get df "years" = Ok ys →
  capital s = Some c → years s = Some y → (2 ≤ y)%Z →
  let r := 1 + interest_rate s / 12 in
  ∃ res df' dni mv_last,
    calc_return s df = Ok (res, df')
    ∧ df_get df' "discounted_net_income" = Ok dni
    ∧ mv !! n = Some mv_last
    ∧ let discounted_cap_gain :=
        ((mv_last * Real (1 - transaction_fee s) - Real c) * Real (1 - capital_gain s)
         / Real (r ^ S n))%cell in
      ∀ x, ((csum dni + discounted_cap_gain + Real c) / Real c)%cell = Real x →
           x < 0 → total_ret res = Untracked.
Proof.
  intros Hn Hni Hmv Hlen Hys Hc Hy Hy2 r.
  destruct (calc_return_ok s df ni mv ys c y n) as (mv_last & Hlast & Heq);
    [done .. | lia |].
  cbv zeta in Heq. fold r in Heq.
  eexists _, _, _, mv_last. split; [exact Heq |].
  split; [by df_lookup |]. split; [exact Hlast |].
  cbn [total_ret]. intros x Hx Hneg.
  rewrite cadd_assoc. replace (n + 1)%nat with (S n) by lia.
  rewrite Hx. unfold np_pow. by rewrite real_pow_negative_base.
Qed.

Lemma calc_return_negative_multiple_witness :
  ∃ res df',
    calc_return (set_years 2 example_scenario) losing_month_frame = Ok (res, df')
    ∧ total_ret res = Untracked.
Proof.
  destruct (calc_return_negative_multiple (set_years 2 example_scenario)
              losing_month_frame [Real (-1e6)] [Real 5e5] [Real 1] (5e5 * 0.03) 2 0)
    as (res & df' & dni & mv_last & Heq & Hdni & Hlast & Htot);
    try solve [reflexivity | unfold losing_month_frame; by df_lookup | lia].
  exists res, df'. split; [exact Heq |].
  destruct (calc_return_ok (set_years 2 example_scenario) losing_month_frame
              [Real (-1e6)] [Real 5e5] [Real 1] (5e5 * 0.03) 2 0)
    as (mv_last' & _ & Heq');
    try solve [reflexivity | unfold losing_month_frame; by df_lookup | discriminate].
  cbv zeta in Heq'. rewrite Heq' in Heq. injection Heq as <- <-.
  rewrite df_get_set_eq in Hdni. injection Hdni as <-.
  injection Hlast as <-.
  cbv zeta in Htot. cbn [interest_rate transaction_fee capital_gain set_years
    example_scenario] in Htot.
  assert (Hr : (1 + 0.015 / 12) ^ 1 ≠ 0) by (simpl; lra).
  eapply Htot.
  - cbn [seq fmap list_fmap zip_with csum foldr].
    cbn [cmul csub cadd cell_lift2 cdiv].
    repeat match goal with
           | |- context [Req_dec_T ?a 0] =>
               destruct (Req_dec_T a 0) as [Hz | _]; [exfalso; simpl in Hz; lra |];
               cbn [cmul csub cadd cell_lift2 cdiv]
           end.
    reflexivity.
  - simpl. lra.
Defined.

(** ** The frames of a run, column by column *)

Lemma df_get_drop_eq (df : DataFrame) (name : string) :
  df_get (df_drop df name) name = Raise KeyError.
Proof. unfold df_get, df_drop. cbn [columns]. by rewrite lookup_delete_eq. Qed.

(** The frame the time-series stage builds. *)
Lemma projection_eq (s : HousingMarket) (y : Z) (m st en : number) (g : cell)
    (k : nat) :
  mkt_value s = VNum m → price_to_rent s = VTuple [st; en] → Z.to_nat y = S k →
  py_pow (growth s + 1) (1 / 12) = Ok g →
  let n := (S k * 12)%nat in
  let mo := mjoin (replicate (S k) ((λ m, Real (INR m)) <$> seq 1 12)) in
  let ys := (λ i, Real (INR (i / 12 + 1))) <$> seq 0 n in
  let gr := replicate n (g - Real 1)%cell in
  let cg := cumprod ((λ x, x + Real 1)%cell <$> gr) in
  let mv := (λ x, Real (num_val m) * x)%cell <$> cg in
  let pr := (λ i, Real (num_val st + (num_val en - num_val st) / (INR n - 1) * INR i))
              <$> seq 0 n in
  let rent := (λ x, x / Real 12)%cell <$> zip_with cdiv mv pr in
  projection s y
  = Ok (df_set
          (df_set
             (df_drop
                (df_set
                   (df_set
                      (df_set
                         (df_set (mkDataFrame n {[ "month" := mo ]}) "years" ys)
                         "growth" gr)
                      "cum_growth" cg)
                   "market_value" mv)
                "ptr_ratio_temp_")
             "ptr_ratio" pr)
          "monthly_rent" rent).
Proof.
  intros Hm Hp Hk Hg n mo ys gr cg mv pr rent.
  unfold projection.
  rewrite Hk, concat_copies_month_frame, bind_ok, Hg, bind_ok.
  cbv zeta. unfold df_set_scalar. df_lookup. rewrite bind_ok, Hm, Hp.
  cbn [as_number]. rewrite bind_ok. df_lookup. rewrite bind_ok.
  rewrite calc_running_ptr_ratio_eq by (cbn [nrows df_set]; lia).
  rewrite bind_ok. df_lookup. rewrite !bind_ok.
  reflexivity.
Qed.

(** The cash-flow stage up to its call of [calc_return]: the frame it
    hands over. *)
Lemma cash_flows_eq (s : HousingMarket) (df : DataFrame) (mo mv rent : list cell)
    (m : number) :
  df_get df "month" = Ok mo → df_get df "market_value" = Ok mv →
  df_get df "monthly_rent" = Ok rent →
  mkt_value s = VNum m → annuity_denominator s (nrows df) ≠ 0 →
  let pay := annuity_numerator s (num_val m) (nrows df)
             / annuity_denominator s (nrows df) in
  let mort := replicate (nrows df) (Real pay) in
  let sp1 := (λ x, x * Real (management_fee s))%cell <$> rent in
  let sp2 := zip_with cadd sp1
               ((λ x, x * Real (rental_tax_n_depreciation s))%cell
                  <$> zip_with csub rent mort) in
  let sp := zip_with cadd sp2 (zip_with (calc_property_tax s) mo mv) in
  let ni := zip_with csub (zip_with csub rent mort) sp in
  cash_flows s df
  = calc_return s
      (df_set
         (df_set
            (df_set
               (df_set (df_set df "monthly_mortgage" mort) "monthly_spending" sp1)
               "monthly_spending" sp2)
            "monthly_spending" sp)
         "net_income" ni).
Proof.
  intros Hmo Hmv Hrent Hm Hden pay mort sp1 sp2 sp ni.
  unfold cash_flows. rewrite (mortgage_payments_eq s df m) by done.
  unfold df_set_scalar. binds. fold pay. fold mort.
  df_lookup. rewrite Hrent. binds. df_lookup. rewrite Hrent. binds.
  df_lookup. rewrite Hmo, Hmv. binds. df_lookup. rewrite Hrent. binds.
  reflexivity.
Qed.

(** A run on a resolved scenario, frame by frame: the checkpoint kept on
    the object, the frame returned and the per-year results. *)
Lemma run_simulation_eq (s : HousingMarket) (y : Z) (df0 : DataFrame)
    (mo ys mv rent : list cell) (m : number) (c : R) (n : nat) :
  projection (set_years y s) y = Ok df0 → nrows df0 = S n →
  df_get df0 "month" = Ok mo → df_get df0 "years" = Ok ys →
  df_get df0 "market_value" = Ok mv → length mv = S n →
  df_get df0 "monthly_rent" = Ok rent →
  mkt_value s = VNum m → capital s = Some c → y ≠ 0%Z →
  annuity_denominator s (S n) ≠ 0 →
  let pay := annuity_numerator s (num_val m) (S n) / annuity_denominator s (S n) in
  let mort := replicate (S n) (Real pay) in
  let sp1 := (λ x, x * Real (management_fee s))%cell <$> rent in
  let sp2 := zip_with cadd sp1
               ((λ x, x * Real (rental_tax_n_depreciation s))%cell
                  <$> zip_with csub rent mort) in
  let sp := zip_with cadd sp2 (zip_with (calc_property_tax s) mo mv) in
  let ni := zip_with csub (zip_with csub rent mort) sp in
  let dfac := (λ i, Real ((1 + interest_rate s / 12) ^ (i + 1))) <$> seq 0 (S n) in
  let dni := zip_with cdiv ni dfac in
  ∃ res,
    run_simulation s y
    = (set_pretax_df df0 (set_years y s),
       Ok (res,
           df_set
             (df_set
                (df_set
                   (df_set
                      (df_set
                         (df_set (df_set df0 "monthly_mortgage" mort)
                            "monthly_spending" sp1)
                         "monthly_spending" sp2)
                      "monthly_spending" sp)
                   "net_income" ni)
                "discount_factor" dfac)
             "discounted_net_income" dni))
    ∧ rental_ret res
      = (λ k, (k, (csum (select (has_key k <$> ys) ni)
                   / cmean (select (has_key k <$> ys) mv))%cell)) <$> group_keys ys
    ∧ income_stream res
      = (λ k, (k, csum (select (has_key k <$> ys) ni))) <$> group_keys ys.
Proof.
  intros Hproj Hn Hmo Hys Hmv Hlen Hrent Hm Hc Hy Hden pay mort sp1 sp2 sp ni dfac dni.
  unfold run_simulation. rewrite Hproj.
  rewrite (cash_flows_eq _ df0 mo mv rent m) by (done || by rewrite Hn).
  rewrite Hn.
  match goal with |- ∃ res, (_, calc_return ?s' ?d) = _ ∧ _ =>
    destruct (calc_return_ok s' d ni mv ys c y n) as (mv_last & _ & Heq);
      [done | by df_lookup | by df_lookup | done | by df_lookup | done .. |]
  end.
  cbv zeta in Heq. rewrite Heq. eexists. split; [reflexivity |]. by split.
Qed.

Lemma pair_result_inj {A B C : Type} (a a' : A) (b b' : B) (c c' : C) :
  (a, Ok (b, c)) = (a', Ok (b', c')) → a = a' ∧ b = b' ∧ c = c'.
Proof. by intros [= -> -> ->]. Qed.


(** Every run that returns is this run. *)
Lemma run_simulation_returns_eq (s s' : HousingMarket) (y : Z) (res : Results)
    (df : DataFrame) :
  run_simulation s y = (s', Ok (res, df)) →
  ∃ (m st en : number) (c : R) (k : nat) (g : cell),
    mkt_value s = VNum m ∧ price_to_rent s = VTuple [st; en] ∧ capital s = Some c
    ∧ Z.to_nat y = S k ∧ py_pow (growth s + 1) (1 / 12) = Ok g
    ∧ annuity_denominator s (S k * 12) ≠ 0
    ∧ let n := (S k * 12)%nat in
      let mo := mjoin (replicate (S k) ((λ m, Real (INR m)) <$> seq 1 12)) in
      let ys := (λ i, Real (INR (i / 12 + 1))) <$> seq 0 n in
      let gr := replicate n (g - Real 1)%cell in
      let cg := cumprod ((λ x, x + Real 1)%cell <$> gr) in
      let mv := (λ x, Real (num_val m) * x)%cell <$> cg in
      let pr := (λ i, Real (num_val st
                            + (num_val en - num_val st) / (INR n - 1) * INR i))
                  <$> seq 0 n in
      let rent := (λ x, x / Real 12)%cell <$> zip_with cdiv mv pr in
      let df0 :=
        df_set
          (df_set
             (df_drop
                (df_set
                   (df_set
                      (df_set
                         (df_set (mkDataFrame n {[ "month" := mo ]}) "years" ys)
                         "growth" gr)
                      "cum_growth" cg)
                   "market_value" mv)
                "ptr_ratio_temp_")
             "ptr_ratio" pr)
          "monthly_rent" rent in
      let pay := annuity_numerator s (num_val m) n / annuity_denominator s n in
      let mort := replicate n (Real pay) in
      let sp1 := (λ x, x * Real (management_fee s))%cell <$> rent in
      let sp2 := zip_with cadd sp1
                   ((λ x, x * Real (rental_tax_n_depreciation s))%cell
                      <$> zip_with csub rent mort) in
      let sp := zip_with cadd sp2 (zip_with (calc_property_tax s) mo mv) in
      let ni := zip_with csub (zip_with csub rent mort) sp in
      let dfac := (λ i, Real ((1 + interest_rate s / 12) ^ (i + 1))) <$> seq 0 n in
      let dni := zip_with cdiv ni dfac in
      s' = set_pretax_df df0 (set_years y s)
      ∧ df = df_set
               (df_set
                  (df_set
                     (df_set
                        (df_set
                           (df_set (df_set df0 "monthly_mortgage" mort)
                              "monthly_spending" sp1)
                           "monthly_spending" sp2)
                        "monthly_spending" sp)
                     "net_income" ni)
                  "discount_factor" dfac)
               "discounted_net_income" dni
      ∧ rental_ret res
        = (λ k, (k, (csum (select (has_key k <$> ys) ni)
                     / cmean (select (has_key k <$> ys) mv))%cell)) <$> group_keys ys
      ∧ income_stream res
        = (λ k, (k, csum (select (has_key k <$> ys) ni))) <$> group_keys ys.
Proof.
  intros Hrun.
  destruct (run_simulation_Ok_inv _ _ _ _ Hrun)
    as (m & st & en & c & k & Hm & Hp & Hc & Hk & Hden).
  destruct (py_pow_positive_exponent (growth s + 1) (1 / 12)) as [g Hg]; [lra |].
  exists m, st, en, c, k, g.
  split; [exact Hm |]. split; [exact Hp |]. split; [exact Hc |].
  split; [exact Hk |]. split; [exact Hg |]. split; [exact Hden |].
  cbv zeta.
  pose proof (projection_eq (set_years y s) y m st en g k Hm Hp Hk Hg) as Hproj.
  cbv zeta in Hproj.
  match type of Hproj with projection _ _ = Ok ?d =>
    match d with
    | df_set (df_set (df_drop (df_set (df_set (df_set
        (df_set (mkDataFrame _ {[ "month" := ?mo ]}) "years" ?ys) _ _) _ _)
        "market_value" ?mv) _) _ _) "monthly_rent" ?rent =>
        pose proof (run_simulation_eq s y d mo ys mv rent m c (11 + k * 12) Hproj
                      eq_refl) as Heq
    end
  end.
  destruct Heq as (res' & Hrun' & Hrr & Hinc).
  - df_lookup. unfold df_get. cbn [columns]. by rewrite lookup_singleton_eq.
  - by df_lookup.
  - by df_lookup.
  - unfold cumprod.
    rewrite length_fmap, length_cumprod_from, length_fmap, length_replicate. lia.
  - by df_lookup.
  - exact Hm.
  - exact Hc.
  - lia.
  - exact Hden.
  - rewrite Hrun in Hrun'. apply pair_result_inj in Hrun' as (Hs' & Hres & Hdf).
    subst s' res df. split; [reflexivity |]. split; [reflexivity |].
    split; [exact Hrr | exact Hinc].
Qed.

(** ** The years of a run *)

Lemma Rle_transitive : Transitive Rle.
Proof. intros x y z. apply Rle_trans. Qed.

Lemma Rle_antisymmetric : AntiSymm (=) Rle.
Proof. intros x y. apply Rle_antisym. Qed.

Lemma Rle_total : Total Rle.
Proof. intros x y. destruct (Rle_dec x y); [by left | right; lra]. Qed.

Lemma sorted_year_keys (a n : nat) : Sorted Rle ((λ j, INR (j + 1)) <$> seq a n).
Proof.
  revert a. induction n as [| n IH]; intros a; [constructor |].
  cbn [seq]. rewrite fmap_cons. constructor; [apply IH |].
  destruct n as [| n]; [constructor |]. cbn [seq]. rewrite fmap_cons. constructor.
  apply le_INR. lia.
Qed.

Lemma NoDup_year_keys (a n : nat) : NoDup ((λ j, INR (j + 1)) <$> seq a n).
Proof.
  apply NoDup_fmap_2; [| apply NoDup_seq].
  intros i j Hij. apply INR_eq in Hij. lia.
Qed.

(** The keys of the years column of a run: 1, 2, ..., years. *)
Lemma group_keys_years (k : nat) :
  group_keys ((λ i, Real (INR (i / 12 + 1))) <$> seq 0 (k * 12))
  = (λ j, INR (j + 1)) <$> seq 0 k.
Proof.
  apply (@Sorted_unique _ Rle Rle_transitive Rle_antisymmetric).
  - unfold group_keys. apply (@Sorted_merge_sort _ Rle _ Rle_total).
  - apply sorted_year_keys.
  - apply NoDup_Permutation; [apply NoDup_group_keys | apply NoDup_year_keys |].
    intros x. rewrite elem_of_group_keys, !list_elem_of_fmap. split.
    + intros (i & Hx & Hi%elem_of_seq). injection Hx as ->.
      exists (i / 12)%nat. split; [done |]. apply elem_of_seq.
      split; [lia |]. apply Nat.Div0.div_lt_upper_bound. lia.
    + intros (j & -> & Hj%elem_of_seq). exists (j * 12)%nat.
      split; [by rewrite Nat.div_mul |]. apply elem_of_seq. lia.
Qed.

Lemma select_app {A} (keep1 keep2 : list bool) (l1 l2 : list A) :
  length keep1 = length l1 →
  select (keep1 ++ keep2) (l1 ++ l2) = select keep1 l1 ++ select keep2 l2.
Proof.
  revert l1. induction keep1 as [| b keep1 IH]; intros [| x l1] Hlen;
    try discriminate; [done |].
  cbn [app select]. rewrite IH by (by injection Hlen). by destruct b.
Qed.

Lemma select_none {A} (keep : list bool) (l : list A) :
  Forall (λ b, b = false) keep → select keep l = [].
Proof.
  intros Hk. revert l. induction Hk as [| b keep -> _ IH]; intros [| x l]; try done.
  cbn [select]. apply IH.
Qed.

Lemma select_all {A} (keep : list bool) (l : list A) :
  Forall (λ b, b = true) keep → length keep = length l → select keep l = l.
Proof.
  intros Hk. revert l. induction Hk as [| b keep -> _ IH]; intros [| x l] Hlen;
    try discriminate; [done |].
  cbn [select]. f_equal. apply IH. by injection Hlen.
Qed.

(** The rows of year [j + 1] are the twelve rows from index [12 * j]. *)
Lemma select_year {A} (k j : nat) (l : list A) :
  (j < k)%nat → length l = (k * 12)%nat →
  select (has_key (INR (j + 1)) <$> ((λ i, Real (INR (i / 12 + 1))) <$> seq 0 (k * 12))) l
  = take 12 (drop (12 * j) l).
Proof.
  intros Hj Hlen.
  rewrite <- list_fmap_compose.
  replace (k * 12)%nat with (12 * j + (12 + (k * 12 - 12 * j - 12)))%nat by lia.
  rewrite !seq_app, !fmap_app.
  rewrite <- (take_drop (12 * j) l) at 1.
  rewrite <- (take_drop 12 (drop (12 * j) l)) at 1.
  rewrite select_app by (rewrite length_fmap, length_seq, length_take; lia).
  rewrite select_app
    by (rewrite length_fmap, length_seq, length_take, length_drop; lia).
  rewrite select_none, select_all, select_none.
  - by rewrite app_nil_r.
  - apply Forall_fmap, Forall_forall. intros i Hi%elem_of_seq. unfold compose. cbn [has_key].
    apply bool_decide_eq_false. intros Heq%INR_eq.
    pose proof (Nat.div_mod_eq i 12). pose proof (Nat.mod_upper_bound i 12). lia.
  - apply Forall_fmap, Forall_forall. intros i Hi%elem_of_seq. unfold compose. cbn [has_key].
    apply bool_decide_eq_true. do 2 f_equal.
    pose proof (Nat.div_mod_eq i 12). pose proof (Nat.mod_upper_bound i 12). lia.
  - rewrite length_fmap, length_seq, length_take, length_drop. lia.
  - apply Forall_fmap, Forall_forall. intros i Hi%elem_of_seq. unfold compose. cbn [has_key].
    apply bool_decide_eq_false. intros Heq%INR_eq.
    pose proof (Nat.div_mod_eq i 12). pose proof (Nat.mod_upper_bound i 12). lia.
Qed.

Ltac lengths :=
  unfold cumprod;
  repeat first
    [ rewrite length_zip_with | rewrite length_fmap | rewrite length_replicate
    | rewrite length_seq | rewrite length_cumprod_from
    | rewrite length_join_replicate ];
  lia.

(** The two per-year results of a run that returns, year by year. *)
Lemma run_simulation_yearly (s s' : HousingMarket) (y : Z) (res : Results)
    (df : DataFrame) :
  run_simulation s y = (s', Ok (res, df)) →
  ∃ ni mv,
    df_get df "net_income" = Ok ni ∧ df_get df "market_value" = Ok mv
    ∧ length ni = (Z.to_nat y * 12)%nat ∧ length mv = (Z.to_nat y * 12)%nat
    ∧ income_stream res
      = (λ j, (INR (j + 1), csum (take 12 (drop (12 * j) ni)))) <$> seq 0 (Z.to_nat y)
    ∧ rental_ret res
      = (λ j, (INR (j + 1),
               (csum (take 12 (drop (12 * j) ni))
                / cmean (take 12 (drop (12 * j) mv)))%cell)) <$> seq 0 (Z.to_nat y).
Proof.
  intros Hrun.
  destruct (run_simulation_returns_eq _ _ _ _ _ Hrun)
    as (m & st & en & c & k & g & Hm & Hp & Hc & Hk & Hg & Hden & H).
  cbv zeta in H. destruct H as (_ & -> & Hrr & Hinc).
  rewrite Hk. eexists _, _.
  split; [by df_lookup |]. split; [by df_lookup |].
  match goal with |- length ?ni = _ ∧ length ?mv = _ ∧ _ =>
    assert (Hlni : length ni = (S k * 12)%nat) by lengths;
    assert (Hlmv : length mv = (S k * 12)%nat) by lengths;
    set (NI := ni) in *; set (MV := mv) in *
  end.
  split; [exact Hlni |]. split; [exact Hlmv |].
  rewrite Hinc, Hrr, group_keys_years, <- !list_fmap_compose.
  split; apply list_fmap_ext; intros i j [-> Hj]%lookup_seq; unfold compose;
    rewrite !select_year by (done || lia); reflexivity.
Qed.

(** X18: in a run that returns, the income stream has one entry per year,
    keyed 1, 2, ..., [years] in that order, and the entry of a year is the
    sum of the net income of its twelve months. *)
Theorem income_stream_by_year (s s' : HousingMarket) (y : Z) (res : Results)
    (df : DataFrame) :
  run_simulation s y = (s', Ok (res, df)) →
  ∃ ni,
    df_get df "net_income" = Ok ni
    ∧ length ni = (Z.to_nat y * 12)%nat
    ∧ income_stream res
      = (λ j, (INR (j + 1), csum (take 12 (drop (12 * j) ni)))) <$> seq 0 (Z.to_nat y).
Proof.
  intros Hrun.
  destruct (run_simulation_yearly _ _ _ _ _ Hrun)
    as (ni & mv & Hni & _ & Hlen & _ & Hinc & _).
  by exists ni.
Qed.

(** X19: in a run that returns, the rental return has one entry per
    year, keyed 1, 2, ..., [years] in that order, and the entry of a year
    is the sum of the net income of its twelve months over the mean of
    their twelve market values. *)
Theorem rental_ret_by_year (s s' : HousingMarket) (y : Z) (res : Results)
    (df : DataFrame) :
  run_simulation s y = (s', Ok (res, df)) →
  ∃ ni mv,
    df_get df "net_income" = Ok ni ∧ df_get df "market_value" = Ok mv
    ∧ length ni = (Z.to_nat y * 12)%nat ∧ length mv = (Z.to_nat y * 12)%nat
    ∧ rental_ret res
      = (λ j, (INR (j + 1),
               (csum (take 12 (drop (12 * j) ni))
                / cmean (take 12 (drop (12 * j) mv)))%cell)) <$> seq 0 (Z.to_nat y).
Proof.
  intros Hrun.
  destruct (run_simulation_yearly _ _ _ _ _ Hrun)
    as (ni & mv & Hni & Hmv & Hlni & Hlmv & _ & Hrr).
  by exists ni, mv.
Qed.

Lemma income_stream_by_year_witness :
  ∃ s' res df,
    run_simulation example_scenario 1 = (s', Ok (res, df))
    ∧ ∃ ni,
        df_get df "net_income" = Ok ni
        ∧ length ni = (Z.to_nat 1 * 12)%nat
        ∧ income_stream res
          = (λ j, (INR (j + 1), csum (take 12 (drop (12 * j) ni))))
              <$> seq 0 (Z.to_nat 1).
Proof.
  destruct (run_simulation_ok example_scenario 1 (PyFloat 5e5) (PyInt 20) (PyInt 20)
              (5e5 * 0.03) 0 eq_refl eq_refl eq_refl eq_refl annuity_denominator_example)
    as (s' & res & df & mv & rent & Hrun & _).
  exists s', res, df. split; [exact Hrun |].
  exact (income_stream_by_year example_scenario s' 1 res df Hrun).
Defined.

Lemma rental_ret_by_year_witness :
  ∃ s' res df,
    run_simulation example_scenario 1 = (s', Ok (res, df))
    ∧ ∃ ni mv,
        df_get df "net_income" = Ok ni ∧ df_get df "market_value" = Ok mv
        ∧ length ni = (Z.to_nat 1 * 12)%nat ∧ length mv = (Z.to_nat 1 * 12)%nat
        ∧ rental_ret res
          = (λ j, (INR (j + 1),
                   (csum (take 12 (drop (12 * j) ni))
                    / cmean (take 12 (drop (12 * j) mv)))%cell))
              <$> seq 0 (Z.to_nat 1).
Proof.
  destruct (run_simulation_ok example_scenario 1 (PyFloat 5e5) (PyInt 20) (PyInt 20)
              (5e5 * 0.03) 0 eq_refl eq_refl eq_refl eq_refl annuity_denominator_example)
    as (s' & res & df & mv & rent & Hrun & _).
  exists s', res, df. split; [exact Hrun |].
  exact (rental_ret_by_year example_scenario s' 1 res df Hrun).
Defined.

(** ** Growth of the market value *)

Lemma py_pow_positive_base (x y : R) : 0 < x → py_pow x y = Ok (Real (Rpower x y)).
Proof. intros Hx. unfold py_pow, real_pow. by destruct (Rlt_dec 0 x). Qed.

Lemma Rpower_positive (x y : R) : 0 < Rpower x y.
Proof. unfold Rpower. apply exp_pos. Qed.

(** Twelve months of the monthly growth factor make one year of growth. *)
Lemma monthly_growth_compounds (x : R) (j : nat) :
  0 < x → (Rpower x (1 / 12) - 1 + 1) ^ (12 * j) = x ^ j.
Proof.
  intros Hx. replace (Rpower x (1 / 12) - 1 + 1) with (Rpower x (1 / 12)) by lra.
  rewrite pow_mult. f_equal.
  rewrite <- Rpower_pow by apply Rpower_positive.
  rewrite Rpower_mult. replace (1 / 12 * INR 12) with 1 by (simpl; lra).
  by apply Rpower_1.
Qed.

Lemma lookup_market_value (m q : R) (n i : nat) :
  (i < n)%nat →
  ((λ x, Real m * x)%cell
     <$> cumprod ((λ x, x + Real 1)%cell <$> replicate n (Real q - Real 1)%cell)) !! i
  = Some (Real (m * (q - 1 + 1) ^ (i + 1))).
Proof.
  intros Hi. rewrite fmap_replicate.
  change (Real q - Real 1 + Real 1)%cell with (Real (q - 1 + 1)).
  rewrite cumprod_replicate, <- list_fmap_compose, list_lookup_fmap, lookup_seq_lt by done.
  reflexivity.
Qed.

(** X20: in a run that returns, with [growth > -1], the market value at
    the end of year [j] (the record of index [12 * j - 1]) is the initial
    market value times [(1 + growth)^j]: the monthly factor
    [(1 + growth)^(1/12)] compounds to the annual rate. *)
Theorem market_value_compounds (s s' : HousingMarket) (y : Z) (res : Results)
    (df : DataFrame) :
  run_simulation s y = (s', Ok (res, df)) → 0 < growth s + 1 →
  ∃ m mv,
    mkt_value s = VNum m
    ∧ df_get df "market_value" = Ok mv
    ∧ ∀ j, (1 ≤ j ≤ Z.to_nat y)%nat →
        mv !! (12 * j - 1)%nat = Some (Real (num_val m * (growth s + 1) ^ j)).
Proof.
  intros Hrun Hgrowth.
  destruct (run_simulation_returns_eq _ _ _ _ _ Hrun)
    as (m & st & en & c & k & g & Hm & Hp & Hc & Hk & Hg & Hden & H).
  cbv zeta in H. destruct H as (_ & -> & _ & _).
  rewrite py_pow_positive_base in Hg by done. injection Hg as <-.
  exists m. eexists. split; [exact Hm |]. split; [by df_lookup |].
  intros j Hj. rewrite lookup_market_value by lia.
  replace (12 * j - 1 + 1)%nat with (12 * j)%nat by lia.
  by rewrite monthly_growth_compounds.
Qed.

Lemma market_value_compounds_witness :
  ∃ s' res df,
    run_simulation example_scenario 2 = (s', Ok (res, df))
    ∧ ∃ m mv,
        mkt_value example_scenario = VNum m
        ∧ df_get df "market_value" = Ok mv
        ∧ ∀ j, (1 ≤ j ≤ Z.to_nat 2)%nat →
            mv !! (12 * j - 1)%nat = Some (Real (num_val m * (0.05 + 1) ^ j)).
Proof.
  destruct (run_simulation_ok example_scenario 2 (PyFloat 5e5) (PyInt 20) (PyInt 20)
              (5e5 * 0.03) 1 eq_refl eq_refl eq_refl eq_refl)
    as (s' & res & df & mv & rent & Hrun & _).
  { apply annuity_denominator_positive_rate; [simpl; lra | lia]. }
  exists s', res, df. split; [exact Hrun |].
  apply (market_value_compounds example_scenario s' 2 res df Hrun).
  simpl. lra.
Defined.

(** ** The checkpoint and the returned frame *)

Lemma df_get_absent (n : nat) (name name' : string) (c : list cell) :
  name ≠ name' → df_get (mkDataFrame n {[ name := c ]}) name' = Raise KeyError.
Proof. intros Hne. unfold df_get. cbn [columns]. by rewrite lookup_singleton_ne. Qed.

(** X21: a run that returns leaves in [self.pretax_df] a frame of the same
    rows that holds the columns up to [monthly_rent] as the returned frame
    has them, and none of the five columns the later stages write. *)
Theorem pretax_checkpoint (s s' : HousingMarket) (y : Z) (res : Results)
    (df : DataFrame) :
  run_simulation s y = (s', Ok (res, df)) →
  ∃ df0,
    pretax_df s' = Some df0
    ∧ nrows df0 = nrows df
    ∧ (∀ name,
         name ∈ ["monthly_mortgage"; "monthly_spending"; "net_income";
                 "discount_factor"; "discounted_net_income"] →
         df_get df0 name = Raise KeyError ∧ ∃ c, df_get df name = Ok c)
    ∧ (∀ name,
         name ∉ ["monthly_mortgage"; "monthly_spending"; "net_income";
                 "discount_factor"; "discounted_net_income"] →
         df_get df0 name = df_get df name)
    ∧ ∃ rent, df_get df0 "monthly_rent" = Ok rent.
Proof.
  intros Hrun.
  destruct (run_simulation_returns_eq _ _ _ _ _ Hrun)
    as (m & st & en & c & k & g & Hm & Hp & Hc & Hk & Hg & Hden & H).
  cbv zeta in H. destruct H as (-> & -> & _ & _).
  eexists. split; [reflexivity |]. split; [reflexivity |]. split; [| split].
  - intros name Hin. repeat (apply elem_of_cons in Hin as [-> | Hin]);
      [.. | by apply elem_of_nil in Hin];
      (split; [df_lookup; by apply df_get_absent | eexists; by df_lookup]).
  - intros name Hnin. rewrite !not_elem_of_cons in Hnin.
    destruct Hnin as (H1 & H2 & H3 & H4 & H5 & _).
    match goal with |- df_get ?d name = _ => generalize d; intros d0 end.
    by do 7 (rewrite df_get_set_ne by congruence).
  - eexists. by df_lookup.
Qed.

Lemma pretax_checkpoint_witness :
  ∃ s' res df,
    run_simulation example_scenario 1 = (s', Ok (res, df))
    ∧ ∃ df0,
        pretax_df s' = Some df0
        ∧ nrows df0 = nrows df
        ∧ (∀ name,
             name ∈ ["monthly_mortgage"; "monthly_spending"; "net_income";
                     "discount_factor"; "discounted_net_income"] →
             df_get df0 name = Raise KeyError ∧ ∃ c, df_get df name = Ok c)
        ∧ (∀ name,
             name ∉ ["monthly_mortgage"; "monthly_spending"; "net_income";
                     "discount_factor"; "discounted_net_income"] →
             df_get df0 name = df_get df name)
        ∧ ∃ rent, df_get df0 "monthly_rent" = Ok rent.
Proof.
  destruct (run_simulation_ok example_scenario 1 (PyFloat 5e5) (PyInt 20) (PyInt 20)
              (5e5 * 0.03) 0 eq_refl eq_refl eq_refl eq_refl annuity_denominator_example)
    as (s' & res & df & mv & rent & Hrun & _).
  exists s', res, df. split; [exact Hrun |].
  exact (pretax_checkpoint example_scenario s' 1 res df Hrun).
Defined.

(** X22: what a failing run leaves on the object.  With [years < 1] the
    run raises [ValueError] having overwritten [self.years] and nothing
    else, so an earlier checkpoint stays.  With a zero annuity denominator
    the run raises [ZeroDivisionError] having already replaced
    [self.pretax_df] by the frame of this run. *)
Theorem failing_run_state (s : HousingMarket) (y : Z) :
  ((y < 1)%Z →
   run_simulation s y = (set_years y s, Raise ValueError)
   ∧ pretax_df (fst (run_simulation s y)) = pretax_df s)
  ∧ (resolved s → (1 ≤ y)%Z → annuity_denominator s (Z.to_nat y * 12) = 0 →
     snd (run_simulation s y) = Raise ZeroDivisionError
     ∧ years (fst (run_simulation s y)) = Some y
     ∧ ∃ df0, pretax_df (fst (run_simulation s y)) = Some df0
              ∧ nrows df0 = (Z.to_nat y * 12)%nat
              ∧ ∃ rent, df_get df0 "monthly_rent" = Ok rent).
Proof.
  split.
  - intros Hy. unfold run_simulation. by rewrite projection_no_years.
  - intros (m & st & en & c & Hm & Hp & Hc) Hy Hden.
    destruct (Z.to_nat y) as [| k] eqn:Hk; [lia |].
    destruct (projection_ok (set_years y s) y m st en k)
      as (df0 & Hproj & Hn0 & _ & _ & _ & _ & Hrent); [done .. |].
    unfold run_simulation. rewrite Hproj. cbn [fst snd].
    split; [| split; [done |]].
    + apply (cash_flows_zero_denominator _ _ m); [done |]. by rewrite Hn0.
    + by exists df0.
Qed.

Lemma failing_run_state_witness :
  (run_simulation example_scenario 0 = (set_years 0 example_scenario, Raise ValueError)
   ∧ pretax_df (fst (run_simulation example_scenario 0)) = pretax_df example_scenario)
  ∧ (snd (run_simulation zero_rate_scenario 1) = Raise ZeroDivisionError
     ∧ years (fst (run_simulation zero_rate_scenario 1)) = Some 1%Z
     ∧ ∃ df0, pretax_df (fst (run_simulation zero_rate_scenario 1)) = Some df0
              ∧ nrows df0 = (Z.to_nat 1 * 12)%nat
              ∧ ∃ rent, df_get df0 "monthly_rent" = Ok rent).
Proof.
  split.
  - apply (proj1 (failing_run_state example_scenario 0)). lia.
  - apply (proj2 (failing_run_state zero_rate_scenario 1));
      [apply resolved_zero_rate | lia | by apply annuity_denominator_zero_rate].
Defined.

Lemma df_get_present (n : nat) (name : string) (c : list cell) :
  df_get (mkDataFrame n {[ name := c ]}) name = Ok c.
Proof. unfold df_get. cbn [columns]. by rewrite lookup_singleton_eq. Qed.

(** X23: the frame a run returns is well formed, every column holding
    [years * 12] cells, and its columns are these twelve and no other; the
    scratch column of the interpolation is not among them. *)
Theorem returned_frame_columns (s s' : HousingMarket) (y : Z) (res : Results)
    (df : DataFrame) :
  run_simulation s y = (s', Ok (res, df)) →
  well_formed df
  ∧ nrows df = (Z.to_nat y * 12)%nat
  ∧ ∀ name,
      (∃ c, df_get df name = Ok c)
      ↔ name ∈ ["month"; "years"; "growth"; "cum_growth"; "market_value"; "ptr_ratio";
                "monthly_rent"; "monthly_mortgage"; "monthly_spending"; "net_income";
                "discount_factor"; "discounted_net_income"].
Proof.
  intros Hrun.
  destruct (run_simulation_returns_eq _ _ _ _ _ Hrun)
    as (m & st & en & c & k & g & Hm & Hp & Hc & Hk & Hg & Hden & H).
  cbv zeta in H. destruct H as (_ & -> & _ & _). rewrite Hk.
  split; [| split; [reflexivity |]].
  - repeat first [apply well_formed_set | apply well_formed_drop];
      [by apply well_formed_months | ..];
      cbn [nrows df_set df_drop]; lengths.
  - intros name. split.
    + intros [col Hcol].
      match goal with |- name ∈ ?L => destruct (decide (name ∈ L)) as [| Hnin] end;
        [done | exfalso].
      rewrite !not_elem_of_cons in Hnin.
      destruct Hnin as (? & ? & ? & ? & ? & ? & ? & ? & ? & ? & ? & ? & _).
      do 9 (rewrite df_get_set_ne in Hcol by congruence).
      destruct (decide (name = "ptr_ratio_temp_")) as [-> | Htmp].
      * by rewrite df_get_drop_eq in Hcol.
      * rewrite df_get_drop_ne in Hcol by congruence.
        do 4 (rewrite df_get_set_ne in Hcol by congruence).
        by rewrite df_get_absent in Hcol by congruence.
    + intros Hin. repeat (apply elem_of_cons in Hin as [-> | Hin]);
        [.. | by apply elem_of_nil in Hin];
        eexists; df_lookup; first [reflexivity | apply df_get_present].
Qed.

Lemma returned_frame_columns_witness :
  ∃ s' res df,
    run_simulation example_scenario 1 = (s', Ok (res, df))
    ∧ well_formed df
    ∧ nrows df = (Z.to_nat 1 * 12)%nat
    ∧ ∀ name,
        (∃ c, df_get df name = Ok c)
        ↔ name ∈ ["month"; "years"; "growth"; "cum_growth"; "market_value";
                  "ptr_ratio"; "monthly_rent"; "monthly_mortgage"; "monthly_spending";
                  "net_income"; "discount_factor"; "discounted_net_income"].
Proof.
  destruct (run_simulation_ok example_scenario 1 (PyFloat 5e5) (PyInt 20) (PyInt 20)
              (5e5 * 0.03) 0 eq_refl eq_refl eq_refl eq_refl annuity_denominator_example)
    as (s' & res & df & mv & rent & Hrun & _).
  exists s', res, df. split; [exact Hrun |].
  exact (returned_frame_columns example_scenario s' 1 res df Hrun).
Defined.

(** ** Runs on the objects the constructor returns *)

Lemma init_price_to_rent_no_number (v : pyval) (n : number) :
  init_price_to_rent v ≠ VNum n.
Proof.
  destruct v as [| x | l]; cbn [init_price_to_rent]; try done.
  by destruct (isnumeric (py_str (VNum x))).
Qed.

Lemma init_trajectory_price_to_rent (a : Args) (s0 s1 : HousingMarket) (n : number) :
  init_trajectory a s0 = Ok s1 → price_to_rent s0 ≠ VNum n → price_to_rent s1 ≠ VNum n.
Proof.
  unfold init_trajectory.
  destruct (negb (is_none (arg_mkt_value a)) && negb (is_none (arg_monthly_rent a))).
  - intros H. inv_binds H. by injection H as <-.
  - destruct (negb (is_none (arg_price_to_rent a))); by intros [= <-].
Qed.

(** What the constructor lets through: a market value that is [None], with
    no capital, or a number, with a capital; a trajectory that is [None]
    or a tuple. *)
Lemma init_Ok_shape (a : Args) (out : list printed) (s : HousingMarket) :
  __init__ a = (out, Ok s) →
  (mkt_value s = VNone ∨ ∃ m c, mkt_value s = VNum m ∧ capital s = Some c)
  ∧ ∀ n, price_to_rent s ≠ VNum n.
Proof.
  unfold __init__.
  destruct (is_none (arg_mkt_value a) && is_none (arg_monthly_rent a)
            && is_none (arg_price_to_rent a)) eqn:Hnone.
  - intros [= <- <-].
    apply andb_true_iff in Hnone as [[Hm _]%andb_true_iff _].
    split; [left | intros n; apply init_price_to_rent_no_number].
    cbn. by destruct (arg_mkt_value a).
  - destruct (init_resolve a (init_fields a)) as [s' | e] eqn:Hres; [| discriminate].
    intros [= <- <-].
    destruct (init_resolve_Ok_inv _ _ _ Hres) as (s1 & m & Htraj & Hm & ->).
    split; [right; by exists m, (num_val m * downpayment s1) |].
    intros n. cbn [price_to_rent set_capital].
    apply (init_trajectory_price_to_rent _ _ _ _ Htraj).
    apply init_price_to_rent_no_number.
Qed.

Lemma projection_not_pair (s : HousingMarket) (y : Z) (m : number) :
  mkt_value s = VNum m → (1 ≤ y)%Z → (∀ st en, price_to_rent s ≠ VTuple [st; en]) →
  projection s y
  = Raise (match price_to_rent s with VTuple _ => AssertionError | _ => TypeError end).
Proof.
  intros Hm Hy Hp.
  destruct (Z.to_nat y) as [| k] eqn:Hk; [lia |].
  destruct (py_pow_positive_exponent (growth s + 1) (1 / 12)) as [g Hg]; [lra |].
  unfold projection.
  rewrite Hk, concat_copies_month_frame, bind_ok, Hg, bind_ok.
  cbv zeta. unfold df_set_scalar. df_lookup. rewrite bind_ok, Hm.
  cbn [as_number]. binds. df_lookup. binds.
  destruct (price_to_rent s) as [| n | [| st [| en [| x l]]]]; try reflexivity.
  by destruct (Hp st en).
Qed.

(** X24: on an object the constructor returned, a run goes one of four
    ways.  For less than one year it raises [ValueError]; for a year or
    more it raises [TypeError] when the market value or the trajectory is
    [None], [AssertionError] when the trajectory is a tuple of other than
    two entries; otherwise the object is resolved and the run gets as far
    as the checkpoint, leaving in [self.pretax_df] a frame of
    [years * 12] rows. *)
Theorem run_after_constructor (a : Args) (out : list printed) (s : HousingMarket)
    (y : Z) :
  __init__ a = (out, Ok s) →
  ((y < 1)%Z ∧ snd (run_simulation s y) = Raise ValueError)
  ∨ ((1 ≤ y)%Z ∧ (mkt_value s = VNone ∨ price_to_rent s = VNone)
     ∧ snd (run_simulation s y) = Raise TypeError)
  ∨ ((1 ≤ y)%Z ∧ (∃ l, price_to_rent s = VTuple l ∧ length l ≠ 2%nat)
     ∧ snd (run_simulation s y) = Raise AssertionError)
  ∨ ((1 ≤ y)%Z ∧ resolved s
     ∧ ∃ df0, pretax_df (fst (run_simulation s y)) = Some df0
              ∧ nrows df0 = (Z.to_nat y * 12)%nat).
Proof.
  intros Hinit.
  destruct (init_Ok_shape _ _ _ Hinit) as [Hmkt Hptr].
  destruct (Z_lt_le_dec y 1) as [Hy | Hy].
  { left. split; [done |]. by apply run_simulation_no_years. }
  right. destruct Hmkt as [Hm | (m & c & Hm & Hc)].
  { left. split; [done |]. split; [by left |].
    by apply run_simulation_no_market_value. }
  destruct (price_to_rent s) as [| n | l] eqn:Hp.
  - left. split; [done |]. split; [by right |].
    by apply (run_simulation_no_trajectory s y m).
  - by destruct (Hptr n).
  - destruct (decide (length l = 2%nat)) as [Hl | Hl].
    + destruct l as [| st [| en [| x l]]]; try discriminate.
      right; right. split; [done |]. split; [by exists m, st, en, c |].
      destruct (Z.to_nat y) as [| k] eqn:Hk; [lia |].
      destruct (projection_ok (set_years y s) y m st en k)
        as (df0 & Hproj & Hn0 & _); [done .. |].
      unfold run_simulation. rewrite Hproj. cbn [fst]. by exists df0.
    + right; left. split; [done |]. split; [by exists l |].
      unfold run_simulation.
      rewrite (projection_not_pair _ y m); [| done | done |].
      * cbn [price_to_rent set_years snd]. by rewrite Hp.
      * intros st en. cbn [price_to_rent set_years]. rewrite Hp.
        intros [= ->]. by apply Hl.
Qed.

Lemma run_after_constructor_witness :
  ((3 < 1)%Z ∧ snd (run_simulation example_scenario 3) = Raise ValueError)
  ∨ ((1 ≤ 3)%Z
     ∧ (mkt_value example_scenario = VNone ∨ price_to_rent example_scenario = VNone)
     ∧ snd (run_simulation example_scenario 3) = Raise TypeError)
  ∨ ((1 ≤ 3)%Z
     ∧ (∃ l, price_to_rent example_scenario = VTuple l ∧ length l ≠ 2%nat)
     ∧ snd (run_simulation example_scenario 3) = Raise AssertionError)
  ∨ ((1 ≤ 3)%Z ∧ resolved example_scenario
     ∧ ∃ df0, pretax_df (fst (run_simulation example_scenario 3)) = Some df0
              ∧ nrows df0 = (Z.to_nat 3 * 12)%nat).
Proof.
  exact (run_after_constructor example_args (print_args example_scenario)
           example_scenario 3 init_example).
Defined.

(** ** Rent, trajectory and discounting in special cases *)

Lemma ptr_ratio_column_constant (x : R) (n : nat) :
  (λ i, Real (x + (x - x) / (INR n - 1) * INR i)) <$> seq 0 n = replicate n (Real x).
Proof.
  apply list_eq. intros i. rewrite list_lookup_fmap.
  destruct (decide (i < n)%nat) as [Hi | Hi].
  - rewrite lookup_seq_lt, lookup_replicate_2 by done. cbn. do 2 f_equal.
    unfold Rdiv. ring.
  - rewrite lookup_seq_ge by lia. symmetry. apply lookup_replicate_None. lia.
Qed.

(** X25: in a run that returns on a constant trajectory [(x, x)], the
    price-to-rent ratio of every month is [x]. *)
Theorem constant_trajectory_constant_ratio (s s' : HousingMarket) (y : Z)
    (res : Results) (df : DataFrame) (st : number) :
  run_simulation s y = (s', Ok (res, df)) → price_to_rent s = VTuple [st; st] →
  df_get df "ptr_ratio" = Ok (replicate (Z.to_nat y * 12) (Real (num_val st))).
Proof.
  intros Hrun Hst.
  destruct (run_simulation_returns_eq _ _ _ _ _ Hrun)
    as (m & st' & en' & c & k & g & Hm & Hp & Hc & Hk & Hg & Hden & H).
  cbv zeta in H. destruct H as (_ & -> & _ & _).
  rewrite Hst in Hp. injection Hp as <- <-. rewrite Hk.
  df_lookup. f_equal. apply ptr_ratio_column_constant.
Qed.

Lemma constant_trajectory_constant_ratio_witness :
  ∃ s' res df,
    run_simulation example_scenario 1 = (s', Ok (res, df))
    ∧ df_get df "ptr_ratio" = Ok (replicate (Z.to_nat 1 * 12) (Real (IZR 20))).
Proof.
  destruct (run_simulation_ok example_scenario 1 (PyFloat 5e5) (PyInt 20) (PyInt 20)
              (5e5 * 0.03) 0 eq_refl eq_refl eq_refl eq_refl annuity_denominator_example)
    as (s' & res & df & mv & rent & Hrun & _).
  exists s', res, df. split; [exact Hrun |].
  exact (constant_trajectory_constant_ratio example_scenario s' 1 res df (PyInt 20)
           Hrun eq_refl).
Defined.

Lemma init_growth (a : Args) (out : list printed) (s : HousingMarket) :
  __init__ a = (out, Ok s) →
  growth s = arg_growth a ∧ mortgage_rate s = arg_mortgage_rate a.
Proof.
  unfold __init__.
  destruct (is_none (arg_mkt_value a) && is_none (arg_monthly_rent a)
            && is_none (arg_price_to_rent a)).
  - by intros [= <- <-].
  - destruct (init_resolve a (init_fields a)) as [s' | e] eqn:Hres; [| discriminate].
    intros [= <- <-].
    destruct (init_resolve_Ok_inv _ _ _ Hres) as (s1 & m & Htraj & Hm & ->).
    cbn [growth mortgage_rate set_capital].
    by destruct (init_trajectory_rates _ _ _ Htraj) as (-> & _ & _ & -> & _).
Qed.

(** X26: an object built from a non-zero market value and a rent, with
    [growth > -1], rents at the end of year [j] of a run that returns for
    the given rent times [(1 + growth)^j]: the rent follows the market
    value, the ratio staying what the two inputs made it. *)
Theorem rent_follows_market (a : Args) (out : list printed) (s s' : HousingMarket)
    (m r : number) (y : Z) (res : Results) (df : DataFrame) :
  __init__ a = (out, Ok s) →
  arg_mkt_value a = VNum m → arg_monthly_rent a = VNum r → num_val m ≠ 0 →
  0 < arg_growth a + 1 →
  run_simulation s y = (s', Ok (res, df)) →
  ∃ rent,
    df_get df "monthly_rent" = Ok rent
    ∧ ∀ j, (1 ≤ j ≤ Z.to_nat y)%nat →
        rent !! (12 * j - 1)%nat = Some (Real (num_val r * (arg_growth a + 1) ^ j)).
Proof.
  intros Hinit Ham Har Hm0 Hgrowth Hrun.
  assert (Hr0 : num_val r ≠ 0).
  { intros Hz. rewrite (init_zero_rent a m r) in Hinit by done. discriminate. }
  destruct (init_value_and_rent a m r) as (s0 & Hs0 & Hmv & Hptr & _); [done .. |].
  rewrite Hinit in Hs0. injection Hs0 as _ <-.
  rewrite <- (proj1 (init_growth _ _ _ Hinit)) in *.
  destruct (run_simulation_returns_eq _ _ _ _ _ Hrun)
    as (m' & st & en & c & k & g & Hm & Hp & Hc & Hk & Hg & Hden & H).
  cbv zeta in H. destruct H as (_ & -> & _ & _).
  rewrite Hmv in Hm. injection Hm as <-.
  rewrite Hptr in Hp. injection Hp as <- <-.
  rewrite py_pow_positive_base in Hg by done. injection Hg as <-.
  eexists. split; [by df_lookup |].
  intros j Hj. cbn [num_val].
  rewrite ptr_ratio_column_constant.
  rewrite list_lookup_fmap, lookup_zip_with, lookup_market_value by lia.
  rewrite lookup_replicate_2 by lia.
  cbn [mbind option_bind fmap option_fmap option_map].
  replace (12 * j - 1 + 1)%nat with (12 * j)%nat by lia.
  rewrite monthly_growth_compounds by done.
  assert (Hptr0 : num_val m / (12 * num_val r) ≠ 0).
  { unfold Rdiv. apply Rmult_integral_contrapositive_currified; [done |].
    apply Rinv_neq_0_compat. lra. }
  rewrite cdiv_real by done. rewrite cdiv_real by lra.
  do 2 f_equal. field. lra.
Qed.

Lemma rent_follows_market_witness :
  ∃ s s' res df rent,
    __init__ (with_monthly_rent (VNum (PyInt 2000))
                (with_mkt_value (VNum (PyInt 480000)) defaults))
      = (print_args s, Ok s)
    ∧ run_simulation s 1 = (s', Ok (res, df))
    ∧ df_get df "monthly_rent" = Ok rent
    ∧ ∀ j, (1 ≤ j ≤ Z.to_nat 1)%nat →
        rent !! (12 * j - 1)%nat = Some (Real (IZR 2000 * (0.05 + 1) ^ j)).
Proof.
  destruct (init_value_and_rent
              (with_monthly_rent (VNum (PyInt 2000))
                 (with_mkt_value (VNum (PyInt 480000)) defaults))
              (PyInt 480000) (PyInt 2000) eq_refl eq_refl)
    as (s & Hinit & Hmv & Hptr & Hcap); [simpl; lra |].
  destruct (init_growth _ _ _ Hinit) as [_ Hrate].
  assert (Hden : annuity_denominator s (1 * 12) ≠ 0).
  { apply annuity_denominator_positive_rate; [rewrite Hrate; simpl; lra | lia]. }
  destruct (run_simulation_ok s 1 _ _ _ _ 0 Hmv Hptr Hcap eq_refl Hden)
    as (s' & res & df & mv & rent0 & Hrun & _).
  destruct (rent_follows_market _ _ s s' (PyInt 480000) (PyInt 2000) 1 res df
              Hinit eq_refl eq_refl ltac:(simpl; lra) ltac:(simpl; lra) Hrun)
    as (rent & Hrent & Hj).
  by exists s, s', res, df, rent.
Defined.

Lemma cdiv_one (c : cell) : (c / Real 1)%cell = c.
Proof.
  destruct c as [x |]; [| reflexivity]. rewrite cdiv_real by lra. f_equal. lra.
Qed.

Lemma zip_with_cdiv_ones (l : list cell) (n : nat) :
  length l = n → zip_with cdiv l (replicate n (Real 1)) = l.
Proof.
  intros <-. induction l as [| c l IH]; [done |].
  cbn [length replicate zip_with]. by rewrite cdiv_one, IH.
Qed.

(** X27: with [interest_rate = 0] a call of [calc_return] that returns has
    written a discount factor of 1 in every row and has left the net
    income undiscounted. *)
Theorem zero_interest_rate_no_discount (s : HousingMarket) (df df' : DataFrame)
    (res : Results) (ni : list cell) :
  calc_return s df = Ok (res, df') →
  df_get df "net_income" = Ok ni → length ni = nrows df →
  interest_rate s = 0 →
  df_get df' "discount_factor" = Ok (replicate (nrows df) (Real 1))
  ∧ df_get df' "discounted_net_income" = Ok ni.
Proof.
  intros H Hni Hlen Hrate. unfold calc_return in H. cbv zeta in H.
  apply bind_Ok_inv in H as (ni0 & Hni0 & H). cbv beta in H.
  apply bind_Ok_inv in H as (dfac & Hdfac & H). cbv beta in H.
  apply bind_Ok_inv in H as (dni & Hdni & H). cbv beta in H.
  do 9 (apply bind_Ok_inv in H as (? & _ & H); cbv beta in H).
  injection H as _ <-.
  rewrite df_get_set_ne in Hni0 by done. rewrite Hni in Hni0. injection Hni0 as <-.
  rewrite df_get_set_eq in Hdfac. injection Hdfac as <-.
  assert (Hones : (λ i : nat, Real ((1 + interest_rate s / 12) ^ (i + 1))) <$> df_index df
                  = replicate (nrows df) (Real 1)).
  { unfold df_index. apply list_eq. intros i. rewrite list_lookup_fmap.
    destruct (decide (i < nrows df)%nat) as [Hi | Hi].
    - rewrite lookup_seq_lt, lookup_replicate_2 by done. cbn. do 2 f_equal.
      rewrite Hrate. replace (1 + 0 / 12) with 1 by lra. apply pow1.
    - rewrite lookup_seq_ge by lia. symmetry. apply lookup_replicate_None. lia. }
  rewrite Hones. df_lookup. split; [done |].
  by rewrite zip_with_cdiv_ones.
Qed.

Lemma init_undiscounted :
  __init__ undiscounted_args = (print_args undiscounted_scenario, Ok undiscounted_scenario).
Proof. reflexivity. Qed.

Lemma zero_interest_rate_no_discount_witness :
  ∃ res df',
    calc_return (set_years 1 undiscounted_scenario) one_month_frame = Ok (res, df')
    ∧ df_get df' "discount_factor" = Ok (replicate (nrows one_month_frame) (Real 1))
    ∧ df_get df' "discounted_net_income" = Ok [Real 100].
Proof.
  destruct (calc_return_ok (set_years 1 undiscounted_scenario) one_month_frame
              [Real 100] [Real 5e5] [Real 1] (5e5 * 0.03) 1 0)
    as (mv_last & _ & Heq);
    try solve [reflexivity | unfold one_month_frame; by df_lookup | discriminate].
  eexists _, _. split; [exact Heq |].
  apply (zero_interest_rate_no_discount (set_years 1 undiscounted_scenario)
           one_month_frame _ _ [Real 100] Heq);
    solve [reflexivity | unfold one_month_frame; by df_lookup].
Defined.

(** ** When the calls return *)

Lemma well_formed_one_month : well_formed one_month_frame.
Proof.
  unfold one_month_frame. repeat apply well_formed_set; try reflexivity.
  intros name c H. cbn in H. by rewrite lookup_empty in H.
Qed.

(** X28: on a well-formed frame [calc_return] returns exactly when the
    frame has a row and the columns [net_income], [market_value] and
    [years], and the object has its capital and a horizon other than zero:
    no interest rate, capital or cell value makes it raise. *)
Theorem calc_return_returns_iff (s : HousingMarket) (df : DataFrame) :
  well_formed df →
  (∃ r, calc_return s df = Ok r)
  ↔ ((0 < nrows df)%nat
     ∧ (∃ ni mv ys, df_get df "net_income" = Ok ni
                    ∧ df_get df "market_value" = Ok mv
                    ∧ df_get df "years" = Ok ys)
     ∧ (∃ c, capital s = Some c)
     ∧ ∃ y, years s = Some y ∧ y ≠ 0%Z).
Proof.
  intros Hwf. split.
  - intros [r H]. unfold calc_return in H. cbv zeta in H.
    apply bind_Ok_inv in H as (ni & Hni & H). cbv beta in H.
    apply bind_Ok_inv in H as (dfac & _ & H). cbv beta in H.
    apply bind_Ok_inv in H as (dni & _ & H). cbv beta in H.
    apply bind_Ok_inv in H as (mv_last & Hlast & H). cbv beta in H.
    apply bind_Ok_inv in H as (c & Hc & H). cbv beta in H.
    apply bind_Ok_inv in H as (dl & _ & H). cbv beta in H.
    apply bind_Ok_inv in H as (y & Hy & H). cbv beta in H.
    apply bind_Ok_inv in H as (e & He & H). cbv beta in H.
    apply bind_Ok_inv in H as (by1 & Hby1 & _).
    rewrite df_get_set_ne in Hni by done.
    unfold df_last in Hlast. cbn [nrows df_set] in Hlast.
    destruct (nrows df) as [| n] eqn:Hn; [discriminate |].
    apply bind_Ok_inv in Hlast as (mv & Hmv & _).
    rewrite !df_get_set_ne in Hmv by done.
    apply df_project_cons in Hby1 as (d1 & ys & _ & Hys & _).
    rewrite !df_get_set_ne in Hys by done.
    apply attr_Ok_inv in Hc, Hy. apply py_div_Ok_inv in He.
    split; [lia |]. split; [by exists ni, mv, ys |]. split; [by exists c |].
    exists y. split; [done |]. by intros ->.
  - intros (Hn & (ni & mv & ys & Hni & Hmv & Hys) & [c Hc] & (y & Hy & Hy0)).
    destruct (nrows df) as [| n] eqn:Hrows; [lia |].
    destruct (calc_return_ok s df ni mv ys c y n) as (mv_last & _ & Heq); try done.
    + by rewrite (well_formed_get _ _ _ Hwf Hmv).
    + cbv zeta in Heq. eauto.
Qed.

Lemma calc_return_returns_iff_witness :
  (∃ r, calc_return (set_years 1 example_scenario) one_month_frame = Ok r)
  ↔ ((0 < nrows one_month_frame)%nat
     ∧ (∃ ni mv ys, df_get one_month_frame "net_income" = Ok ni
                    ∧ df_get one_month_frame "market_value" = Ok mv
                    ∧ df_get one_month_frame "years" = Ok ys)
     ∧ (∃ c, capital (set_years 1 example_scenario) = Some c)
     ∧ ∃ y, years (set_years 1 example_scenario) = Some y ∧ y ≠ 0%Z).
Proof.
  exact (calc_return_returns_iff (set_years 1 example_scenario) one_month_frame
           well_formed_one_month).
Defined.

(** X29: whenever [run_simulation] returns, the horizon was a year or
    more, the object held a numeric market value, a two-point trajectory
    and its capital, the mortgage rate was not zero and the annuity
    denominator [(1 + rate/12)^n - 1] was not zero; the object now holds
    the horizon in [self.years]. *)
Theorem run_simulation_returns_only_if (s s' : HousingMarket) (y : Z)
    (res : Results) (df : DataFrame) :
  run_simulation s y = (s', Ok (res, df)) →
  (1 ≤ y)%Z ∧ resolved s ∧ mortgage_rate s ≠ 0
  ∧ annuity_denominator s (Z.to_nat y * 12) ≠ 0
  ∧ years s' = Some y.
Proof.
  intros Hrun.
  destruct (run_simulation_returns_eq _ _ _ _ _ Hrun)
    as (m & st & en & c & k & g & Hm & Hp & Hc & Hk & Hg & Hden & H).
  cbv zeta in H. destruct H as (-> & _).
  split; [lia |]. split; [by exists m, st, en, c |].
  split; [| split; [by rewrite Hk | done]].
  intros Hr. by apply Hden, annuity_denominator_zero_rate.
Qed.

Lemma run_simulation_returns_only_if_witness :
  ∃ s' res df,
    run_simulation example_scenario 1 = (s', Ok (res, df))
    ∧ (1 ≤ 1)%Z ∧ resolved example_scenario ∧ mortgage_rate example_scenario ≠ 0
    ∧ annuity_denominator example_scenario (Z.to_nat 1 * 12) ≠ 0
    ∧ years s' = Some 1%Z.
Proof.
  destruct (run_simulation_ok example_scenario 1 (PyFloat 5e5) (PyInt 20) (PyInt 20)
              (5e5 * 0.03) 0 eq_refl eq_refl eq_refl eq_refl annuity_denominator_example)
    as (s' & res & df & mv & rent & Hrun & _).
  exists s', res, df. split; [exact Hrun |].
  exact (run_simulation_returns_only_if example_scenario s' 1 res df Hrun).
Defined.

(** ** Calling [calc_return] again *)

Lemma df_set_twice (df : DataFrame) (a b : string) (x y : list cell) :
  a ≠ b →
  df_set (df_set (df_set (df_set df a x) b y) a x) b y = df_set (df_set df a x) b y.
Proof.
  intros Hne. unfold df_set. cbn [nrows columns]. f_equal.
  rewrite (insert_insert_ne _ a b) by done.
  by rewrite !insert_insert_eq.
Qed.

Lemma calc_return_twice (s : HousingMarket) (df df' : DataFrame) (res : Results) :
  calc_return s df = Ok (res, df') → calc_return s df' = Ok (res, df').
Proof.
  intros H.
  assert (Hdf' : ∃ ni,
    df_get df "net_income" = Ok ni
    ∧ df' = df_set (df_set df "discount_factor"
                      ((λ i : nat, Real ((1 + interest_rate s / 12) ^ (i + 1)))
                         <$> df_index df))
              "discounted_net_income"
              (zip_with cdiv ni
                 ((λ i : nat, Real ((1 + interest_rate s / 12) ^ (i + 1)))
                    <$> df_index df))).
  { pose proof H as H2. unfold calc_return in H2. cbv zeta in H2.
    apply bind_Ok_inv in H2 as (ni & Hni & H2). cbv beta in H2.
    apply bind_Ok_inv in H2 as (dfac & Hdfac & H2). cbv beta in H2.
    do 10 (apply bind_Ok_inv in H2 as (? & _ & H2); cbv beta in H2).
    injection H2 as _ <-.
    rewrite df_get_set_ne in Hni by done.
    rewrite df_get_set_eq in Hdfac. injection Hdfac as <-.
    by exists ni. }
  destruct Hdf' as (ni & Hni & ->).
  unfold calc_return in H |- *. cbv zeta in H |- *.
  change (df_index (df_set (df_set df "discount_factor" ?x) "discounted_net_income" ?y))
    with (df_index df).
  generalize dependent ((λ i : nat, Real ((1 + interest_rate s / 12) ^ (i + 1)))
                          <$> df_index df).
  intros F H.
  rewrite !(df_get_set_ne _ _ "net_income"), Hni by done.
  rewrite (df_get_set_ne _ _ "net_income"), Hni in H by done.
  rewrite bind_ok in H |- *. cbv beta in H |- *.
  rewrite df_get_set_eq in H |- *.
  rewrite bind_ok in H |- *. cbv beta in H |- *.
  rewrite df_set_twice by done.
  exact H.
Qed.

(** X30: [calc_return] is idempotent: called again on the frame it handed
    back, it returns the same results and leaves the frame as it is. *)
Theorem calc_return_idempotent (s : HousingMarket) (df df' : DataFrame)
    (res : Results) :
  calc_return s df = Ok (res, df') → calc_return s df' = Ok (res, df').
Proof. apply calc_return_twice. Qed.

Lemma calc_return_idempotent_witness :
  ∃ res df',
    calc_return (set_years 1 example_scenario) one_month_frame = Ok (res, df')
    ∧ calc_return (set_years 1 example_scenario) df' = Ok (res, df').
Proof.
  destruct (calc_return_ok (set_years 1 example_scenario) one_month_frame
              [Real 100] [Real 5e5] [Real 1] (5e5 * 0.03) 1 0)
    as (mv_last & _ & Heq);
    try solve [reflexivity | unfold one_month_frame; by df_lookup | discriminate].
  eexists _, _. split; [exact Heq |].
  exact (calc_return_idempotent _ _ _ _ Heq).
Defined.

(** After a run that returns, [calc_return] on the object and the returned
    frame gives the results of the run again. *)
Lemma calc_return_after_run (s s' : HousingMarket) (y : Z) (res : Results)
    (df : DataFrame) :
  run_simulation s y = (s', Ok (res, df)) → calc_return s' df = Ok (res, df).
Proof.
  unfold run_simulation. cbv zeta.
  destruct (projection (set_years y s) y) as [df0 | e]; [| discriminate].
  intros [= <- H]. unfold cash_flows in H.
  do 11 (apply bind_Ok_inv in H as (? & _ & H); cbv beta zeta in H).
  by apply calc_return_twice in H.
Qed.

(** ** The payment and the property tax in a run that returns *)

(** C5: on a resolved scenario and for one year or more, in every run that
    returns the monthly mortgage is one value over the [years * 12]
    months, the annuity value [P * r_m * (1 + r_m)^n / ((1 + r_m)^n - 1)],
    whose denominator is then not zero; where that quotient has no value,
    its denominator being zero, the run raises [ZeroDivisionError]. *)
Theorem mortgage_payment_constant (s : HousingMarket) (years : Z) (m : number) :
  resolved s → mkt_value s = VNum m → (1 ≤ years)%Z →
  let n := Z.to_nat (years * 12) in
  let P := num_val m * (1 - downpayment s) * (1 + mortgage_fee s) in
  let r_m := mortgage_rate s / 12 in
  (∀ s' res df,
     run_simulation s years = (s', Ok (res, df)) →
     (1 + r_m) ^ n - 1 ≠ 0
     ∧ nrows df = n
     ∧ df_get df "monthly_mortgage"
       = Ok (replicate n (Real (P * r_m * (1 + r_m) ^ n / ((1 + r_m) ^ n - 1)))))
  ∧ ((1 + r_m) ^ n - 1 = 0 → snd (run_simulation s years) = Raise ZeroDivisionError).
Proof.
  intros Hres Hm Hy n P r_m.
  destruct (Z.to_nat years) as [| k] eqn:Hk; [lia |].
  assert (Hn : n = (S k * 12)%nat) by (by apply months_of_years).
  split.
  - intros s' res df Hrun.
    destruct (run_simulation_returns_eq _ _ _ _ _ Hrun)
      as (m' & st & en & c & k' & g & Hm' & Hp & Hc & Hk' & Hg & Hden & H).
    cbv zeta in H. destruct H as (_ & -> & _ & _).
    rewrite Hm in Hm'. injection Hm' as <-.
    rewrite Hk in Hk'. injection Hk' as <-.
    rewrite Hn. split; [exact Hden |]. split; [reflexivity |]. by df_lookup.
  - intros Hden. apply (run_simulation_zero_denominator s years k); [done .. |].
    by rewrite <- Hn.
Qed.

Lemma mortgage_payment_constant_witness :
  ∃ s' res df,
    run_simulation example_scenario 1 = (s', Ok (res, df))
    ∧ (1 + 0.04 / 12) ^ 12 - 1 ≠ 0
    ∧ nrows df = 12%nat
    ∧ df_get df "monthly_mortgage"
      = Ok (replicate 12
              (Real (5e5 * (1 - 0.03) * (1 + 0.01) * (0.04 / 12) * (1 + 0.04 / 12) ^ 12
                     / ((1 + 0.04 / 12) ^ 12 - 1)))).
Proof.
  destruct (run_simulation_ok example_scenario 1 (PyFloat 5e5) (PyInt 20) (PyInt 20)
              (5e5 * 0.03) 0 eq_refl eq_refl eq_refl eq_refl annuity_denominator_example)
    as (s' & res & df & mv & rent & Hrun & _).
  exists s', res, df. split; [exact Hrun |].
  exact (proj1 (mortgage_payment_constant example_scenario 1 (PyFloat 5e5)
                  resolved_example eq_refl ltac:(lia)) s' res df Hrun).
Defined.

(** C6: in the frame a run returns the month column counts 1 to 12 year
    after year, the mortgage is one real payment, and the spending of a
    month is the management fee on the rent, the tax-and-depreciation term
    and the property tax: the annual rate times the market value of the
    month when the month is 12, zero in every other month.  Where the
    market value is a real number and the ratio of the month is not zero
    (with [growth > -1] the market value is one), the spending is the real
    number these three terms add up to, so the tax of a month 12 shows in
    it and no tax shows in any other month. *)
Theorem property_tax_in_month_twelve (s s' : HousingMarket) (years : Z)
    (res : Results) (df : DataFrame) :
  run_simulation s years = (s', Ok (res, df)) →
  ∃ (m st en : number) (mo mv pr rent sp : list cell) (pay : R),
    mkt_value s = VNum m
    ∧ price_to_rent s = VTuple [st; en]
    ∧ df_get df "month" = Ok mo
    ∧ df_get df "market_value" = Ok mv
    ∧ df_get df "ptr_ratio" = Ok pr
    ∧ df_get df "monthly_rent" = Ok rent
    ∧ df_get df "monthly_mortgage" = Ok (replicate (nrows df) (Real pay))
    ∧ df_get df "monthly_spending" = Ok sp
    ∧ nrows df = Z.to_nat (years * 12)
    ∧ ∀ i : nat, (i < nrows df)%nat →
        ∃ (mv_i : cell) (p : R),
          p = num_val st + (num_val en - num_val st) / (INR (nrows df) - 1) * INR i
          ∧ mo !! i = Some (Real (INR (i mod 12 + 1)))
          ∧ mv !! i = Some mv_i
          ∧ (0 < growth s + 1 →
             mv_i = Real (num_val m * Rpower (growth s + 1) (1 / 12) ^ (i + 1)))
          ∧ pr !! i = Some (Real p)
          ∧ rent !! i = Some (mv_i / Real p / Real 12)%cell
          ∧ sp !! i
            = Some ((mv_i / Real p / Real 12) * Real (management_fee s)
                    + ((mv_i / Real p / Real 12) - Real pay)
                      * Real (rental_tax_n_depreciation s)
                    + (if decide ((i mod 12 + 1)%nat = 12%nat)
                       then Real (property_tax_annual s) * mv_i
                       else Real 0))%cell
          ∧ ∀ v : R, mv_i = Real v → p ≠ 0 →
              sp !! i
              = Some (Real ((v / p / 12) * management_fee s
                            + ((v / p / 12) - pay) * rental_tax_n_depreciation s
                            + (if decide ((i mod 12 + 1)%nat = 12%nat)
                               then property_tax_annual s * v
                               else 0))).
Proof.
  intros Hrun.
  destruct (run_simulation_returns_eq _ _ _ _ _ Hrun)
    as (m & st & en & c & k & g & Hm & Hp & Hc & Hk & Hg & Hden & H).
  cbv zeta in H. destruct H as (_ & -> & _ & _).
  exists m, st, en. eexists _, _, _, _, _, _.
  split; [exact Hm |]. split; [exact Hp |].
  split; [df_lookup; apply df_get_present |].
  split; [by df_lookup |]. split; [by df_lookup |]. split; [by df_lookup |].
  split; [by df_lookup |]. split; [by df_lookup |].
  split; [cbn [nrows df_set df_drop]; by rewrite (months_of_years years k) |].
  cbn [nrows df_set df_drop]. intros i Hi.
  match goal with |- context [cumprod ?l] =>
    destruct (lookup_lt_is_Some_2 ((λ x, Real (num_val m) * x)%cell <$> cumprod l) i)
      as [mv_i Hmvi]; [lengths |]
  end.
  exists mv_i. eexists. split; [reflexivity |].
  split; [by apply lookup_month |]. split; [exact Hmvi |].
  split.
  { intros Hgrowth. rewrite py_pow_positive_base in Hg by done. injection Hg as <-.
    rewrite lookup_market_value in Hmvi by done. injection Hmvi as <-.
    do 3 f_equal. lra. }
  assert (Hpr : ((λ j : nat, Real (num_val st + (num_val en - num_val st)
                                               / (INR (S k * 12) - 1) * INR j))
                   <$> seq 0 (S k * 12)) !! i
                = Some (Real (num_val st + (num_val en - num_val st)
                                           / (INR (S k * 12) - 1) * INR i))).
  { by rewrite list_lookup_fmap, lookup_seq_lt. }
  split; [exact Hpr |].
  split.
  { rewrite list_lookup_fmap, lookup_zip_with, Hmvi, Hpr. reflexivity. }
  assert (Hsp : ∀ q : cell,
    q = (mv_i / Real (num_val st + (num_val en - num_val st)
                                   / (INR (S k * 12) - 1) * INR i) / Real 12)%cell →
    zip_with cadd
      (zip_with cadd
         ((λ x, x * Real (management_fee s))%cell
            <$> ((λ x, x / Real 12)%cell
                   <$> zip_with cdiv
                         ((λ x, Real (num_val m) * x)%cell
                            <$> cumprod ((λ x, x + Real 1)%cell
                                           <$> replicate (S k * 12) (g - Real 1)%cell))
                         ((λ j : nat, Real (num_val st + (num_val en - num_val st)
                                                        / (INR (S k * 12) - 1) * INR j))
                            <$> seq 0 (S k * 12))))
         ((λ x, x * Real (rental_tax_n_depreciation s))%cell
            <$> zip_with csub
                  ((λ x, x / Real 12)%cell
                     <$> zip_with cdiv
                           ((λ x, Real (num_val m) * x)%cell
                              <$> cumprod ((λ x, x + Real 1)%cell
                                             <$> replicate (S k * 12) (g - Real 1)%cell))
                           ((λ j : nat, Real (num_val st + (num_val en - num_val st)
                                                          / (INR (S k * 12) - 1) * INR j))
                              <$> seq 0 (S k * 12)))
                  (replicate (S k * 12)
                     (Real (annuity_numerator s (num_val m) (S k * 12)
                            / annuity_denominator s (S k * 12))))))
      (zip_with (calc_property_tax s)
         (mjoin (replicate (S k) ((λ m, Real (INR m)) <$> seq 1 12)))
         ((λ x, Real (num_val m) * x)%cell
            <$> cumprod ((λ x, x + Real 1)%cell
                           <$> replicate (S k * 12) (g - Real 1)%cell))) !! i
    = Some (q * Real (management_fee s)
            + (q - Real (annuity_numerator s (num_val m) (S k * 12)
                         / annuity_denominator s (S k * 12)))
              * Real (rental_tax_n_depreciation s)
            + (if decide ((i mod 12 + 1)%nat = 12%nat)
               then Real (property_tax_annual s) * mv_i
               else Real 0))%cell).
  { intros q ->.
    repeat first
      [ rewrite Hmvi | rewrite Hpr | rewrite lookup_replicate_2 by done
      | rewrite lookup_month by done | rewrite lookup_zip_with
      | rewrite list_lookup_fmap
      | progress cbn [fmap option_fmap option_map mbind option_bind] ].
    by rewrite calc_property_tax_month. }
  split; [by apply Hsp |].
  intros v -> Hp0. rewrite (Hsp _ eq_refl).
  rewrite cdiv_real by done. rewrite cdiv_real by lra.
  case_decide; reflexivity.
Qed.

Lemma property_tax_in_month_twelve_witness :
  ∃ s' res df sp pay,
    run_simulation example_scenario 1 = (s', Ok (res, df))
    ∧ df_get df "monthly_mortgage" = Ok (replicate (nrows df) (Real pay))
    ∧ df_get df "monthly_spending" = Ok sp
    ∧ sp !! 11%nat
      = Some (Real (5e5 * Rpower (0.05 + 1) (1 / 12) ^ 12 / 20 / 12 * 0.08
                    + (5e5 * Rpower (0.05 + 1) (1 / 12) ^ 12 / 20 / 12 - pay) * 0.1
                    + 0.015 * (5e5 * Rpower (0.05 + 1) (1 / 12) ^ 12)))
    ∧ sp !! 0%nat
      = Some (Real (5e5 * Rpower (0.05 + 1) (1 / 12) ^ 1 / 20 / 12 * 0.08
                    + (5e5 * Rpower (0.05 + 1) (1 / 12) ^ 1 / 20 / 12 - pay) * 0.1
                    + 0)).
Proof.
  destruct (run_simulation_ok example_scenario 1 (PyFloat 5e5) (PyInt 20) (PyInt 20)
              (5e5 * 0.03) 0 eq_refl eq_refl eq_refl eq_refl annuity_denominator_example)
    as (s' & res & df & mv0 & rent0 & Hrun & _).
  destruct (property_tax_in_month_twelve example_scenario s' 1 res df Hrun)
    as (m & st & en & mo & mv & pr & rent & sp & pay & Hm & Hp & _ & _ & _ & _
        & Hmort & Hsp & Hrows & Hrow).
  injection Hm as <-. injection Hp as <- <-.
  change (Z.to_nat (1 * 12)) with 12%nat in Hrows.
  exists s', res, df, sp, pay.
  split; [exact Hrun |]. split; [exact Hmort |]. split; [exact Hsp |].
  rewrite Hrows in Hrow.
  assert (Hgrowth : 0 < growth example_scenario + 1) by (simpl; lra).
  split.
  - destruct (Hrow 11%nat ltac:(lia))
      as (mv_i & p & Hpeq & _ & _ & Hreal & _ & _ & _ & Hcell).
    assert (Hp20 : p = 20) by (rewrite Hpeq; simpl; lra).
    rewrite (Hcell _ (Hreal Hgrowth)) by lra.
    rewrite Hp20. simpl. first [reflexivity | do 2 f_equal; lra].
  - destruct (Hrow 0%nat ltac:(lia))
      as (mv_i & p & Hpeq & _ & _ & Hreal & _ & _ & _ & Hcell).
    assert (Hp20 : p = 20) by (rewrite Hpeq; simpl; lra).
    rewrite (Hcell _ (Hreal Hgrowth)) by lra.
    rewrite Hp20. simpl. first [reflexivity | do 2 f_equal; lra].
Defined.
